(** * A verified model of [scripts/parse_outputs.py]

    The parser turns one markdown report per jurisdiction
    ([agent_output.md]) into a structured record ([metadata.json]) and
    keeps a run log ([logs/parse_log.json]).

    Modelling conventions.
    - Text is a list of characters; a character is a code point of the
      ASCII range, which is where the fixed markup vocabulary of the
      reports lives.  The character classes below ([isspace], [isdigit],
      line boundaries, case mapping) are Python's on that range
      ([is_ascii]); a statement that depends on them for the text of a
      report says so with [ascii_text].
    - A call that can raise has its exception in the model: reading a
      report that cannot be read, [int] on more than 4300 digits, and
      [append] on a run log that is not a list.
    - Every regular expression of the source is written with the small
      backtracking combinators of [Module Re], one combinator per
      construct of the pattern, in the order of the pattern.
    - The file system, the clock and standard output are fields of an
      explicit [world]; the functions that touch them live in a state
      monad with early exit. *)

From Stdlib Require Import Ascii String List NArith Lia DecimalString DecimalN.
From stdpp Require Import base option list strings gmap.

Abbreviation str := (list ascii).

(** String literals of the source are written as Rocq strings and read
    as texts. *)
Definition lit (s : string) : str := list_ascii_of_string s.
Coercion lit : string >-> list.

(** ** Characters *)

Definition code (c : ascii) : N := N_of_ascii c.

Definition in_range (lo hi : N) (c : ascii) : bool :=
  ((lo <=? code c) && (code c <=? hi))%N.

(** [str.isspace] and the regex class [\s] on the ASCII range: TAB LF VT
    FF CR, FS GS RS US and the space. *)
Definition isspace (c : ascii) : bool := in_range 9 13 c || in_range 28 32 c.

(** The regex class [\d] on the ASCII range. *)
Definition isdigit (c : ascii) : bool := in_range 48 57 c.

(** Line boundaries of [str.splitlines] on the ASCII range: LF VT FF CR,
    FS GS RS. *)
Definition is_linebreak (c : ascii) : bool := in_range 10 13 c || in_range 28 30 c.

Definition LF : ascii := ascii_of_N 10.
Definition CR : ascii := ascii_of_N 13.

(** The regex [.] without DOTALL: anything but a line feed. *)
Definition not_newline (c : ascii) : bool := negb (bool_decide (c = LF)).

(** [str.lower] and [str.upper] on one character of the ASCII range. *)
Definition lower_char (c : ascii) : ascii :=
  if in_range 65 90 c then ascii_of_N (code c + 32) else c.

Definition upper_char (c : ascii) : ascii :=
  if in_range 97 122 c then ascii_of_N (code c - 32) else c.

(** The ASCII range, on which the classes and the mappings above are
    Python's. *)
Definition is_ascii (c : ascii) : bool := (code c <? 128)%N.

Definition ascii_text (s : list ascii) : bool := forallb is_ascii s.

(** ** Python string methods *)

Module Py.

Definition lower (s : str) : str := lower_char <$> s.
Definition upper (s : str) : str := upper_char <$> s.

Fixpoint lstrip_by (p : ascii → bool) (s : str) : str :=
  match s with
  | [] => []
  | c :: s' => if p c then lstrip_by p s' else s
  end.

Definition rstrip_by (p : ascii → bool) (s : str) : str :=
  reverse (lstrip_by p (reverse s)).

Definition strip_by (p : ascii → bool) (s : str) : str :=
  rstrip_by p (lstrip_by p s).

(** [s.strip()] *)
Definition strip (s : str) : str := strip_by isspace s.

(** [s.strip(chars)] *)
Definition strip_chars (chars : str) (s : str) : str :=
  strip_by (λ c, bool_decide (c ∈ chars)) s.

(** [s.startswith(pre)] *)
Fixpoint startswith (pre s : str) : bool :=
  match pre, s with
  | [], _ => true
  | _ :: _, [] => false
  | a :: pre', b :: s' => bool_decide (a = b) && startswith pre' s'
  end.

(** [needle in s] *)
Fixpoint contains (needle s : str) : bool :=
  startswith needle s ||
  match s with
  | [] => false
  | _ :: s' => contains needle s'
  end.

(** [s.splitlines()]: a line ends at a line boundary, CR LF counts as
    one boundary, and a final boundary opens no empty last line. *)
Fixpoint splitlines (s : str) : list str :=
  match s with
  | [] => []
  | c :: s' =>
      if is_linebreak c then
        [] :: (if bool_decide (c = CR) then
                 match s' with
                 | c' :: s'' => if bool_decide (c' = LF) then splitlines s'' else splitlines s'
                 | [] => []
                 end
               else splitlines s')
      else
        match splitlines s' with
        | [] => [[c]]
        | l :: ls => (c :: l) :: ls
        end
  end.

(** [s.split(sep)] for a one-character separator and [re.split] on a
    character class: every separator character cuts, empty pieces are
    kept. *)
Fixpoint split_on (p : ascii → bool) (s : str) : list str :=
  match s with
  | [] => [[]]
  | c :: s' =>
      if p c then [] :: split_on p s'
      else match split_on p s' with
           | [] => [[c]]
           | w :: ws => (c :: w) :: ws
           end
  end.

(** [sep.join(l)] *)
Fixpoint join (sep : str) (l : list str) : str :=
  match l with
  | [] => []
  | x :: l' => match l' with [] => x | _ :: _ => x ++ sep ++ join sep l' end
  end.

(** [s.replace(old, new)] for a non-empty [old]: occurrences are replaced
    from the left and do not overlap; [skip] counts the characters of an
    occurrence that is being passed over. *)
Fixpoint replace_from (old new : str) (skip : nat) (s : str) : str :=
  match s with
  | [] => []
  | c :: s' =>
      match skip with
      | S k => replace_from old new k s'
      | O => if startswith old s
             then new ++ replace_from old new (length old - 1) s'
             else c :: replace_from old new 0 s'
      end
  end.

Definition replace (old new s : str) : str := replace_from old new 0 s.

(** [int(s)] on a run of decimal digits: the value that it returns, and
    whether it raises instead.  [int] raises [ValueError] on more than
    4300 digits, leading zeros included (the default of
    [sys.int_info.default_max_str_digits]). *)
Definition int (s : str) : N :=
  foldl (λ acc c, 10 * acc + (code c - 48))%N 0%N s.

Definition MAX_STR_DIGITS : nat := 4300.

Definition int_raises (s : str) : bool := bool_decide (MAX_STR_DIGITS < length s).

(** [str(n)] for a natural number. *)
Definition repr_int (n : N) : str := lit (NilZero.string_of_uint (N.to_uint n)).

(** Truthiness of a string, of a list and of [Optional[str]]. *)
Definition truthy {A} (l : list A) : bool :=
  match l with [] => false | _ :: _ => true end.

Definition truthy_opt {A} (o : option (list A)) : bool :=
  match o with None => false | Some l => truthy l end.

End Py.

(** ** Backtracking matchers for the regular expressions of the source *)

Module Re.

(** The first alternative that succeeds, in the order of the list. *)
Fixpoint first_match {A B} (f : A → option B) (l : list A) : option B :=
  match l with
  | [] => None
  | x :: l' => match f x with Some r => Some r | None => first_match f l' end
  end.

(** The length of the longest prefix whose characters are all in [p]. *)
Fixpoint run (p : ascii → bool) (s : str) : nat :=
  match s with
  | [] => 0
  | c :: s' => if p c then S (run p s') else 0
  end.

(** [C+], [C*] for a character class [C]: at least [min] characters of the
    class, as many as possible first, giving characters back one at a time
    while the rest of the pattern fails.  The continuation receives the
    matched text and the remainder. *)
Definition greedy {A} (p : ascii → bool) (min : nat)
    (k : str → str → option A) (s : str) : option A :=
  first_match (λ i, k (take i s) (drop i s)) (reverse (seq min (S (run p s) - min))).

(** [C*?]: as few characters as possible first. *)
Definition lazy {A} (p : ascii → bool) (min : nat)
    (k : str → str → option A) (s : str) : option A :=
  first_match (λ i, k (take i s) (drop i s)) (seq min (S (run p s) - min)).

(** A literal. *)
Definition exact {A} (w : str) (k : str → option A) (s : str) : option A :=
  if Py.startswith w s then k (drop (length w) s) else None.

(** A literal under IGNORECASE. *)
Definition exact_ci {A} (w : str) (k : str → option A) (s : str) : option A :=
  if Py.startswith (Py.lower w) (Py.lower s) then k (drop (length w) s) else None.

(** The suffixes of a text, longest first: the start positions that
    [search] tries, the end of the text included. *)
Fixpoint tails (s : str) : list str :=
  s :: match s with [] => [] | _ :: s' => tails s' end.

(** [pattern.search(s)]: the match at the leftmost position that has one. *)
Definition search {A} (m : str → option A) (s : str) : option A :=
  first_match m (tails s).

(** [$] without MULTILINE: the end of the text, or just before a final
    line feed. *)
Definition at_dollar (s : str) : bool :=
  match s with
  | [] => true
  | c :: s' => bool_decide (c = LF) && negb (Py.truthy s')
  end.

(** [len(re.findall(m, s))] for a pattern that cannot match the empty text:
    matches are found from the left and do not overlap; [skip] counts the
    characters of the last match still to be passed over.  The matcher
    returns the length of its match. *)
Fixpoint count_matches (m : str → option nat) (skip : nat) (s : str) : nat :=
  match s with
  | [] => 0
  | _ :: s' =>
      match skip with
      | S k => count_matches m k s'
      | O => match m s with
             | Some n => S (count_matches m (n - 1) s')
             | None => count_matches m 0 s'
             end
      end
  end.

End Re.

(** ** The constants and the leaf functions of [parse_outputs.py] *)

Definition PLACEHOLDER_MARKER : str := "Not yet collected.".
Definition NOT_SPECIFIED : str := "not specified on website".

(** The tuple [(NOT_SPECIFIED, "n/a", "none", "unclear", "")] of [normalize]. *)
Definition sentinels : list str :=
  [NOT_SPECIFIED; lit "n/a"; lit "none"; lit "unclear"; lit ""].

Definition normalize (value : option str) : option str :=
  match value with
  | None => None
  | Some value =>
      let v := Py.strip value in
      if bool_decide (Py.lower v ∈ sentinels) then None else Some v
  end.

Definition to_bool (value : option str) : option bool :=
  match value with
  | None => None
  | Some value =>
      let v := Py.lower (Py.strip value) in
      if bool_decide (v ∈ [lit "yes"; lit "true"; lit "1"]) then Some true
      else if bool_decide (v ∈ [lit "no"; lit "false"; lit "0"]) then Some false
      else None
  end.

(** [re.match(r'^##\s+(.+)', line)], giving [m.group(1)]. *)
Definition header_match (line : str) : option str :=
  Re.exact "##" (Re.greedy isspace 1 (λ _, Re.greedy not_newline 1 (λ g _, Some g))) line.

(** The three variables of the loop of [split_sections]. *)
Record splitter := Splitter {
  sections : gmap str str;
  current_key : str;
  current_lines : list str
}.

Definition split_step (st : splitter) (line : str) : splitter :=
  match header_match line with
  | Some g =>
      Splitter (<[current_key st := Py.join [LF] (current_lines st)]> (sections st))
               (Py.upper (Py.strip g)) []
  | None =>
      Splitter (sections st) (current_key st) (current_lines st ++ [line])
  end.

Definition split_sections (text : str) : gmap str str :=
  let st := foldl split_step (Splitter ∅ "_preamble" []) (Py.splitlines text) in
  <[current_key st := Py.join [LF] (current_lines st)]> (sections st).

(** The pattern of [get_subsection], compiled with IGNORECASE and DOTALL:
    [###\s+<name>\s*\n(.*?)(?=###|\Z)], giving [m.group(1)].  [span_end] is
    the lookahead [(?=###|\Z)] that ends the group. *)
Definition span_end (g rest : str) : option str :=
  if Py.startswith "###" rest || negb (Py.truthy rest) then Some g else None.

Definition subsection_match (subsection_name : str) (s : str) : option str :=
  Re.exact "###"
    (Re.greedy isspace 1 (λ _,
      Re.exact_ci subsection_name
        (Re.greedy isspace 0 (λ _,
          Re.exact [LF]
            (Re.lazy (λ _, true) 0 span_end))))) s.

Definition get_subsection (section_text subsection_name : str) : str :=
  match Re.search (subsection_match subsection_name) section_text with
  | Some g => Py.strip g
  | None => []
  end.

(** The pattern of [extract_field], compiled with IGNORECASE:
    [\*\*<field>:\*\*\s*(.+)], giving [m.group(1)]. *)
Definition field_match (field_name : str) (s : str) : option str :=
  Re.exact "**"
    (Re.exact_ci field_name
      (Re.exact ":**"
        (Re.greedy isspace 0 (λ _, Re.greedy not_newline 1 (λ g _, Some g))))) s.

Definition extract_field (text field_name : str) : option str :=
  match Re.search (field_match field_name) text with
  | Some g => normalize (Some g)
  | None => None
  end.

Definition extract_list_items (text : str) : list str :=
  foldl (λ items line,
           let line := Py.strip line in
           if Py.startswith "- " line || Py.startswith "* " line then
             let item := Py.strip (drop 2 line) in
             if Py.truthy item && negb (bool_decide (Py.lower item = NOT_SPECIFIED))
             then items ++ [item] else items
           else items)
        [] (Py.splitlines text).

(** [re.match(r'^\d+\.\s+(.+)', s)], giving [m.group(1)]. *)
Definition numbered_match (s : str) : option str :=
  Re.greedy isdigit 1 (λ _,
    Re.exact "."
      (Re.greedy isspace 1 (λ _, Re.greedy not_newline 1 (λ g _, Some g)))) s.

Definition extract_numbered_steps (text : str) : list str :=
  foldl (λ steps line,
           match numbered_match (Py.strip line) with
           | Some g =>
               let step := Py.strip g in
               if negb (bool_decide (Py.lower step = NOT_SPECIFIED))
               then steps ++ [step] else steps
           | None => steps
           end)
        [] (Py.splitlines text).

(** One row of the form table: the dictionary built by [extract_form_table]. *)
Record form := Form {
  form_name : option str;
  form_number : option str;
  form_description : option str;
  form_language : option str;
  form_url : option str;
  form_file_type : option str
}.

(** [re.match(r'^[-:]+$', c)] as a truth value. *)
Definition separator_cell (c : str) : bool :=
  bool_decide (is_Some
    (Re.greedy (λ a, bool_decide (a ∈ lit "-:")) 1
       (λ _ rest, if Re.at_dollar rest then Some () else None) c)).

(** [[c.strip() for c in line.strip("|").split("|")]] *)
Definition cells_of (line : str) : list str :=
  Py.strip <$> Py.split_on (λ c, bool_decide (c = "|"%char)) (Py.strip_chars "|" line).

(** The first loop of [extract_form_table]: the rows kept in [data_rows]. *)
Definition data_row (cells : list str) : bool :=
  if forallb separator_cell (filter (λ c, Py.truthy c = true) cells) then false
  else if match cells with
          | [] => false
          | c :: _ => bool_decide (Py.lower c ∈ [lit "form name"; lit "form name "])
          end then false
  else bool_decide (6 ≤ length cells).

(** The body of the second loop, on one row of [data_rows]. *)
Definition form_of_row (row : list str) : option form :=
  if bool_decide (length row < 6) then None
  else match take 6 row with
       | [name; form_num; desc; lang; url; file_type] =>
           if bool_decide (Py.lower name ∈ [lit ""; lit "not specified on website"])
           then None
           else Some (Form (normalize (Some name)) (normalize (Some form_num))
                           (normalize (Some desc)) (normalize (Some lang))
                           (normalize (Some url)) (normalize (Some file_type)))
       | _ => None
       end.

Definition extract_form_table (section_text : str) : list form :=
  let lines := Py.strip <$> filter (λ l, Py.startswith "|" (Py.strip l) = true)
                                   (Py.splitlines section_text) in
  let data_rows := filter (λ cells, data_row cells = true) (cells_of <$> lines) in
  omap form_of_row data_rows.

(** [re.search(r'\d+', raw)] followed by [int(m.group())]: the result when
    [int] returns, and whether [int] raises [ValueError] instead. *)
Definition first_integer (raw : str) : option N :=
  Py.int <$> Re.search (Re.greedy isdigit 1 (λ g _, Some g)) raw.

Definition first_integer_raises (raw : str) : bool :=
  match Re.search (Re.greedy isdigit 1 (λ g _, Some g)) raw with
  | Some g => Py.int_raises g
  | None => false
  end.

(** [https?://\S+] at the start of [s], giving the length of the match.
    The optional [s] is tried first. *)
Definition url_match (s : str) : option nat :=
  Re.exact "http" (λ r,
    let tail (r' : str) :=
      Re.exact "://" (Re.greedy (λ c, negb (isspace c)) 1 (λ g _, Some (length g))) r' in
    match Re.exact "s" tail r with
    | Some n => Some (4 + 1 + 3 + n)
    | None => (λ n, 4 + 3 + n) <$> tail r
    end) s.

Definition parse_urls_section (section_text : str) : nat * nat :=
  let pages_sub := get_subsection section_text "Pages Visited" in
  let downloads_sub := get_subsection section_text "Downloadable Assets" in
  (Re.count_matches url_match 0 pages_sub, Re.count_matches url_match 0 downloads_sub).

(** The inner function [split_langs] of [parse_state]. *)
Definition split_langs (raw : option str) : option (list str) :=
  match raw with
  | None => None
  | Some raw =>
      if negb (Py.truthy raw) then None
      else if bool_decide (Py.lower raw ∈ [lit "english only"]) then Some [lit "English"]
      else Some (filter (λ l, Py.truthy l = true)
                   (Py.strip <$> Py.split_on (λ c, bool_decide (c ∈ lit ",;")) raw))
  end.

(** ** The structured record

    One Rocq record per nested dictionary of the [metadata] literal, with
    the keys of the source (prefixed where two dictionaries share a key). *)

Record application := Application {
  online_available : option bool;
  online_url : option str;
  online_doc_submission : option bool;
  online_doc_submission_notes : option str;
  app_steps_count : option N;
  steps : list str
}.

Record documents := Documents {
  specified_on_website : bool;
  document_list : list str
}.

Record interview := Interview {
  required : option bool;
  type_options : option (list str);
  scheduling_who_initiates : option str;
  scheduling_url : option str;
  hours_specified : bool;
  hours_description : option str;
  evening_weekend_hours : option bool;
  hours_notes : option str;
  reminders_sent : option bool;
  reminder_method : option str;
  reschedule_available : option bool;
  reschedule_method : option str;
  reschedule_url : option str;
  missed_interview_penalty : option str;
  good_cause_exceptions : option bool;
  good_cause_notes : option str
}.

Record forms := Forms {
  total_count : option N;
  form_list : list form
}.

Record language_access := LanguageAccess {
  website_languages : option (list str);
  form_languages : option (list str);
  translation_method : option str;
  notes : option str
}.

Record complexity := Complexity {
  steps_count : option N;
  forms_to_complete : option N;
  reading_level : option str;
  reading_level_notes : option str
}.

Record assets := Assets {
  pages_referenced : nat;
  downloads_referenced : nat;
  pages_downloaded : nat;
  forms_downloaded : nat
}.

Record parse_status := ParseStatus {
  parsed : bool;
  parse_timestamp : str;
  warnings : list str;
  errors : list str
}.

Record metadata := Metadata {
  md_state : str;
  md_abbreviation : str;
  collected_date : option str;
  source_url : option str;
  md_application : application;
  md_documents : documents;
  md_interview : interview;
  md_forms : forms;
  md_language_access : language_access;
  md_complexity : complexity;
  md_assets : assets;
  md_parse_status : parse_status
}.

(** One entry of [states.json], with the three keys that the parser reads. *)
Record state_entry := StateEntry {
  st_name : str;
  st_abbreviation : str;
  st_folder_name : str
}.

(** ** JSON values and [json.dump(..., indent=2)] *)

#[warnings="-register-all"]
Inductive json :=
  | JNull
  | JBool (b : bool)
  | JInt (n : N)
  | JStr (s : str)
  | JList (l : list json)
  | JObj (l : list (str * json)).

Module Json.

Definition quote_char : ascii := ascii_of_N 34.
Definition backslash : ascii := ascii_of_N 92.

Definition hex_digit (n : N) : ascii :=
  if (n <? 10)%N then ascii_of_N (48 + n) else ascii_of_N (87 + n).

(** The escapes of [json.dumps] with [ensure_ascii] on the ASCII range:
    the two-character escapes of the standard, and [\u00xx] for every
    other character outside the printable range from the space to the
    tilde. *)
Definition escape (c : ascii) : str :=
  if bool_decide (c = quote_char) then [backslash; quote_char]
  else if bool_decide (c = backslash) then [backslash; backslash]
  else if bool_decide (c = LF) then backslash :: lit "n"
  else if bool_decide (c = CR) then backslash :: lit "r"
  else if bool_decide (c = ascii_of_N 9) then backslash :: lit "t"
  else if bool_decide (c = ascii_of_N 8) then backslash :: lit "b"
  else if bool_decide (c = ascii_of_N 12) then backslash :: lit "f"
  else if in_range 32 126 c then [c]
  else backslash :: lit "u00" ++ [hex_digit (code c / 16); hex_digit (code c mod 16)].

Definition quote (s : str) : str :=
  quote_char :: concat (escape <$> s) ++ [quote_char].

Definition newline_indent (level : nat) : str :=
  LF :: replicate (2 * level) " "%char.

Fixpoint dumps (level : nat) (j : json) : str :=
  match j with
  | JNull => "null"
  | JBool true => "true"
  | JBool false => "false"
  | JInt n => Py.repr_int n
  | JStr s => quote s
  | JList [] => "[]"
  | JList l =>
      "[" ++ newline_indent (S level)
          ++ Py.join ("," ++ newline_indent (S level)) (map (dumps (S level)) l)
          ++ newline_indent level ++ "]"
  | JObj [] => "{}"
  | JObj l =>
      "{" ++ newline_indent (S level)
          ++ Py.join ("," ++ newline_indent (S level))
               (map (λ kv, let '(k, v) := kv in quote k ++ ": " ++ dumps (S level) v) l)
          ++ newline_indent level ++ "}"
  end.

(** [json.dumps(j, indent=2)] *)
Definition dump (j : json) : str := dumps 0 j.

Definition of_str (o : option str) : json :=
  match o with None => JNull | Some s => JStr s end.

Definition of_bool (o : option bool) : json :=
  match o with None => JNull | Some b => JBool b end.

Definition of_int (o : option N) : json :=
  match o with None => JNull | Some n => JInt n end.

Definition of_strs (l : list str) : json := JList (JStr <$> l).

Definition of_opt_strs (o : option (list str)) : json :=
  match o with None => JNull | Some l => of_strs l end.

Definition of_form (f : form) : json :=
  JObj [ (lit "name", of_str (form_name f));
         (lit "form_number", of_str (form_number f));
         (lit "description", of_str (form_description f));
         (lit "language", of_str (form_language f));
         (lit "url", of_str (form_url f));
         (lit "file_type", of_str (form_file_type f)) ].

(** The [metadata] literal of [parse_state], key by key. *)
Definition of_metadata (m : metadata) : json :=
  let a := md_application m in
  let d := md_documents m in
  let i := md_interview m in
  let f := md_forms m in
  let l := md_language_access m in
  let c := md_complexity m in
  let s := md_assets m in
  let p := md_parse_status m in
  JObj [
    (lit "state", JStr (md_state m));
    (lit "abbreviation", JStr (md_abbreviation m));
    (lit "collected_date", of_str (collected_date m));
    (lit "source_url", of_str (source_url m));
    (lit "application", JObj [
      (lit "online_available", of_bool (online_available a));
      (lit "online_url", of_str (online_url a));
      (lit "online_doc_submission", of_bool (online_doc_submission a));
      (lit "online_doc_submission_notes", of_str (online_doc_submission_notes a));
      (lit "steps_count", of_int (app_steps_count a));
      (lit "steps", of_strs (steps a)) ]);
    (lit "documents", JObj [
      (lit "specified_on_website", JBool (specified_on_website d));
      (lit "document_list", of_strs (document_list d)) ]);
    (lit "interview", JObj [
      (lit "required", of_bool (required i));
      (lit "type_options", of_opt_strs (type_options i));
      (lit "scheduling_who_initiates", of_str (scheduling_who_initiates i));
      (lit "scheduling_url", of_str (scheduling_url i));
      (lit "hours_specified", JBool (hours_specified i));
      (lit "hours_description", of_str (hours_description i));
      (lit "evening_weekend_hours", of_bool (evening_weekend_hours i));
      (lit "hours_notes", of_str (hours_notes i));
      (lit "reminders_sent", of_bool (reminders_sent i));
      (lit "reminder_method", of_str (reminder_method i));
      (lit "reschedule_available", of_bool (reschedule_available i));
      (lit "reschedule_method", of_str (reschedule_method i));
      (lit "reschedule_url", of_str (reschedule_url i));
      (lit "missed_interview_penalty", of_str (missed_interview_penalty i));
      (lit "good_cause_exceptions", of_bool (good_cause_exceptions i));
      (lit "good_cause_notes", of_str (good_cause_notes i)) ]);
    (lit "forms", JObj [
      (lit "total_count", of_int (total_count f));
      (lit "form_list", JList (of_form <$> form_list f)) ]);
    (lit "language_access", JObj [
      (lit "website_languages", of_opt_strs (website_languages l));
      (lit "form_languages", of_opt_strs (form_languages l));
      (lit "translation_method", of_str (translation_method l));
      (lit "notes", of_str (notes l)) ]);
    (lit "complexity", JObj [
      (lit "steps_count", of_int (steps_count c));
      (lit "forms_to_complete", of_int (forms_to_complete c));
      (lit "reading_level", of_str (reading_level c));
      (lit "reading_level_notes", of_str (reading_level_notes c)) ]);
    (lit "assets", JObj [
      (lit "pages_referenced", JInt (N.of_nat (pages_referenced s)));
      (lit "downloads_referenced", JInt (N.of_nat (downloads_referenced s)));
      (lit "pages_downloaded", JInt (N.of_nat (pages_downloaded s)));
      (lit "forms_downloaded", JInt (N.of_nat (forms_downloaded s))) ]);
    (lit "parse_status", JObj [
      (lit "parsed", JBool (parsed p));
      (lit "parse_timestamp", JStr (parse_timestamp p));
      (lit "warnings", of_strs (warnings p));
      (lit "errors", of_strs (errors p)) ]) ].

End Json.

(** ** The body of [parse_state]

    [parse_document] is the part of [parse_state] between reading the
    document and writing the record: [sections = split_sections(content)]
    followed by everything up to the [metadata] literal, which is
    [parse_sections].  The body reaches the outside world twice, through
    [count_assets] and through the clock; both readings are arguments here.
    [warnings] and [errors] are the two lists the source appends to.

    The body converts three field values with [int].  [parse_sections] is
    the body on the path where the three conversions return, and
    [parse_sections_raises] says whether one of them raises.  Nothing is
    printed or written, and neither the folder nor the clock is read,
    before the last of the three. *)

(** [sections.get(key, "")] *)
Definition dict_get (sections : gmap str str) (key : str) : str :=
  default [] (sections !! key).

Definition append_if {A} (cond : bool) (l : list A) (x : A) : list A :=
  if cond then l ++ [x] else l.

Definition parse_sections (state : state_entry) (sections : gmap str str)
    (pages_dl forms_dl : nat) (now : str) : metadata * list str * list str :=
  let warnings : list str := [] in
  let errors : list str := [] in

  (* --- Preamble --- *)
  let preamble := dict_get sections "_preamble" in
  let collected_date := extract_field preamble "Collected" in
  let source_url := extract_field preamble "Source URL" in
  let warnings := append_if (negb (Py.truthy_opt collected_date)) warnings
                    (lit "Collected date not found in preamble") in
  let warnings := append_if (negb (Py.truthy_opt source_url)) warnings
                    (lit "Source URL not found in preamble") in

  (* --- Application Process --- *)
  let app_section := dict_get sections "APPLICATION PROCESS" in
  let errors := append_if (negb (Py.truthy app_section)) errors
                  (lit "APPLICATION PROCESS section missing") in
  let online_available := to_bool (extract_field app_section "Online Application Available") in
  let online_url := extract_field app_section "Online Application URL" in
  let online_doc := to_bool (extract_field app_section "Online Document Submission Available") in
  let online_doc_notes := extract_field app_section "Online Document Submission Notes" in
  let steps_sub := get_subsection app_section "Steps" in
  let steps := extract_numbered_steps steps_sub in
  let steps := if negb (Py.truthy steps) then extract_numbered_steps app_section else steps in
  let warnings := append_if (negb (Py.truthy steps)) warnings
                    (lit "No numbered steps found in APPLICATION PROCESS") in

  (* --- Required Documents --- *)
  let docs_section := dict_get sections "REQUIRED DOCUMENTS" in
  let errors := append_if (negb (Py.truthy docs_section)) errors
                  (lit "REQUIRED DOCUMENTS section missing") in
  let doc_items := extract_list_items docs_section in
  let docs_specified := bool_decide (0 < length doc_items) in

  (* --- Interview Requirements --- *)
  let interview_section := dict_get sections "INTERVIEW REQUIREMENTS" in
  let errors := append_if (negb (Py.truthy interview_section)) errors
                  (lit "INTERVIEW REQUIREMENTS section missing") in
  let interview_required := to_bool (extract_field interview_section "Interview Required") in
  let interview_type_raw := extract_field interview_section "Interview Type Options" in
  let interview_types :=
    match interview_type_raw with
    | Some raw =>
        if Py.truthy raw then
          foldl (λ interview_types t,
                   let t := Py.lower (Py.strip t) in
                   if bool_decide (t ∈ [lit "phone"; lit "in-person"; lit "in person"; lit "both"])
                   then interview_types ++ [Py.replace "in person" "in-person" t]
                   else interview_types)
                [] (Py.split_on (λ c, bool_decide (c ∈ lit ",/")) raw)
        else []
    | None => []
    end in
  let sched_sub := get_subsection interview_section "Scheduling" in
  let how_to_schedule := extract_field sched_sub "How to Schedule" in
  let scheduling_url := extract_field sched_sub "Scheduling URL" in
  let timing_sub := get_subsection interview_section "Timing and Hours" in
  let when_conducted := extract_field timing_sub "When Interviews Are Conducted" in
  let evening_weekend := to_bool (extract_field timing_sub "Evening or Weekend Hours Available") in
  let hours_notes := extract_field timing_sub "Hours Notes" in
  let reminder_sub := get_subsection interview_section "Reminder Process" in
  let reminders_sent := to_bool (extract_field reminder_sub "Reminders Sent") in
  let reminder_method := extract_field reminder_sub "Reminder Method" in
  let reschedule_sub := get_subsection interview_section "Rescheduling" in
  let reschedule_available := to_bool (extract_field reschedule_sub "Reschedule Available") in
  let reschedule_method := extract_field reschedule_sub "How to Reschedule" in
  let reschedule_url := extract_field reschedule_sub "Reschedule URL" in
  let penalty_sub := get_subsection interview_section "Missed Interview Penalties" in
  let penalty := extract_field penalty_sub "Penalty for Missing Interview" in
  let good_cause := to_bool (extract_field penalty_sub "Good Cause Exceptions") in
  let good_cause_notes := extract_field penalty_sub "Good Cause Notes" in

  (* --- Forms --- *)
  let forms_section := dict_get sections "FORMS" in
  let errors := append_if (negb (Py.truthy forms_section)) errors
                  (lit "FORMS section missing") in
  let total_forms_raw := extract_field forms_section "Total Forms Found" in
  let total_forms : option N :=
    match total_forms_raw with
    | Some raw => if Py.truthy raw then first_integer raw else None
    | None => None
    end in
  let form_list := extract_form_table forms_section in
  let infer := bool_decide (total_forms = None) && Py.truthy form_list in
  let total_forms := if infer then Some (N.of_nat (length form_list)) else total_forms in
  let warnings := append_if infer warnings
                    (lit "Total Forms Found field missing; inferred from table row count") in

  (* --- Language Access --- *)
  let lang_section := dict_get sections "LANGUAGE ACCESS" in
  let errors := append_if (negb (Py.truthy lang_section)) errors
                  (lit "LANGUAGE ACCESS section missing") in
  let website_langs_raw := extract_field lang_section "Languages Supported on Website" in
  let form_langs_raw := extract_field lang_section "Languages Supported on Forms" in
  let translation_method := extract_field lang_section "Translation Method" in
  let lang_notes := extract_field lang_section "Language Access Notes" in
  let website_langs := split_langs website_langs_raw in
  let form_langs := split_langs form_langs_raw in

  (* --- Complexity --- *)
  let complexity_section := dict_get sections "COMPLEXITY ASSESSMENT" in
  let warnings := append_if (negb (Py.truthy complexity_section)) warnings
                    (lit "COMPLEXITY ASSESSMENT section missing") in
  let steps_count_raw := extract_field complexity_section "Estimated Number of Steps" in
  let steps_count : option N :=
    match steps_count_raw with
    | Some raw => if Py.truthy raw then first_integer raw else None
    | None => None
    end in
  let steps_count :=
    if bool_decide (steps_count = None) && Py.truthy steps
    then Some (N.of_nat (length steps)) else steps_count in
  let forms_count_raw := extract_field complexity_section "Estimated Total Forms to Complete" in
  let forms_count : option N :=
    match forms_count_raw with
    | Some raw => if Py.truthy raw then first_integer raw else None
    | None => None
    end in
  let reading_level := extract_field complexity_section "Estimated Reading Level" in
  let reading_notes := extract_field complexity_section "Reading Level Notes" in

  (* --- URLs Referenced --- *)
  let urls_section := dict_get sections "URLS REFERENCED" in
  let referenced :=
    if Py.truthy urls_section then parse_urls_section urls_section else (0, 0) in
  let pages_ref := referenced.1 in
  let downloads_ref := referenced.2 in

  (* --- Build metadata --- *)
  let metadata :=
    Metadata (st_name state) (st_abbreviation state) collected_date source_url
      (Application online_available online_url online_doc online_doc_notes steps_count steps)
      (Documents docs_specified doc_items)
      (Interview interview_required
         (if Py.truthy interview_types then Some interview_types else None)
         how_to_schedule scheduling_url
         (match when_conducted with Some _ => true | None => false end)
         when_conducted evening_weekend hours_notes reminders_sent reminder_method
         reschedule_available reschedule_method reschedule_url
         penalty good_cause good_cause_notes)
      (Forms total_forms form_list)
      (LanguageAccess website_langs form_langs translation_method lang_notes)
      (Complexity steps_count forms_count reading_level reading_notes)
      (Assets pages_ref downloads_ref pages_dl forms_dl)
      (ParseStatus (bool_decide (length errors = 0)) now warnings errors) in
  (metadata, warnings, errors).

Definition parse_document (state : state_entry) (content : str)
    (pages_dl forms_dl : nat) (now : str) : metadata * list str * list str :=
  let sections := split_sections content in
  parse_sections state sections pages_dl forms_dl now.

(** [if raw: m = re.search(r'\d+', raw); ... int(m.group())] on one field:
    whether the conversion raises. *)
Definition int_field_raises (section_text field_name : str) : bool :=
  match extract_field section_text field_name with
  | Some raw => if Py.truthy raw then first_integer_raises raw else false
  | None => false
  end.

Definition parse_sections_raises (sections : gmap str str) : bool :=
  int_field_raises (dict_get sections "FORMS") "Total Forms Found"
  || int_field_raises (dict_get sections "COMPLEXITY ASSESSMENT") "Estimated Number of Steps"
  || int_field_raises (dict_get sections "COMPLEXITY ASSESSMENT")
       "Estimated Total Forms to Complete".

Definition parse_document_raises (content : str) : bool :=
  parse_sections_raises (split_sections content).

(** ** The outside world *)

(** What [open(md_path).read()] does on a path that exists: it returns
    the text of the report, or it raises (the bytes are not text, the path
    is a directory, ...). *)
Inductive report :=
  | Text (content : str)
  | Unreadable (exn : str).

(** What [DATA_DIR/<folder>] holds: the report, the record written by the
    parser, and the listings of the [pages] and [forms] directories
    ([None] where the file or directory does not exist). *)
Record folder_store := FolderStore {
  agent_output_md : option report;
  metadata_json : option str;
  pages_dir : option (list str);
  forms_dir : option (list str)
}.

(** [logs/parse_log.json]: absent, present but not JSON, or a JSON value. *)
Inductive log_file :=
  | NoLog
  | BadLog
  | GoodLog (j : json).

Record world := World {
  states_json : list state_entry;
  data_dir : gmap str folder_store;
  parse_log : log_file;
  PARSE_LOG : str;
  (** the readings of [datetime.now(timezone.utc).isoformat()], in order *)
  wall_clock : nat → str;
  ticks : nat;
  (** the arguments of the calls of [print], in order *)
  stdout : list str
}.

(** How a computation ends: with a value, by [sys.exit], or with an
    exception that nothing catches. *)
Inductive outcome (A : Type) :=
  | Ret (a : A)
  | Exit (status : nat)
  | Raise (exn : str).
Arguments Ret {A} a.
Arguments Exit {A} status.
Arguments Raise {A} exn.

Definition prog (A : Type) : Type := world → outcome A * world.

#[global] Instance prog_ret : MRet prog := λ A a w, (Ret a, w).

#[global] Instance prog_bind : MBind prog := λ A B k m w,
  match m w with
  | (Ret a, w') => k a w'
  | (Exit n, w') => (Exit n, w')
  | (Raise e, w') => (Raise e, w')
  end.

Definition gets {A} (f : world → A) : prog A := λ w, (Ret (f w), w).
Definition modify (f : world → world) : prog unit := λ w, (Ret (), f w).
Definition sys_exit {A} (status : nat) : prog A := λ w, (Exit status, w).
Definition raise {A} (exn : str) : prog A := λ w, (Raise exn, w).

Definition print (line : str) : prog unit :=
  modify (λ w, World (states_json w) (data_dir w) (parse_log w) (PARSE_LOG w)
                     (wall_clock w) (ticks w) (stdout w ++ [line])).

(** [datetime.now(timezone.utc).isoformat()] *)
Definition utc_now : prog str :=
  λ w, (Ret (wall_clock w (ticks w)),
        World (states_json w) (data_dir w) (parse_log w) (PARSE_LOG w)
              (wall_clock w) (S (ticks w)) (stdout w)).

Definition load_states : prog (list state_entry) := gets states_json.

Definition load_log : prog json :=
  gets (λ w, match parse_log w with
             | GoodLog j => j
             | BadLog => JList []
             | NoLog => JList []
             end).

Definition save_log (log : json) : prog unit :=
  modify (λ w, World (states_json w) (data_dir w) (GoodLog log) (PARSE_LOG w)
                     (wall_clock w) (ticks w) (stdout w)).

Definition listing_length (d : option (list str)) : nat :=
  match d with Some l => length l | None => 0 end.

Definition count_assets (state_folder : str) : prog (nat * nat) :=
  gets (λ w, let pages_downloaded := listing_length (data_dir w !! state_folder ≫= pages_dir) in
             let forms_downloaded := listing_length (data_dir w !! state_folder ≫= forms_dir) in
             (pages_downloaded, forms_downloaded)).

(** [json.dump(metadata, f, indent=2)] on [DATA_DIR/<folder>/metadata.json] *)
Definition write_metadata (folder : str) (m : metadata) : prog unit :=
  modify (λ w, World (states_json w)
                     (alter (λ f, FolderStore (agent_output_md f)
                                              (Some (Json.dump (Json.of_metadata m)))
                                              (pages_dir f) (forms_dir f))
                            folder (data_dir w))
                     (parse_log w) (PARSE_LOG w) (wall_clock w) (ticks w) (stdout w)).

(** The two early returns of [parse_state] carry their message in
    different positions of the triple.  The dash of the second message is
    kept as the bytes of its UTF-8 encoding. *)
Definition NOT_FOUND_NOTE : str := "agent_output.md not found".
Definition PLACEHOLDER_NOTE : str := "agent_output.md is a placeholder — not yet collected".

Definition parse_state (state : state_entry) (strict : bool)
    : prog (option metadata * list str * list str) :=
  let folder := st_folder_name state in
  md ← gets (λ w, data_dir w !! folder ≫= agent_output_md);
  match md with
  | None => mret (None, [NOT_FOUND_NOTE], [])
  | Some (Unreadable exn) => raise exn
  | Some (Text content) =>
      if Py.contains PLACEHOLDER_MARKER content
      then mret (None, [], [PLACEHOLDER_NOTE])
      else if parse_document_raises content then raise "ValueError"
      else
        '(pages_dl, forms_dl) ← count_assets folder;
        now ← utc_now;
        let '(metadata, warnings, errors) :=
          parse_document state content pages_dl forms_dl now in
        write_metadata folder metadata;;
        mret (Some metadata, warnings, errors)
  end.

(** ** The batch driver [main] *)

(** The parsed command line: [--state ABBREV] and [--strict]. *)
Record args := Args {
  arg_state : option str;
  arg_strict : bool
}.

(** The variables that the loop of [main] updates. *)
Record batch := Batch {
  run_log : json;
  total_errors : nat;
  total_warnings : nat;
  processed : nat;
  skipped : nat
}.

Fixpoint for_each {S A} (body : S → A → prog S) (acc : S) (l : list A) : prog S :=
  match l with
  | [] => mret acc
  | x :: l' => acc' ← body acc x; for_each body acc' l'
  end.

(** [log.append(entry)]: only a list has the method. *)
Definition log_append (log : json) (entry : json) : prog json :=
  match log with
  | JList l => mret (JList (l ++ [entry]))
  | _ => raise "AttributeError"
  end.

Definition log_entry (state : state_entry) (timestamp : str)
    (warnings errors : list str) : json :=
  JObj [ (lit "state", JStr (st_name state));
         (lit "abbreviation", JStr (st_abbreviation state));
         (lit "parse_timestamp", JStr timestamp);
         (lit "warnings", Json.of_strs warnings);
         (lit "errors", Json.of_strs errors) ].

Definition repr_nat (n : nat) : str := Py.repr_int (N.of_nat n).

(** One iteration of [for state in states]. *)
Definition main_step (strict : bool) (b : batch) (state : state_entry) : prog batch :=
  '(meta, warnings, errors) ← parse_state state strict;
  match meta with
  | None =>
      if negb (Py.truthy errors) then
        mret (Batch (run_log b) (total_errors b) (total_warnings b) (processed b) (S (skipped b)))
      else
        (* Placeholder or not found *)
        let reason := match errors with e :: _ => e | [] => lit "unknown" end in
        print (lit "  [" ++ st_abbreviation state ++ lit "] Skipping: " ++ reason);;
        mret (Batch (run_log b) (total_errors b) (total_warnings b) (processed b) (S (skipped b)))
  | Some _ =>
      let processed := S (processed b) in
      let total_warnings := total_warnings b + length warnings in
      let total_errors := total_errors b + length errors in
      let status_icon := if negb (Py.truthy errors) then lit "OK" else lit "ERRORS" in
      let warn_str := if Py.truthy warnings
                      then lit ", " ++ repr_nat (length warnings) ++ lit " warnings" else [] in
      let err_str := if Py.truthy errors
                     then lit ", " ++ repr_nat (length errors) ++ lit " errors" else [] in
      print (lit "  [" ++ st_abbreviation state ++ lit "] " ++ st_name state ++ lit ": "
               ++ status_icon ++ warn_str ++ err_str);;
      for_each (λ _ w, print (lit "    WARN: " ++ w)) () warnings;;
      for_each (λ _ e, print (lit "    ERROR: " ++ e)) () errors;;
      (* Append to parse log *)
      timestamp ← utc_now;
      log ← log_append (run_log b) (log_entry state timestamp warnings errors);
      mret (Batch log total_errors total_warnings processed (skipped b))
  end.

Definition main (a : args) : prog unit :=
  states ← load_states;
  states ← match arg_state a with
           | Some abbrev =>
               if Py.truthy abbrev then
                 let states := filter (λ s, Py.upper (st_abbreviation s) = Py.upper abbrev) states in
                 if negb (Py.truthy states) then
                   print (lit "ERROR: No state found with abbreviation '" ++ abbrev ++ lit "'");;
                   sys_exit 1
                 else mret states
               else mret states
           | None => mret states
           end;
  print (lit "=== parse_outputs ===" ++ [LF]);;
  log ← load_log;
  b ← for_each (main_step (arg_strict a)) (Batch log 0 0 0 0) states;
  save_log (run_log b);;
  print ([LF] ++ lit "Done. " ++ repr_nat (processed b) ++ lit " parsed, "
              ++ repr_nat (skipped b) ++ lit " skipped.");;
  print (lit "Total warnings: " ++ repr_nat (total_warnings b)
              ++ lit ", Total errors: " ++ repr_nat (total_errors b));;
  path ← gets PARSE_LOG;
  print (lit "Log updated: " ++ path);;
  if arg_strict a && bool_decide (0 < total_errors b) then sys_exit 1 else mret ().

(** ** Notions used by the statements *)

(** The world after [parse_state] has parsed a document: the clock has
    been read once and the record [m] has been written to the folder. *)
Definition world_after_parse (w : world) (folder : str) (m : metadata) : world :=
  World (states_json w)
        (alter (λ f, FolderStore (agent_output_md f)
                                 (Some (Json.dump (Json.of_metadata m)))
                                 (pages_dir f) (forms_dir f))
               folder (data_dir w))
        (parse_log w) (PARSE_LOG w) (wall_clock w) (S (ticks w)) (stdout w).

(** The report of a state in a world, as [open(md_path).read()] gives it:
    [None] when the path does not exist. *)
Definition document_of (w : world) (state : state_entry) : option report :=
  data_dir w !! st_folder_name state ≫= agent_output_md.

(** The text of a report, empty when there is none. *)
Definition text_of (o : option report) : str :=
  match o with Some (Text content) => content | _ => [] end.

(** The exception that [parse_state] raises on the report of a state, if
    it raises. *)
Definition parse_failure (w : world) (state : state_entry) : option str :=
  match document_of w state with
  | Some (Unreadable exn) => Some exn
  | Some (Text content) =>
      if Py.contains PLACEHOLDER_MARKER content then None
      else if parse_document_raises content then Some (lit "ValueError")
      else None
  | None => None
  end.

(** The record of a state in a world, as the bytes of [metadata.json]. *)
Definition record_of (w : world) (state : state_entry) : option str :=
  data_dir w !! st_folder_name state ≫= metadata_json.

(** What [count_assets] finds for a state. *)
Definition assets_of (w : world) (state : state_entry) : nat * nat :=
  (listing_length (data_dir w !! st_folder_name state ≫= pages_dir),
   listing_length (data_dir w !! st_folder_name state ≫= forms_dir)).

(** [m] with another reading of the clock in [parse_status.parse_timestamp]. *)
Definition with_timestamp (t : str) (m : metadata) : metadata :=
  let p := md_parse_status m in
  Metadata (md_state m) (md_abbreviation m) (collected_date m) (source_url m)
           (md_application m) (md_documents m) (md_interview m) (md_forms m)
           (md_language_access m) (md_complexity m) (md_assets m)
           (ParseStatus (parsed p) t (warnings p) (errors p)).

Definition INFERRED_NOTE : str :=
  "Total Forms Found field missing; inferred from table row count".

(** What one line contributes to [extract_list_items]: the body of its
    loop, as a function of the line. *)
Definition bullet_item (line : str) : option str :=
  let line := Py.strip line in
  if Py.startswith "- " line || Py.startswith "* " line then
    let item := Py.strip (drop 2 line) in
    if Py.truthy item && negb (bool_decide (Py.lower item = NOT_SPECIFIED))
    then Some item else None
  else None.

(** What one line contributes to [extract_numbered_steps]. *)
Definition numbered_item (line : str) : option str :=
  match numbered_match (Py.strip line) with
  | Some g =>
      let step := Py.strip g in
      if negb (bool_decide (Py.lower step = NOT_SPECIFIED)) then Some step else None
  | None => None
  end.

(** The rows of the pipe table of a text: the cells of every line that
    starts with a bar, in the order of the lines. *)
Definition table_rows (section_text : str) : list (list str) :=
  cells_of <$> (Py.strip <$> filter (λ l, Py.startswith "|" (Py.strip l) = true)
                                    (Py.splitlines section_text)).

(** The two tests of the first loop of [extract_form_table]. *)
Definition separator_row (cells : list str) : bool :=
  forallb separator_cell (filter (λ c, Py.truthy c = true) cells).

Definition header_row (cells : list str) : bool :=
  match cells with
  | [] => false
  | c :: _ => bool_decide (Py.lower c ∈ [lit "form name"; lit "form name "])
  end.

(** What one row contributes to [extract_form_table]: the first loop
    followed by the second. *)
Definition kept_row (cells : list str) : option form :=
  if data_row cells then form_of_row cells else None.

(** The block name that a header line opens, if the line is a top-level
    header. *)
Definition header_key (line : str) : option str :=
  (λ g, Py.upper (Py.strip g)) <$> header_match line.

(** A block of a document as it stands in the text: its header line, the
    name the header gives it, and its content lines. *)
Record section_block := Block {
  block_header : str;
  block_name : str;
  block_lines : list str
}.

(** The header of a block gives it its name, and none of its content
    lines is a top-level header. *)
Definition well_formed_block (b : section_block) : Prop :=
  header_key (block_header b) = Some (block_name b) ∧
  Forall (λ l, header_match l = None) (block_lines b).

(** The preamble and the blocks of a list of lines. *)
Fixpoint blocks_of (lines : list str) : list str * list section_block :=
  match lines with
  | [] => ([], [])
  | line :: lines' =>
      let '(pre, bs) := blocks_of lines' in
      match header_key line with
      | Some name => ([], Block line name pre :: bs)
      | None => (line :: pre, bs)
      end
  end.

(** The lines that a sequence of blocks takes up in the text. *)
Definition block_text (bs : list section_block) : list str :=
  concat ((λ b, block_header b :: block_lines b) <$> bs).

(** The assignments [sections[name] = content] that a document with the
    preamble [pre] and the blocks [bs] gives rise to, in document order. *)
Definition assignments (pre : list str) (bs : list section_block) : list (str * list str) :=
  (lit "_preamble", pre) :: ((λ b, (block_name b, block_lines b)) <$> bs).

(** One assignment [sections[name] = "\n".join(lines)]. *)
Definition assign (m : gmap str str) (a : str * list str) : gmap str str :=
  <[a.1 := Py.join [LF] a.2]> m.

(** [s] starts with a sub-header line for [name]: three hashes, blanks,
    the name up to case, optional blanks, and a line feed (the blanks may
    themselves contain line feeds).  [r] is what follows. *)
Definition header_at (name s : str) : Prop :=
  ∃ ws1 nm ws2 r,
    s = lit "###" ++ ws1 ++ nm ++ ws2 ++ LF :: r ∧
    ws1 ≠ [] ∧ forallb isspace ws1 = true ∧
    Py.lower nm = Py.lower name ∧
    forallb isspace ws2 = true.

(** [g] is the span of [r] up to its first [###] or, if there is none, up
    to its end. *)
Definition span_of (r g : str) : Prop :=
  ∃ rest,
    r = g ++ rest ∧
    (rest = [] ∨ Py.startswith "###" rest = true) ∧
    ∀ j, j < length g → Py.startswith "###" (drop j r) = false.

(** The states that a batch run goes through: all of [states.json], or
    those that [--state] selects. *)
Definition selected (a : args) (w : world) : list state_entry :=
  match arg_state a with
  | Some abbrev =>
      if Py.truthy abbrev
      then filter (λ s, Py.upper (st_abbreviation s) = Py.upper abbrev) (states_json w)
      else states_json w
  | None => states_json w
  end.

(** The documents that produce a record, unless a conversion raises:
    present, readable and not pending. *)
Definition is_parsed (w : world) (state : state_entry) : bool :=
  match document_of w state with
  | Some (Text content) => negb (Py.contains PLACEHOLDER_MARKER content)
  | _ => false
  end.

(** The warnings and the errors that the document of a state gives rise to. *)
Definition report_of (w : world) (state : state_entry) : list str * list str :=
  let r := parse_document state (text_of (document_of w state)) 0 0 [] in
  (r.1.2, r.2).

(** What [load_log] returns in a world. *)
Definition prior_log (w : world) : json :=
  match parse_log w with
  | GoodLog j => j
  | BadLog => JList []
  | NoLog => JList []
  end.

(** The log entries of a batch over [sts] in [w] when the clock has been
    read [t] times: one per parsed document, in order; the document number
    [i] is stamped with the second of the two readings of the clock that it
    consumes. *)
Definition entries_from (w : world) (t : nat) (sts : list state_entry) : list json :=
  imap (λ i st, log_entry st (wall_clock w (t + 2 * i + 1))
                          (report_of w st).1 (report_of w st).2)
       (filter (λ st, is_parsed w st = true) sts).

Definition new_entries (w : world) (sts : list state_entry) : list json :=
  entries_from w (ticks w) sts.

(** Two worlds that hold the same documents, assets, clock and run log. *)
Definition same_inputs (w w' : world) : Prop :=
  states_json w' = states_json w ∧
  (∀ st, document_of w' st = document_of w st) ∧
  (∀ st, assets_of w' st = assets_of w st) ∧
  wall_clock w' = wall_clock w ∧
  parse_log w' = parse_log w ∧
  PARSE_LOG w' = PARSE_LOG w.

(** The block names that a record cannot do without. *)
Definition required_blocks : list str :=
  [lit "APPLICATION PROCESS"; lit "REQUIRED DOCUMENTS"; lit "INTERVIEW REQUIREMENTS";
   lit "FORMS"; lit "LANGUAGE ACCESS"].

(** The number of steps that the complexity block declares: the integer
    of its field [Estimated Number of Steps], if the field holds one. *)
Definition declared_steps (sections : gmap str str) : option N :=
  match extract_field (dict_get sections "COMPLEXITY ASSESSMENT")
                      "Estimated Number of Steps" with
  | Some raw => if Py.truthy raw then first_integer raw else None
  | None => None
  end.

(** How the record [m'] of a document without its block [k] compares with
    the record [m] of the whole document: the sub-record of [k] is
    degraded, with null fields and empty lists; the other sub-records are
    the same, except for [complexity.steps_count] when the application
    block is the one removed.  With the number of steps [declared] by the
    complexity block, that count is the declared one before and after;
    with none declared, it is the number of application steps before (null
    if there is no step) and null after. *)
Definition removal_effect (k : str) (declared : option N) (m m' : metadata) : Prop :=
  collected_date m' = collected_date m ∧
  source_url m' = source_url m ∧
  md_assets m' = md_assets m ∧
  (if bool_decide (k = lit "APPLICATION PROCESS")
   then online_available (md_application m') = None ∧
        online_url (md_application m') = None ∧
        online_doc_submission (md_application m') = None ∧
        online_doc_submission_notes (md_application m') = None ∧
        steps (md_application m') = [] ∧
        app_steps_count (md_application m') = steps_count (md_complexity m')
   else md_application m' = md_application m) ∧
  (if bool_decide (k = lit "REQUIRED DOCUMENTS")
   then md_documents m' = Documents false []
   else md_documents m' = md_documents m) ∧
  (if bool_decide (k = lit "INTERVIEW REQUIREMENTS")
   then md_interview m' = Interview None None None None false None None None
                                    None None None None None None None None
   else md_interview m' = md_interview m) ∧
  (if bool_decide (k = lit "FORMS")
   then md_forms m' = Forms None []
   else md_forms m' = md_forms m) ∧
  (if bool_decide (k = lit "LANGUAGE ACCESS")
   then md_language_access m' = LanguageAccess None None None None
   else md_language_access m' = md_language_access m) ∧
  forms_to_complete (md_complexity m') = forms_to_complete (md_complexity m) ∧
  reading_level (md_complexity m') = reading_level (md_complexity m) ∧
  reading_level_notes (md_complexity m') = reading_level_notes (md_complexity m) ∧
  (if bool_decide (k = lit "APPLICATION PROCESS")
   then steps_count (md_complexity m') = declared ∧
        steps_count (md_complexity m)
          = match declared with
            | Some n => Some n
            | None => if Py.truthy (steps (md_application m))
                      then Some (N.of_nat (length (steps (md_application m))))
                      else None
            end
   else steps_count (md_complexity m') = steps_count (md_complexity m)).

(** What stripping the characters of [p] leaves: nothing, or a text that
    neither starts nor ends with such a character. *)
Definition trimmed (p : ascii → bool) (s : str) : Prop :=
  match s with
  | [] => True
  | c :: _ => p c = false ∧ ∃ s' d, s = s' ++ [d] ∧ p d = false
  end.

(** The world after some lines have been printed. *)
Definition printed (w : world) (lines : list str) : world :=
  World (states_json w) (data_dir w) (parse_log w) (PARSE_LOG w)
        (wall_clock w) (ticks w) (stdout w ++ lines).

(** The batch counters after one more skipped document. *)
Definition skip_one (b : batch) : batch :=
  Batch (run_log b) (total_errors b) (total_warnings b) (processed b) (S (skipped b)).

(** Whether [log.append] works: only on a list. *)
Definition is_list (j : json) : bool :=
  match j with JList _ => true | _ => false end.

(** The run log [j] after the entries [es] have been appended to it. *)
Definition log_with (j : json) (es : list json) : json :=
  match j with JList l => JList (l ++ es) | _ => j end.

(** What ends the loop of [main] before its last state, if anything.
    Going through the states in order: the exception of the first report
    on which [parse_state] raises, or [AttributeError] at the first report
    that is parsed when the run log is not a list. *)
Fixpoint batch_stop (w : world) (log_is_list : bool) (sts : list state_entry)
    : option str :=
  match sts with
  | [] => None
  | st :: sts' =>
      match parse_failure w st with
      | Some exn => Some exn
      | None =>
          if is_parsed w st && negb log_is_list then Some (lit "AttributeError")
          else batch_stop w log_is_list sts'
      end
  end.

(** The world after the run log has been saved. *)
Definition with_log (w : world) (log : json) : world :=
  World (states_json w) (data_dir w) (GoodLog log) (PARSE_LOG w)
        (wall_clock w) (ticks w) (stdout w).

(** The totals of a batch over [sts]: the errors and the warnings of the
    documents that are parsed. *)
Definition batch_errors (w : world) (sts : list state_entry) : nat :=
  sum_list ((λ st, length (report_of w st).2) <$> filter (λ st, is_parsed w st = true) sts).

Definition batch_warnings (w : world) (sts : list state_entry) : nat :=
  sum_list ((λ st, length (report_of w st).1) <$> filter (λ st, is_parsed w st = true) sts).

(** The number of parsed documents of a batch, and the three lines that
    [main] prints at its end. *)
Definition batch_parsed (w : world) (sts : list state_entry) : nat :=
  length (filter (λ st, is_parsed w st = true) sts).

Definition BANNER : str := lit "=== parse_outputs ===" ++ [LF].

Definition summary_lines (w : world) (sts : list state_entry) : list str :=
  [ [LF] ++ lit "Done. " ++ repr_nat (batch_parsed w sts) ++ lit " parsed, "
         ++ repr_nat (length sts - batch_parsed w sts) ++ lit " skipped.";
    lit "Total warnings: " ++ repr_nat (batch_warnings w sts)
         ++ lit ", Total errors: " ++ repr_nat (batch_errors w sts);
    lit "Log updated: " ++ PARSE_LOG w ].

(** A folder keeps its record through a batch over [sts] unless a parsed
    document of the batch lives in it. *)
Definition untouched (w : world) (sts : list state_entry) (st' : state_entry) : Prop :=
  ∀ st, st ∈ sts → is_parsed w st = true → st_folder_name st ≠ st_folder_name st'.

(** The line that [main] prints when [--state] selects nothing. *)
Definition NO_STATE_LINE (abbrev : str) : str :=
  lit "ERROR: No state found with abbreviation '" ++ abbrev ++ lit "'".

(** The names under which [parse_state] looks up the map of sections. *)
Definition known_blocks : list str :=
  lit "_preamble" :: required_blocks ++ [lit "COMPLEXITY ASSESSMENT"; lit "URLS REFERENCED"].

(** A text that holds no line boundary other than the line feed. *)
Definition unix_lines (s : str) : bool :=
  forallb (λ c, negb (is_linebreak c) || bool_decide (c = LF)) s.

(** A URL as the reports list it: [http://] or [https://] followed by at
    least one character, with no blank and no hash in it. *)
Definition listed_url (u : str) : bool :=
  (Py.startswith "http://" u && bool_decide (7 < length u)
   || Py.startswith "https://" u && bool_decide (8 < length u))
  && forallb (λ c, negb (isspace c) && negb (bool_decide (c = "#"%char))) u.

(** A bullet list with one URL per line, and the block of the two lists
    of URLs of a report. *)
Definition bullet_list (us : list str) : str :=
  Py.join [LF] ((λ u, lit "- " ++ u) <$> us).

Definition urls_block (pages downloads : list str) : str :=
  lit "### Pages Visited" ++ [LF] ++ bullet_list pages ++ [LF]
    ++ lit "### Downloadable Assets" ++ [LF] ++ bullet_list downloads.

(** The optional texts of a record: the seventeen fields that
    [extract_field] fills, and the six fields of every form. *)
Definition text_fields (m : metadata) : list (option str) :=
  let a := md_application m in
  let i := md_interview m in
  let l := md_language_access m in
  let c := md_complexity m in
  [ collected_date m; source_url m;
    online_url a; online_doc_submission_notes a;
    scheduling_who_initiates i; scheduling_url i; hours_description i; hours_notes i;
    reminder_method i; reschedule_method i; reschedule_url i;
    missed_interview_penalty i; good_cause_notes i;
    translation_method l; notes l;
    reading_level c; reading_level_notes c ]
  ++ concat ((λ f, [form_name f; form_number f; form_description f;
                    form_language f; form_url f; form_file_type f])
               <$> form_list (md_forms m)).

(** A text that is not empty and not padded. *)
Definition clean (v : str) : Prop := v ≠ [] ∧ Py.strip v = v.

(** ** Sample inputs *)

Definition sample_state : state_entry := StateEntry "California" "CA" "california".

(** A clock whose successive readings differ. *)
Definition sample_clock (n : nat) : str :=
  lit "2026-01-01T00:00:0" ++ repr_nat n ++ lit "+00:00".

(** A world with one state whose folder holds the report [content] and
    nothing else, and with no run log yet. *)
Definition sample_world (content : str) : world :=
  World [sample_state]
        {[ lit "california" := FolderStore (Some (Text content)) None None None ]}
        NoLog "logs/parse_log.json" sample_clock 0 [].

(** A report with the five required blocks, a complexity block that does
    not commit to a number of steps, and a form table of three rows with no
    declared total. *)
Definition sample_document : str :=
"# SNAP - California
**Collected:** 2026-01-01
**Source URL:** https://example.org/snap
## APPLICATION PROCESS
**Online Application Available:** Yes
### Steps
1. Create an account
2. Submit form
## REQUIRED DOCUMENTS
- Proof of identity
* Proof of income
## INTERVIEW REQUIREMENTS
**Interview Required:** Yes
**Interview Type Options:** Phone / In person
### Scheduling
**How to Schedule:** Agency calls
## FORMS
| Form Name | Form Number | Description | Language | URL | File Type |
|---|---|---|---|---|---|
| Application | CF 285 | Main form | English | https://example.org/a.pdf | PDF |
| Income report | SAR 7 | Report | English | https://example.org/b.pdf | PDF |
| Rights | n/a | Notice | Spanish | https://example.org/c.pdf | PDF |
## LANGUAGE ACCESS
**Languages Supported on Website:** English, Spanish
## COMPLEXITY ASSESSMENT
**Estimated Number of Steps:** Not specified on website
**Estimated Reading Level:** 8th grade
".

(** The sample report without its APPLICATION PROCESS block. *)
Definition sample_document_without_application : str :=
"# SNAP - California
**Collected:** 2026-01-01
**Source URL:** https://example.org/snap
## REQUIRED DOCUMENTS
- Proof of identity
* Proof of income
## INTERVIEW REQUIREMENTS
**Interview Required:** Yes
**Interview Type Options:** Phone / In person
### Scheduling
**How to Schedule:** Agency calls
## FORMS
| Form Name | Form Number | Description | Language | URL | File Type |
|---|---|---|---|---|---|
| Application | CF 285 | Main form | English | https://example.org/a.pdf | PDF |
| Income report | SAR 7 | Report | English | https://example.org/b.pdf | PDF |
| Rights | n/a | Notice | Spanish | https://example.org/c.pdf | PDF |
## LANGUAGE ACCESS
**Languages Supported on Website:** English, Spanish
## COMPLEXITY ASSESSMENT
**Estimated Number of Steps:** Not specified on website
**Estimated Reading Level:** 8th grade
".

(** A world with two states, one whose report is complete and one whose
    report is still pending, and with a run log of one earlier entry. *)
Definition pending_state : state_entry := StateEntry "Texas" "TX" "texas".

Definition sample_batch_world : world :=
  World [sample_state; pending_state]
        {[ lit "california" := FolderStore (Some (Text sample_document)) None None None;
           lit "texas" := FolderStore (Some (Text (lit "# Pending" ++ LF :: PLACEHOLDER_MARKER)))
                                      None None None ]}
        (GoodLog (JList [log_entry sample_state "2025-12-31T00:00:00+00:00" [] []]))
        "logs/parse_log.json" sample_clock 0 [].

(** ** Tactics *)

(** Decides the equations between block names. *)
Ltac decide_names :=
  repeat match goal with
         | |- context [bool_decide (lit ?x = lit ?y)] =>
             let v := eval vm_compute in (bool_decide (lit x = lit y)) in
             change (bool_decide (lit x = lit y)) with v
         end.

(** * Properties *)

(** ** Characters and strings *)

Section strip_facts.
Context (p : ascii → bool).

Lemma lstrip_by_idemp s : Py.lstrip_by p (Py.lstrip_by p s) = Py.lstrip_by p s.
Proof.
  induction s as [|c s IH]; simpl; [done|].
  destruct (p c) eqn:Hc; [done|]. simpl. by rewrite Hc.
Qed.

Lemma lstrip_by_fixed c s : p c = false → Py.lstrip_by p (c :: s) = c :: s.
Proof. intros Hc. simpl. by rewrite Hc. Qed.

Lemma lstrip_by_all s : forallb p s = true → Py.lstrip_by p s = [].
Proof.
  induction s as [|c s IH]; simpl; [done|].
  intros [Hc Hs]%andb_prop. rewrite Hc. auto.
Qed.

Lemma lstrip_by_app_all ws s :
  forallb p ws = true → Py.lstrip_by p (ws ++ s) = Py.lstrip_by p s.
Proof.
  induction ws as [|c ws IH]; simpl; [done|].
  intros [Hc Hs]%andb_prop. rewrite Hc. auto.
Qed.

Lemma lstrip_by_snoc s c :
  p c = false → Py.lstrip_by p (s ++ [c]) = Py.lstrip_by p s ++ [c].
Proof.
  intros Hc. induction s as [|a s IH]; simpl.
  - by rewrite Hc.
  - destruct (p a); [done|]. done.
Qed.

Lemma forallb_reverse (s : str) : forallb p (reverse s) = forallb p s.
Proof.
  induction s as [|c s IH]; [done|].
  rewrite reverse_cons, forallb_app, IH. simpl. rewrite andb_true_r. apply andb_comm.
Qed.

Lemma rstrip_by_idemp s : Py.rstrip_by p (Py.rstrip_by p s) = Py.rstrip_by p s.
Proof.
  unfold Py.rstrip_by. by rewrite reverse_involutive, lstrip_by_idemp.
Qed.

Lemma rstrip_by_cons c s :
  p c = false → Py.rstrip_by p (c :: s) = c :: Py.rstrip_by p s.
Proof.
  intros Hc. unfold Py.rstrip_by.
  by rewrite reverse_cons, lstrip_by_snoc, reverse_snoc.
Qed.

Lemma rstrip_by_app_all s ws :
  forallb p ws = true → Py.rstrip_by p (s ++ ws) = Py.rstrip_by p s.
Proof.
  intros Hws. unfold Py.rstrip_by. rewrite reverse_app, lstrip_by_app_all; [done|].
  by rewrite forallb_reverse.
Qed.

Lemma lstrip_by_head s :
  match Py.lstrip_by p s with [] => True | c :: _ => p c = false end.
Proof.
  induction s as [|c s IH]; simpl; [done|].
  destruct (p c) eqn:Hc; [done|]. done.
Qed.

Lemma rstrip_by_last s :
  Py.rstrip_by p s = [] ∨ ∃ s' d, Py.rstrip_by p s = s' ++ [d] ∧ p d = false.
Proof.
  unfold Py.rstrip_by. pose proof (lstrip_by_head (reverse s)) as H.
  destruct (Py.lstrip_by p (reverse s)) as [|d r]; [by left|].
  right. exists (reverse r), d. by rewrite reverse_cons.
Qed.

Lemma strip_by_trimmed s : trimmed p (Py.strip_by p s).
Proof.
  unfold Py.strip_by. pose proof (lstrip_by_head s) as H.
  destruct (Py.lstrip_by p s) as [|c t]; [done|].
  rewrite rstrip_by_cons by done. simpl. split; [done|].
  destruct (rstrip_by_last (c :: t)) as [E|(s' & d & E & Hd)];
    rewrite rstrip_by_cons in E by done; [done|]. eauto.
Qed.

Lemma strip_by_fixed s : trimmed p s → Py.strip_by p s = s.
Proof.
  destruct s as [|c t]; [done|]. intros [Hc (s' & d & E & Hd)].
  unfold Py.strip_by. rewrite lstrip_by_fixed by done.
  rewrite E. unfold Py.rstrip_by.
  by rewrite reverse_snoc, lstrip_by_fixed, reverse_cons, reverse_involutive.
Qed.

Lemma strip_by_idemp s : Py.strip_by p (Py.strip_by p s) = Py.strip_by p s.
Proof. apply strip_by_fixed, strip_by_trimmed. Qed.

Lemma strip_by_app_all_l ws s :
  forallb p ws = true → Py.strip_by p (ws ++ s) = Py.strip_by p s.
Proof. intros H. unfold Py.strip_by. by rewrite lstrip_by_app_all. Qed.
End strip_facts.

Lemma strip_idemp s : Py.strip (Py.strip s) = Py.strip s.
Proof. apply strip_by_idemp. Qed.

Lemma lower_nil_inv s : Py.lower s = [] → s = [].
Proof. by destruct s. Qed.

Lemma normalize_Some_inv value v :
  normalize (Some value) = Some v →
  v = Py.strip value ∧ Py.lower v ∉ sentinels.
Proof.
  unfold normalize. cbv zeta. case_bool_decide as Hs; [done|].
  intros [= <-]. done.
Qed.

Lemma normalize_fixed v :
  Py.strip v = v → Py.lower v ∉ sentinels → normalize (Some v) = Some v.
Proof.
  intros Hv Hs. unfold normalize. cbv zeta. rewrite Hv.
  by rewrite bool_decide_eq_false_2.
Qed.

(** C10. [normalize] returns either [None] or a non-empty text that equals
    its own trim, and it is idempotent: normalizing a second time changes
    nothing, for every input, [None] included. *)
Theorem normalize_trimmed_idempotent (x : option str) :
  (normalize x = None ∨
   ∃ v, normalize x = Some v ∧ v ≠ [] ∧ Py.strip v = v) ∧
  normalize (normalize x) = normalize x.
Proof.
  destruct (normalize x) as [v|] eqn:E; [|by split; [left|]].
  destruct x as [value|]; [|done].
  apply normalize_Some_inv in E as [-> Hs].
  split.
  - right. exists (Py.strip value). split; [done|]. split; [|apply strip_idemp].
    intros E. apply Hs. rewrite E. by apply (bool_decide_unpack _); vm_compute.
  - apply normalize_fixed; [apply strip_idemp|done].
Qed.

(** ** Prefixes and substrings *)

Lemma startswith_spec pre s : Py.startswith pre s = true ↔ ∃ r, s = pre ++ r.
Proof.
  revert s. induction pre as [|a pre IH]; intros s; simpl.
  - split; [eauto|done].
  - destruct s as [|b s]; [split; [done|by intros [? ?]]|].
    rewrite andb_true_iff, bool_decide_eq_true, IH. split.
    + intros [-> [r ->]]. eauto.
    + intros [r [= -> ->]]. eauto.
Qed.

Lemma startswith_app pre r : Py.startswith pre (pre ++ r) = true.
Proof. apply startswith_spec. eauto. Qed.

Lemma contains_spec needle s :
  Py.contains needle s = true ↔ ∃ pre post, s = pre ++ needle ++ post.
Proof.
  induction s as [|c s IH]; simpl.
  - rewrite orb_false_r, startswith_spec. split.
    + intros [r E]. exists [], r. done.
    + intros (pre & post & E). symmetry in E.
      apply app_eq_nil in E as [-> E]. eauto.
  - rewrite orb_true_iff, startswith_spec, IH. split.
    + intros [[r E]|(pre & post & ->)].
      * exists [], r. done.
      * exists (c :: pre), post. done.
    + intros (pre & post & E). destruct pre as [|a pre].
      * left. eauto.
      * right. injection E as -> ->. eauto.
Qed.

(** ** Running [parse_state] *)

Lemma parse_state_missing st strict w :
  document_of w st = None →
  parse_state st strict w = (Ret (None, [NOT_FOUND_NOTE], []), w).
Proof.
  unfold document_of, parse_state, mbind, prog_bind, gets. intros ->. done.
Qed.

Lemma parse_state_unreadable st strict w exn :
  document_of w st = Some (Unreadable exn) →
  parse_state st strict w = (Raise exn, w).
Proof.
  unfold document_of, parse_state, mbind, prog_bind, gets. intros ->. done.
Qed.

Lemma parse_state_placeholder st strict w content :
  document_of w st = Some (Text content) →
  Py.contains PLACEHOLDER_MARKER content = true →
  parse_state st strict w = (Ret (None, [], [PLACEHOLDER_NOTE]), w).
Proof.
  unfold document_of, parse_state, mbind, prog_bind, gets. intros -> ->. done.
Qed.

Lemma parse_state_raises st strict w content :
  document_of w st = Some (Text content) →
  Py.contains PLACEHOLDER_MARKER content = false →
  parse_document_raises content = true →
  parse_state st strict w = (Raise "ValueError", w).
Proof.
  unfold document_of, parse_state, mbind, prog_bind, gets. intros -> -> ->. done.
Qed.

Lemma parse_state_parsed st strict w content :
  document_of w st = Some (Text content) →
  Py.contains PLACEHOLDER_MARKER content = false →
  parse_document_raises content = false →
  let r := parse_document st content (assets_of w st).1 (assets_of w st).2
             (wall_clock w (ticks w)) in
  parse_state st strict w =
    (Ret (Some r.1.1, r.1.2, r.2), world_after_parse w (st_folder_name st) r.1.1).
Proof.
  unfold document_of, parse_state, mbind, prog_bind, gets. intros -> -> ->.
  cbn [count_assets gets utc_now wall_clock ticks assets_of fst snd].
  destruct (parse_document _ _ _ _ _) as [[m ws] es]. done.
Qed.

(** ** Pending documents *)

Lemma main_step_placeholder st strict b w content :
  document_of w st = Some (Text content) →
  Py.contains PLACEHOLDER_MARKER content = true →
  main_step strict b st w =
    (Ret (skip_one b),
     printed w [lit "  [" ++ st_abbreviation st ++ lit "] Skipping: " ++ PLACEHOLDER_NOTE]).
Proof.
  intros Hdoc Hmark. unfold main_step, mbind, prog_bind.
  rewrite (parse_state_placeholder _ _ _ _ Hdoc Hmark). done.
Qed.

(** C1, as the code has it.  For every document whose text contains the
    marker [Not yet collected.], [parse_state] produces no record and no
    warning, and puts exactly one informational note in the third
    position of its result, the one the caller reads as [errors]; it writes
    nothing.  The batch driver then prints one line, which holds the
    abbreviation of the state and the note, counts the document as
    skipped, and leaves the error total, the warning total, the run log,
    the files and the clock as they were. *)
Theorem placeholder_is_skipped st strict w pre post :
  document_of w st = Some (Text (pre ++ PLACEHOLDER_MARKER ++ post)) →
  parse_state st strict w = (Ret (None, [], [PLACEHOLDER_NOTE]), w) ∧
  ∀ b, ∃ w',
    main_step strict b st w = (Ret (skip_one b), w') ∧
    stdout w' = stdout w ++ [lit "  [" ++ st_abbreviation st ++ lit "] Skipping: "
                               ++ PLACEHOLDER_NOTE] ∧
    data_dir w' = data_dir w ∧ parse_log w' = parse_log w ∧ ticks w' = ticks w ∧
    total_errors (skip_one b) = total_errors b ∧
    total_warnings (skip_one b) = total_warnings b ∧
    run_log (skip_one b) = run_log b ∧
    processed (skip_one b) = processed b ∧
    skipped (skip_one b) = S (skipped b).
Proof.
  intros Hdoc.
  assert (Py.contains PLACEHOLDER_MARKER (pre ++ PLACEHOLDER_MARKER ++ post) = true)
    as Hmark by (apply contains_spec; eauto).
  split; [by eapply parse_state_placeholder|].
  intros b. eexists. split; [by eapply main_step_placeholder|]. done.
Qed.

Lemma placeholder_is_skipped_witness :
  parse_state sample_state false (sample_world PLACEHOLDER_MARKER)
    = (Ret (None, [], [PLACEHOLDER_NOTE]), sample_world PLACEHOLDER_MARKER) ∧
  ∃ w',
    main_step false (Batch (JList []) 0 0 0 0) sample_state (sample_world PLACEHOLDER_MARKER)
      = (Ret (Batch (JList []) 0 0 0 1), w') ∧
    stdout w' = [lit "  [CA] Skipping: " ++ PLACEHOLDER_NOTE].
Proof.
  destruct (placeholder_is_skipped sample_state false
              (sample_world PLACEHOLDER_MARKER) [] [] eq_refl) as [Hparse Hstep].
  split; [exact Hparse|].
  destruct (Hstep (Batch (JList []) 0 0 0 0)) as (w' & Hrun & Hout & _).
  exists w'. split; [exact Hrun|exact Hout].
Defined.

(** C1, as stated, fails: on a document that is just the marker the third
    component of the result of [parse_state], its errors sequence, is not
    empty. *)
Lemma placeholder_errors_not_empty :
  ∃ ws es,
    (parse_state sample_state false (sample_world PLACEHOLDER_MARKER)).1
      = Ret (None, ws, es) ∧ es ≠ [].
Proof. exists [], [PLACEHOLDER_NOTE]. split; [reflexivity|discriminate]. Qed.

(** ** The assembled record *)

Lemma elem_of_append_if {A} (c : bool) (l : list A) (x y : A) :
  y ∈ append_if c l x ↔ y ∈ l ∨ (c = true ∧ y = x).
Proof.
  unfold append_if. destruct c.
  - rewrite elem_of_app, list_elem_of_singleton. split.
    + intros [?|?]; [by left|by right].
    + intros [?|[_ ?]]; [by left|by right].
  - split; [by left|]. by intros [?|[? _]].
Qed.

Lemma parse_document_status st content pd fd now :
  let r := parse_document st content pd fd now in
  warnings (md_parse_status r.1.1) = r.1.2 ∧
  errors (md_parse_status r.1.1) = r.2 ∧
  parsed (md_parse_status r.1.1) = bool_decide (length r.2 = 0) ∧
  parse_timestamp (md_parse_status r.1.1) = now.
Proof. done. Qed.

Lemma record_of_after_parse w st m content :
  document_of w st = Some (Text content) →
  record_of (world_after_parse w (st_folder_name st) m) st
    = Some (Json.dump (Json.of_metadata m)).
Proof.
  unfold document_of, record_of, world_after_parse. cbn [data_dir].
  rewrite lookup_alter_eq. destruct (data_dir w !! st_folder_name st); done.
Qed.

Lemma document_of_after_parse w st st' m :
  document_of (world_after_parse w (st_folder_name st') m) st = document_of w st.
Proof.
  unfold document_of, world_after_parse. cbn [data_dir].
  destruct (decide (st_folder_name st' = st_folder_name st)) as [->|Hne].
  - rewrite lookup_alter_eq. by destruct (data_dir w !! st_folder_name st).
  - by rewrite lookup_alter_ne.
Qed.

Lemma assets_of_after_parse w st st' m :
  assets_of (world_after_parse w (st_folder_name st') m) st = assets_of w st.
Proof.
  unfold assets_of, world_after_parse. cbn [data_dir].
  destruct (decide (st_folder_name st' = st_folder_name st)) as [->|Hne].
  - rewrite lookup_alter_eq. by destruct (data_dir w !! st_folder_name st).
  - by rewrite lookup_alter_ne.
Qed.

(** C9. When the [Total Forms Found] field of the FORMS block yields no
    integer and the form table extracted from the block is not empty, the
    record's [forms.total_count] is the number of table rows and the
    warnings hold the note that the count was inferred.  The record is
    there unless a number of the complexity block is too long for [int]:
    the run then dies with [ValueError] and writes nothing. *)
Theorem forms_total_inferred st strict w content :
  document_of w st = Some (Text content) →
  Py.contains PLACEHOLDER_MARKER content = false →
  (∀ raw, extract_field (dict_get (split_sections content) "FORMS") "Total Forms Found" = Some raw →
          first_integer raw = None) →
  extract_form_table (dict_get (split_sections content) "FORMS") ≠ [] →
  (parse_document_raises content = true →
   parse_state st strict w = (Raise "ValueError", w)) ∧
  (parse_document_raises content = false →
   ∃ m ws es w',
     parse_state st strict w = (Ret (Some m, ws, es), w') ∧
     form_list (md_forms m) = extract_form_table (dict_get (split_sections content) "FORMS") ∧
     total_count (md_forms m) = Some (N.of_nat (length (form_list (md_forms m)))) ∧
     INFERRED_NOTE ∈ ws ∧
     INFERRED_NOTE ∈ warnings (md_parse_status m)).
Proof.
  intros Hdoc Hmark Hraw Htable. split; [by apply parse_state_raises|]. intros Hok.
  pose proof (parse_state_parsed st strict w content Hdoc Hmark Hok) as Hrun.
  cbv zeta in Hrun. eexists _, _, _, _. split; [exact Hrun|].
  unfold parse_document, parse_sections. cbv zeta. cbn [fst snd md_forms form_list total_count md_parse_status warnings].
  set (forms_section := dict_get (split_sections content) "FORMS") in *.
  assert (match extract_field forms_section "Total Forms Found" with
          | Some raw => if Py.truthy raw then first_integer raw else None
          | None => None
          end = None) as ->.
  { destruct (extract_field forms_section "Total Forms Found") as [raw|] eqn:E; [|done].
    rewrite (Hraw raw eq_refl). by destruct (Py.truthy raw). }
  assert (Py.truthy (extract_form_table forms_section) = true) as ->
    by (by destruct (extract_form_table forms_section)).
  cbn [bool_decide decide_rel andb]. rewrite bool_decide_eq_true_2 by done.
  split; [done|]. split; [done|].
  assert (∀ c l, INFERRED_NOTE ∈ append_if c (append_if true l INFERRED_NOTE)
                     (lit "COMPLEXITY ASSESSMENT section missing")) as H.
  { intros c l. apply elem_of_append_if. left. apply elem_of_append_if. by right. }
  split; apply H.
Qed.

Lemma forms_total_inferred_witness :
  ∃ m ws es w',
    parse_state sample_state false (sample_world sample_document)
      = (Ret (Some m, ws, es), w') ∧
    form_list (md_forms m)
      = extract_form_table (dict_get (split_sections sample_document) "FORMS") ∧
    total_count (md_forms m) = Some (N.of_nat (length (form_list (md_forms m)))) ∧
    INFERRED_NOTE ∈ ws ∧
    INFERRED_NOTE ∈ warnings (md_parse_status m).
Proof.
  apply (forms_total_inferred sample_state false (sample_world sample_document)
           sample_document).
  - reflexivity.
  - vm_compute. reflexivity.
  - intros raw. vm_compute. discriminate.
  - vm_compute. discriminate.
  - vm_compute. reflexivity.
Defined.

(** The sample report declares no total and has three table rows: the
    record counts three forms. *)
Example sample_total_is_three :
  (λ r, total_count (md_forms r.1.1))
    (parse_document sample_state sample_document 0 0 (sample_clock 0)) = Some 3%N.
Proof. vm_compute. reflexivity. Qed.

(** ** Running the parser twice *)

Lemma parse_document_clock st content pd fd t1 t2 :
  let r1 := parse_document st content pd fd t1 in
  let r2 := parse_document st content pd fd t2 in
  r2.1.1 = with_timestamp t2 r1.1.1 ∧ r2.1.2 = r1.1.2 ∧ r2.2 = r1.2.
Proof. done. Qed.

(** C3, as the code has it.  Two runs of [parse_state] on the same
    document text with the same stored assets report the same warnings and
    errors and produce records that agree in everything except
    [parse_status.parse_timestamp], which holds the reading of the clock of
    each run; the bytes written to [metadata.json] are the serialization of
    these records, so they are the same when the two readings are.  On a
    document with a number too long for [int] the two runs agree as well:
    both die with [ValueError] and write nothing. *)
Theorem rerun_same_up_to_timestamp st strict w1 w2 content :
  document_of w1 st = Some (Text content) →
  document_of w2 st = Some (Text content) →
  assets_of w1 st = assets_of w2 st →
  Py.contains PLACEHOLDER_MARKER content = false →
  (parse_document_raises content = true →
   parse_state st strict w1 = (Raise "ValueError", w1) ∧
   parse_state st strict w2 = (Raise "ValueError", w2)) ∧
  (parse_document_raises content = false →
   ∃ m1 m2 ws es w1' w2',
     parse_state st strict w1 = (Ret (Some m1, ws, es), w1') ∧
     parse_state st strict w2 = (Ret (Some m2, ws, es), w2') ∧
     parse_timestamp (md_parse_status m1) = wall_clock w1 (ticks w1) ∧
     m2 = with_timestamp (wall_clock w2 (ticks w2)) m1 ∧
     record_of w1' st = Some (Json.dump (Json.of_metadata m1)) ∧
     record_of w2' st = Some (Json.dump (Json.of_metadata m2)) ∧
     (wall_clock w1 (ticks w1) = wall_clock w2 (ticks w2) →
      m1 = m2 ∧ record_of w1' st = record_of w2' st)).
Proof.
  intros Hdoc1 Hdoc2 Hassets Hmark.
  split; [intros Hbad; split; by eapply parse_state_raises|]. intros Hok.
  pose proof (parse_state_parsed st strict w1 content Hdoc1 Hmark Hok) as Hrun1.
  pose proof (parse_state_parsed st strict w2 content Hdoc2 Hmark Hok) as Hrun2.
  cbv zeta in Hrun1, Hrun2. rewrite <- Hassets in Hrun2.
  set (pd := (assets_of w1 st).1) in *. set (fd := (assets_of w1 st).2) in *.
  destruct (parse_document_clock st content pd fd
              (wall_clock w1 (ticks w1)) (wall_clock w2 (ticks w2))) as (Hm & Hws & Hes).
  rewrite Hws, Hes in Hrun2.
  eexists _, _, _, _, _, _. split; [exact Hrun1|]. split; [exact Hrun2|].
  split; [done|]. split; [exact Hm|].
  rewrite !(record_of_after_parse _ _ _ content) by done.
  split; [done|]. split; [done|].
  intros Hclock. rewrite <- Hclock. done.
Qed.

(** The second run may start from the world that the first one left. *)
Lemma rerun_same_up_to_timestamp_witness :
  let w1 := sample_world sample_document in
  let w2 := (parse_state sample_state false w1).2 in
  ∃ m1 m2 ws es w1' w2',
    parse_state sample_state false w1 = (Ret (Some m1, ws, es), w1') ∧
    parse_state sample_state false w2 = (Ret (Some m2, ws, es), w2') ∧
    parse_timestamp (md_parse_status m1) = wall_clock w1 (ticks w1) ∧
    m2 = with_timestamp (wall_clock w2 (ticks w2)) m1 ∧
    record_of w1' sample_state = Some (Json.dump (Json.of_metadata m1)) ∧
    record_of w2' sample_state = Some (Json.dump (Json.of_metadata m2)) ∧
    (wall_clock w1 (ticks w1) = wall_clock w2 (ticks w2) →
     m1 = m2 ∧ record_of w1' sample_state = record_of w2' sample_state).
Proof.
  intros w1 w2.
  apply (rerun_same_up_to_timestamp sample_state false w1 w2 sample_document).
  - reflexivity.
  - vm_compute. reflexivity.
  - vm_compute. reflexivity.
  - vm_compute. reflexivity.
  - vm_compute. reflexivity.
Defined.

(** C3, as stated, fails: the sample report is parsed twice in a row,
    nothing but the clock changes in between, and the two files written
    differ. *)
Lemma rerun_changes_bytes :
  let w0 := sample_world sample_document in
  let w1 := (parse_state sample_state false w0).2 in
  let w2 := (parse_state sample_state false w1).2 in
  document_of w1 sample_state = document_of w0 sample_state ∧
  assets_of w1 sample_state = assets_of w0 sample_state ∧
  record_of w1 sample_state ≠ record_of w2 sample_state.
Proof.
  split; [vm_compute; reflexivity|]. split; [vm_compute; reflexivity|].
  apply (bool_decide_eq_false_1 _). vm_compute. reflexivity.
Qed.

(** ** The matchers *)

Section matchers.
Context {A : Type}.
Implicit Types (k : str → str → option A) (p : ascii → bool) (s : str).

Lemma first_match_app {X} (f : X → option A) l1 l2 :
  Re.first_match f (l1 ++ l2) =
    match Re.first_match f l1 with Some r => Some r | None => Re.first_match f l2 end.
Proof.
  induction l1 as [|x l1 IH]; simpl; [done|]. by destruct (f x).
Qed.

Lemma first_match_None {X} (f : X → option A) l :
  Re.first_match f l = None ↔ ∀ x, x ∈ l → f x = None.
Proof.
  induction l as [|x l IH]; simpl.
  - split; [|done]. intros _ x Hx. by apply elem_of_nil in Hx.
  - destruct (f x) eqn:E.
    + split; [done|]. intros H. rewrite <- E. apply H. left.
    + rewrite IH. split.
      * intros H y [->|Hy]%elem_of_cons; auto.
      * intros H y Hy. apply H. by right.
Qed.

Lemma first_match_Some_inv {X} (f : X → option A) l r :
  Re.first_match f l = Some r → ∃ x, x ∈ l ∧ f x = Some r.
Proof.
  induction l as [|x l IH]; simpl; [done|].
  destruct (f x) eqn:E.
  - intros [= <-]. exists x. split; [left|done].
  - intros (y & Hy & Hr)%IH. exists y. split; [by right|done].
Qed.

Lemma run_le p s : Re.run p s ≤ length s.
Proof. induction s as [|c s IH]; simpl; [lia|]. destruct (p c); simpl; lia. Qed.

Lemma run_app_all p ws s :
  forallb p ws = true → Re.run p (ws ++ s) = length ws + Re.run p s.
Proof.
  induction ws as [|c ws IH]; simpl; [done|].
  intros [-> Hws]%andb_prop. by rewrite IH.
Qed.

Lemma run_stop p c s : p c = false → Re.run p (c :: s) = 0.
Proof. intros Hc. simpl. by rewrite Hc. Qed.

Lemma run_take_all p s i : i ≤ Re.run p s → forallb p (take i s) = true.
Proof.
  revert i. induction s as [|c s IH]; intros [|i]; simpl; try done.
  destruct (p c); simpl; [|lia]. intros Hi. apply IH. lia.
Qed.

Lemma run_drop_stop p s :
  match drop (Re.run p s) s with [] => True | c :: _ => p c = false end.
Proof.
  induction s as [|c s IH]; simpl; [done|].
  destruct (p c) eqn:Hc; simpl; [done|by rewrite Hc].
Qed.

Lemma run_full p s : forallb p s = true → Re.run p s = length s.
Proof.
  intros H. rewrite <- (app_nil_r s) at 1. rewrite run_app_all by done. simpl. lia.
Qed.

Lemma run_below p s i : i < Re.run p s → ∃ c r, drop i s = c :: r ∧ p c = true.
Proof.
  revert i. induction s as [|c s IH]; intros i; simpl; [lia|].
  destruct (p c) eqn:Hc; [|lia]. destruct i as [|i]; simpl.
  - eauto.
  - intros Hi. apply IH. lia.
Qed.

(** The candidates of a greedy quantifier, the longest first. *)
Lemma greedy_candidates min n :
  min ≤ n → reverse (seq min (S n - min)) = n :: reverse (seq min (n - min)).
Proof.
  intros H. replace (S n - min) with (S (n - min)) by lia.
  rewrite seq_S, reverse_snoc. f_equal. lia.
Qed.

Lemma greedy_short p min k s : Re.run p s < min → Re.greedy p min k s = None.
Proof.
  intros H. unfold Re.greedy. by replace (S (Re.run p s) - min) with 0 by lia.
Qed.

Lemma greedy_longest p min k s r :
  min ≤ Re.run p s →
  k (take (Re.run p s) s) (drop (Re.run p s) s) = Some r →
  Re.greedy p min k s = Some r.
Proof.
  intros Hmin Hk. unfold Re.greedy. rewrite greedy_candidates by done.
  simpl. by rewrite Hk.
Qed.

Lemma greedy_None p min k s :
  Re.greedy p min k s = None ↔
  ∀ i, min ≤ i ≤ Re.run p s → k (take i s) (drop i s) = None.
Proof.
  unfold Re.greedy. rewrite first_match_None. split.
  - intros H i Hi. apply H. rewrite elem_of_reverse, elem_of_seq. lia.
  - intros H i Hi. rewrite elem_of_reverse, elem_of_seq in Hi. apply H. lia.
Qed.

Lemma greedy_Some_inv p min k s r :
  Re.greedy p min k s = Some r →
  ∃ i, min ≤ i ≤ Re.run p s ∧ k (take i s) (drop i s) = Some r.
Proof.
  unfold Re.greedy. intros (i & Hi & Hr)%first_match_Some_inv.
  rewrite elem_of_reverse, elem_of_seq in Hi. exists i. split; [lia|done].
Qed.

(** The longest candidate at which the rest of the pattern succeeds wins. *)
Lemma greedy_first p min k s i r :
  min ≤ i ≤ Re.run p s →
  k (take i s) (drop i s) = Some r →
  (∀ j, i < j ≤ Re.run p s → k (take j s) (drop j s) = None) →
  Re.greedy p min k s = Some r.
Proof.
  intros Hi Hk Hlater. unfold Re.greedy.
  replace (S (Re.run p s) - min) with ((S i - min) + (Re.run p s - i)) by lia.
  rewrite seq_app, reverse_app, first_match_app.
  replace (Re.first_match _ (reverse (seq (min + (S i - min)) _))) with (@None A).
  - rewrite greedy_candidates by lia. simpl. by rewrite Hk.
  - symmetry. apply first_match_None. intros j Hj.
    rewrite elem_of_reverse, elem_of_seq in Hj. apply Hlater. lia.
Qed.

(** A quantifier followed by something that cannot start with a character
    of the class never gives anything back. *)
Lemma greedy_no_backtrack p min k s :
  (∀ g c r, p c = true → k g (c :: r) = None) →
  Re.greedy p min k s =
    if decide (min ≤ Re.run p s)
    then k (take (Re.run p s) s) (drop (Re.run p s) s) else None.
Proof.
  intros Hk. case_decide as Hmin; [|apply greedy_short; lia].
  destruct (k (take (Re.run p s) s) (drop (Re.run p s) s)) as [r|] eqn:E.
  - by apply greedy_longest.
  - apply greedy_None. intros i Hi.
    destruct (decide (i = Re.run p s)) as [->|Hne]; [done|].
    destruct (run_below p s i) as (c & r & -> & Hc); [lia|]. by apply Hk.
Qed.

Lemma exact_eq (w : str) (k' : str → option A) r : Re.exact w k' (w ++ r) = k' r.
Proof. unfold Re.exact. by rewrite startswith_app, drop_app_length. Qed.

Lemma exact_Some_inv (w : str) (k' : str → option A) s x :
  Re.exact w k' s = Some x → ∃ r, s = w ++ r ∧ k' r = Some x.
Proof.
  unfold Re.exact. destruct (Py.startswith w s) eqn:E; [|done].
  apply startswith_spec in E as [r ->]. rewrite drop_app_length. eauto.
Qed.

Lemma exact_mismatch (w : str) (k' : str → option A) a c r :
  a ≠ c → Re.exact (a :: w) k' (c :: r) = None.
Proof.
  intros Hne. unfold Re.exact. simpl. by rewrite bool_decide_eq_false_2.
Qed.

Lemma exact_nil (w : str) (k' : str → option A) : w ≠ [] → Re.exact w k' [] = None.
Proof. by destruct w. Qed.
End matchers.

(** [(.+)] at the end of a pattern takes the rest of the line. *)
Lemma dot_plus_eq (s : str) :
  Re.greedy not_newline 1 (λ g _, Some g) s =
    if decide (1 ≤ Re.run not_newline s) then Some (take (Re.run not_newline s) s) else None.
Proof.
  case_decide as H; [by apply greedy_longest|apply greedy_short; lia].
Qed.

Lemma dot_plus_line (s : str) :
  forallb not_newline s = true → s ≠ [] →
  Re.greedy not_newline 1 (λ g _, Some g) s = Some s.
Proof.
  intros Hs Hne. rewrite dot_plus_eq, run_full by done.
  rewrite decide_True by (destruct s; simpl; [done|lia]). by rewrite firstn_all.
Qed.

(** ** Lines *)

Lemma splitlines_no_break (s : str) :
  Forall (λ line, forallb (λ c, negb (is_linebreak c)) line = true) (Py.splitlines s).
Proof.
  induction s as [s IH] using (induction_ltof1 _ (@length ascii)). unfold ltof in IH.
  destruct s as [|c s']; simpl; [constructor|].
  destruct (is_linebreak c) eqn:Hc.
  - constructor; [done|]. case_bool_decide; [|apply IH; simpl; lia].
    destruct s' as [|c' s'']; [constructor|].
    case_bool_decide; apply IH; simpl; lia.
  - pose proof (IH s' ltac:(simpl; lia)) as H.
    destruct (Py.splitlines s') as [|l ls]; constructor; simpl; rewrite ?Hc; try done.
    + by inversion H.
    + by inversion H.
Qed.

Lemma linebreak_free_no_newline (line : str) :
  forallb (λ c, negb (is_linebreak c)) line = true → forallb not_newline line = true.
Proof.
  induction line as [|c l IH]; simpl; [done|].
  intros [Hc Hl]%andb_prop. rewrite IH, andb_true_r by done.
  unfold not_newline. case_bool_decide as E; [|done]. subst c. done.
Qed.

Section strip_shape.
Context (p : ascii → bool).

Lemma lstrip_by_suffix s :
  ∃ ws, s = ws ++ Py.lstrip_by p s ∧ forallb p ws = true.
Proof.
  induction s as [|c s (ws & E & Hws)]; simpl; [by exists []|].
  destruct (p c) eqn:Hc.
  - exists (c :: ws). simpl. rewrite Hc, Hws. split; [by f_equal|done].
  - by exists [].
Qed.

Lemma rstrip_by_prefix s :
  ∃ ws, s = Py.rstrip_by p s ++ ws ∧ forallb p ws = true.
Proof.
  unfold Py.rstrip_by. destruct (lstrip_by_suffix (reverse s)) as (ws & E & Hws).
  exists (reverse ws). rewrite forallb_reverse. split; [|done].
  rewrite <- reverse_app, <- E. by rewrite reverse_involutive.
Qed.

Lemma strip_by_infix s :
  ∃ a b, s = a ++ Py.strip_by p s ++ b ∧ forallb p a = true ∧ forallb p b = true.
Proof.
  unfold Py.strip_by. destruct (lstrip_by_suffix s) as (a & Ea & Ha).
  destruct (rstrip_by_prefix (Py.lstrip_by p s)) as (b & Eb & Hb).
  exists a, b. by rewrite <- Eb, <- Ea.
Qed.

Lemma strip_by_keeps (q : ascii → bool) s :
  forallb q s = true → forallb q (Py.strip_by p s) = true.
Proof.
  destruct (strip_by_infix s) as (a & b & E & _). rewrite E at 1.
  rewrite !forallb_app. intros [_ [H _]%andb_prop]%andb_prop. done.
Qed.

(** A non-empty end of a trimmed text is not made of stripped characters
    only. *)
Lemma trimmed_suffix_run t u v :
  trimmed p t → t = u ++ v → v ≠ [] → Re.run p v < length v.
Proof.
  intros Ht E Hv. destruct t as [|c t']; [by destruct u, v|].
  destruct Ht as [_ (s' & d & Es & Hd)].
  assert (∃ v', v = v' ++ [d]) as [v' ->].
  { destruct (exists_last Hv) as (v' & e & ->). exists v'.
    rewrite E, app_assoc in Es. by apply app_inj_tail in Es as [_ ->]. }
  clear -Hd. induction v' as [|a v' IH]; simpl.
  - rewrite Hd. lia.
  - destruct (p a); lia.
Qed.
End strip_shape.

(** ** The list extractors *)

(** A loop that appends at most one item per element collects the items
    in the order of the elements. *)
Lemma foldl_collect {X Y} (f : X → option Y) (body : list Y → X → list Y) acc l :
  (∀ acc x, body acc x = match f x with Some y => acc ++ [y] | None => acc end) →
  foldl body acc l = acc ++ omap f l.
Proof.
  intros Hbody. revert acc. induction l as [|x l IH]; intros acc; simpl.
  - by rewrite app_nil_r.
  - rewrite IH, Hbody. destruct (f x); [|done]. by rewrite <- app_assoc.
Qed.

Lemma extract_list_items_omap text :
  extract_list_items text = omap bullet_item (Py.splitlines text).
Proof.
  unfold extract_list_items. rewrite (foldl_collect bullet_item); [done|].
  intros acc line. unfold bullet_item. cbv zeta.
  destruct (_ || _); [|done]. by destruct (_ && _).
Qed.

Lemma extract_numbered_steps_omap text :
  extract_numbered_steps text = omap numbered_item (Py.splitlines text).
Proof.
  unfold extract_numbered_steps. rewrite (foldl_collect numbered_item); [done|].
  intros acc line. unfold numbered_item.
  destruct (numbered_match _); [|done]. cbv zeta. by destruct (negb _).
Qed.

Lemma truthy_true {X} (l : list X) : Py.truthy l = true ↔ l ≠ [].
Proof. by destruct l. Qed.

Lemma bullet_item_spec line x :
  bullet_item line = Some x ↔
  (∃ rest, (Py.strip line = lit "- " ++ rest ∨ Py.strip line = lit "* " ++ rest) ∧
           x = Py.strip rest) ∧
  x ≠ [] ∧ Py.lower x ≠ NOT_SPECIFIED.
Proof.
  unfold bullet_item. cbv zeta. split.
  - destruct (_ || _) eqn:Hstart; [|done].
    destruct (_ && _) eqn:Hkeep; [|done]. intros [= <-].
    apply andb_prop in Hkeep as [Hne Hns].
    apply truthy_true in Hne. apply negb_true_iff, bool_decide_eq_false in Hns.
    split; [|done].
    apply orb_prop in Hstart as [[r E]%startswith_spec|[r E]%startswith_spec];
      exists r; rewrite E; (split; [auto|done]).
  - intros [(rest & Hstart & ->) [Hne Hns]].
    assert (Py.startswith "- " (Py.strip line) || Py.startswith "* " (Py.strip line) = true
            ∧ drop 2 (Py.strip line) = rest) as [-> ->].
    { destruct Hstart as [-> | ->]; (split; [|reflexivity]).
      - by rewrite (startswith_app "- ").
      - rewrite (startswith_app "* "). apply orb_true_r. }
    apply truthy_true in Hne. rewrite Hne. by rewrite bool_decide_eq_false_2.
Qed.

Lemma digit_not_dot c : isdigit c = true → "."%char ≠ c.
Proof. intros H <-. done. Qed.

Lemma numbered_match_digits (s : str) :
  numbered_match s =
    if decide (1 ≤ Re.run isdigit s)
    then Re.exact "."
           (Re.greedy isspace 1 (λ _, Re.greedy not_newline 1 (λ g _, Some g)))
           (drop (Re.run isdigit s) s)
    else None.
Proof.
  unfold numbered_match. rewrite greedy_no_backtrack; [done|].
  intros _ c r Hc. apply exact_mismatch. by apply digit_not_dot.
Qed.

(** After the numeral and the dot of a trimmed line, the blanks are
    skipped and the rest of the line is the step. *)
Lemma blanks_then_rest (s u v : str) :
  trimmed isspace s → forallb not_newline s = true →
  s = u ++ v → 1 ≤ Re.run isspace v →
  Re.greedy isspace 1 (λ _, Re.greedy not_newline 1 (λ g _, Some g)) v
    = Some (drop (Re.run isspace v) v) ∧
  Py.strip (drop (Re.run isspace v) v) = Py.strip v.
Proof.
  intros Hs Hline E Hrun.
  assert (v ≠ []) as Hv by (intros ->; simpl in Hrun; lia).
  pose proof (trimmed_suffix_run isspace s u v Hs E Hv) as Hlt.
  split.
  - apply greedy_longest; [done|]. apply dot_plus_line.
    + rewrite E, forallb_app in Hline. apply andb_prop in Hline as [_ Hline].
      rewrite <- (take_drop (Re.run isspace v) v), forallb_app in Hline.
      by apply andb_prop in Hline as [_ ?].
    + intros Hnil. apply (f_equal length) in Hnil. rewrite length_drop in Hnil.
      simpl in Hnil. lia.
  - unfold Py.strip.
    rewrite <- (strip_by_app_all_l isspace (take (Re.run isspace v) v)
                  (drop (Re.run isspace v) v)) by (by apply run_take_all).
    by rewrite take_drop.
Qed.

Lemma numbered_match_spec (s x : str) :
  trimmed isspace s → forallb not_newline s = true →
  (∃ g, numbered_match s = Some g ∧ x = Py.strip g) ↔
  (∃ ds c tail, s = ds ++ "."%char :: c :: tail ∧ ds ≠ [] ∧
                forallb isdigit ds = true ∧ isspace c = true ∧
                x = Py.strip (c :: tail)).
Proof.
  intros Hs Hline. rewrite numbered_match_digits. split.
  - intros (g & Hg & ->). case_decide as Hn; [|done].
    apply exact_Some_inv in Hg as (v & Ev & Hg).
    assert (s = take (Re.run isdigit s) s ++ "."%char :: v) as Es.
    { rewrite <- (take_drop (Re.run isdigit s) s) at 1. by rewrite Ev. }
    destruct (decide (1 ≤ Re.run isspace v)) as [Hv|Hv];
      [|by rewrite greedy_short in Hg by lia].
    destruct (blanks_then_rest s (take (Re.run isdigit s) s ++ ["."%char]) v)
      as [Hg' Hstrip]; [done..|by rewrite <- app_assoc|done|].
    rewrite Hg' in Hg. injection Hg as <-.
    destruct v as [|c tail]; [simpl in Hv; lia|].
    exists (take (Re.run isdigit s) s), c, tail. split; [done|]. split.
    { intros Hnil. apply (f_equal length) in Hnil. rewrite length_take in Hnil.
      pose proof (run_le isdigit s). simpl in Hnil. lia. }
    split; [by apply run_take_all|]. split; [|done].
    simpl in Hv. destruct (isspace c); [done|lia].
  - intros (ds & c & tail & -> & Hds & Hdig & Hc & ->).
    assert (Re.run isdigit (ds ++ "."%char :: c :: tail) = length ds) as Hrun.
    { rewrite run_app_all by done. rewrite run_stop by done. lia. }
    rewrite Hrun, decide_True by (destruct ds; simpl; [done|lia]).
    rewrite drop_app_length. rewrite (exact_eq "." _ (c :: tail)).
    destruct (blanks_then_rest (ds ++ "."%char :: c :: tail) (ds ++ ["."%char]) (c :: tail))
      as [Hg Hstrip]; [done..|by rewrite <- app_assoc|simpl; rewrite Hc; lia|].
    eexists. split; [exact Hg|done].
Qed.

Lemma numbered_item_spec line x :
  forallb not_newline line = true →
  numbered_item line = Some x ↔
  (∃ ds c tail, Py.strip line = ds ++ "."%char :: c :: tail ∧ ds ≠ [] ∧
                forallb isdigit ds = true ∧ isspace c = true ∧
                x = Py.strip (c :: tail)) ∧
  Py.lower x ≠ NOT_SPECIFIED.
Proof.
  intros Hline.
  rewrite <- (numbered_match_spec (Py.strip line) x);
    [|apply strip_by_trimmed|by apply strip_by_keeps].
  unfold numbered_item. split.
  - destruct (numbered_match _) as [g|]; [|done]. cbv zeta.
    destruct (negb _) eqn:Hns; [|done]. intros [= <-].
    apply negb_true_iff, bool_decide_eq_false in Hns. eauto.
  - intros [(g & -> & ->) Hns]. cbv zeta. by rewrite bool_decide_eq_false_2.
Qed.

(** C4, as the code has it.  Both list extractors go through the lines of
    the text in order and keep at most one item per line, so the items come
    out in document order.  The bullet extractor keeps the trimmed text
    after a [- ] or [* ] marker unless it is empty or equals
    [not specified on website] up to case; the numbered extractor keeps the
    trimmed text after [<digits>.] and a blank unless it equals
    [not specified on website] up to case.  The other sentinels of
    [normalize] ([n/a], [none], [unclear]) are kept as items. *)
Theorem list_extractors_spec (text : str) :
  extract_list_items text = omap bullet_item (Py.splitlines text) ∧
  extract_numbered_steps text = omap numbered_item (Py.splitlines text) ∧
  (∀ line x,
     bullet_item line = Some x ↔
     (∃ rest, (Py.strip line = lit "- " ++ rest ∨ Py.strip line = lit "* " ++ rest) ∧
              x = Py.strip rest) ∧
     x ≠ [] ∧ Py.lower x ≠ NOT_SPECIFIED) ∧
  (∀ line x,
     line ∈ Py.splitlines text →
     numbered_item line = Some x ↔
     (∃ ds c tail, Py.strip line = ds ++ "."%char :: c :: tail ∧ ds ≠ [] ∧
                   forallb isdigit ds = true ∧ isspace c = true ∧
                   x = Py.strip (c :: tail)) ∧
     Py.lower x ≠ NOT_SPECIFIED) ∧
  (∀ x, x ∈ [lit "n/a"; lit "none"; lit "unclear"] →
        bullet_item (lit "- " ++ x) = Some x ∧ numbered_item (lit "1. " ++ x) = Some x).
Proof.
  split; [apply extract_list_items_omap|]. split; [apply extract_numbered_steps_omap|].
  split; [apply bullet_item_spec|]. split.
  - intros line x Hline. apply numbered_item_spec, linebreak_free_no_newline.
    pose proof (splitlines_no_break text) as H. rewrite Forall_forall in H. by apply H.
  - intros x Hx. repeat (apply elem_of_cons in Hx as [->|Hx]); [by vm_compute..|].
    by apply elem_of_nil in Hx.
Qed.

Lemma list_extractors_spec_witness :
  numbered_item "2.  Submit form" = Some (lit "Submit form").
Proof.
  destruct (list_extractors_spec "1. Create an account
2.  Submit form") as (_ & _ & _ & H & _).
  apply (H "2.  Submit form" "Submit form").
  - vm_compute. right. left.
  - split; [|vm_compute; discriminate].
    exists (lit "2"), " "%char, (lit " Submit form"). vm_compute. done.
Defined.

(** C4, as stated, fails: [n/a] and [None] are sentinels of [normalize],
    and both extractors return them. *)
Lemma sentinel_items_kept :
  extract_list_items "- Proof of identity
- n/a" = [lit "Proof of identity"; lit "n/a"] ∧
  extract_numbered_steps "1. None
2. Submit form" = [lit "None"; lit "Submit form"] ∧
  normalize (Some (lit "n/a")) = None ∧ normalize (Some (lit "None")) = None.
Proof. vm_compute. done. Qed.

(** ** The table extractor *)

Lemma omap_filter {X Y} (f : X → option Y) (q : X → bool) (l : list X) :
  omap f (filter (λ x, q x = true) l) = omap (λ x, if q x then f x else None) l.
Proof.
  induction l as [|x l IH]; [done|].
  rewrite filter_cons. cbn [omap list_omap]. destruct (q x) eqn:Hq.
  - rewrite decide_True by done. cbn [omap list_omap]. by rewrite <- IH.
  - rewrite decide_False by done. exact IH.
Qed.

Lemma extract_form_table_omap text :
  extract_form_table text = omap kept_row (table_rows text).
Proof. unfold extract_form_table. cbv zeta. by rewrite omap_filter. Qed.

Lemma data_row_eq cells :
  data_row cells =
    negb (separator_row cells) && negb (header_row cells) && bool_decide (6 ≤ length cells).
Proof.
  unfold data_row, separator_row, header_row.
  destruct (forallb _ _); [done|]. simpl. by destruct cells as [|c ?]; [|destruct (bool_decide _)].
Qed.

Lemma form_of_row_six name num desc lang url file_type extra :
  form_of_row (name :: num :: desc :: lang :: url :: file_type :: extra) =
    if bool_decide (Py.lower name ∈ [lit ""; lit "not specified on website"]) then None
    else Some (Form (normalize (Some name)) (normalize (Some num)) (normalize (Some desc))
                    (normalize (Some lang)) (normalize (Some url))
                    (normalize (Some file_type))).
Proof.
  unfold form_of_row. rewrite (bool_decide_eq_false_2 (length _ < 6)); [done|].
  cbn [length]. lia.
Qed.

Lemma kept_row_spec cells f :
  kept_row cells = Some f ↔
  ∃ name num desc lang url file_type extra,
    cells = name :: num :: desc :: lang :: url :: file_type :: extra ∧
    separator_row cells = false ∧ header_row cells = false ∧
    Py.lower name ≠ [] ∧ Py.lower name ≠ NOT_SPECIFIED ∧
    f = Form (normalize (Some name)) (normalize (Some num)) (normalize (Some desc))
             (normalize (Some lang)) (normalize (Some url)) (normalize (Some file_type)).
Proof.
  unfold kept_row. rewrite data_row_eq. split.
  - destruct (separator_row cells) eqn:Hsep, (header_row cells) eqn:Hhead;
      cbn [negb andb]; try done.
    case_bool_decide as Hlen; [|done].
    destruct cells as [|name [|num [|desc [|lang [|url [|file_type extra]]]]]];
      [cbn [length] in Hlen; lia..|].
    rewrite form_of_row_six. case_bool_decide as Hname; [done|]. intros [= <-].
    exists name, num, desc, lang, url, file_type, extra.
    split; [done|]. split; [done|]. split; [done|]. split; [|split; [|done]].
    + intros E. apply Hname. rewrite E. left.
    + intros E. apply Hname. rewrite E. right. left.
  - intros (name & num & desc & lang & url & file_type & extra & -> & -> & -> & H1 & H2 & ->).
    cbn [negb andb]. rewrite bool_decide_eq_true_2 by (cbn [length]; lia).
    rewrite form_of_row_six. rewrite bool_decide_eq_false_2; [done|].
    intros [E|[E|E%elem_of_nil]%elem_of_cons]%elem_of_cons; done.
Qed.

Lemma at_dollar_line (s : str) :
  forallb not_newline s = true → Re.at_dollar s = true → s = [].
Proof.
  destruct s as [|c s]; [done|]. simpl. unfold not_newline at 1.
  by case_bool_decide.
Qed.

Lemma separator_cell_spec (c : str) :
  forallb not_newline c = true →
  separator_cell c = true ↔ c ≠ [] ∧ forallb (λ a, bool_decide (a ∈ lit "-:")) c = true.
Proof.
  intros Hline. unfold separator_cell. rewrite bool_decide_eq_true.
  set (p := λ a, bool_decide (a ∈ lit "-:")).
  set (k := λ (_ rest : str), if Re.at_dollar rest then Some () else None).
  split.
  - intros [[] (i & Hi & Hk)%greedy_Some_inv]. unfold k in Hk.
    destruct (Re.at_dollar (drop i c)) eqn:Hend; [|done].
    apply at_dollar_line in Hend.
    2:{ rewrite <- (take_drop i c), forallb_app in Hline.
        by apply andb_prop in Hline as [_ ?]. }
    apply (f_equal length) in Hend. rewrite length_drop in Hend. simpl in Hend.
    pose proof (run_le p c).
    split; [intros ->; simpl in *; lia|].
    rewrite <- (firstn_all c). replace (length c) with (Re.run p c) by lia.
    by apply run_take_all.
  - intros [Hne Hall]. exists (). apply greedy_longest.
    + rewrite run_full by done. destruct c; simpl; [done|lia].
    + rewrite run_full by done. unfold k. by rewrite drop_all.
Qed.

Lemma split_on_keeps (q p : ascii → bool) (s : str) :
  forallb q s = true → Forall (λ w, forallb q w = true) (Py.split_on p s).
Proof.
  induction s as [|c s IH]; simpl; [by repeat constructor|].
  intros [Hc Hs]%andb_prop. specialize (IH Hs). destruct (p c).
  - by constructor.
  - destruct (Py.split_on p s) as [|w ws]; [by repeat constructor; simpl; rewrite Hc|].
    inversion IH; subst. constructor; [|done]. simpl. by rewrite Hc.
Qed.

Lemma cells_of_keeps (q : ascii → bool) (line : str) :
  forallb q line = true → Forall (λ c, forallb q c = true) (cells_of line).
Proof.
  intros Hline. unfold cells_of. rewrite Forall_fmap.
  eapply Forall_impl; [apply split_on_keeps, strip_by_keeps, Hline|].
  intros w Hw. by apply strip_by_keeps.
Qed.

Lemma table_rows_no_newline (text : str) (cells : list str) (c : str) :
  cells ∈ table_rows text → c ∈ cells → forallb not_newline c = true.
Proof.
  unfold table_rows. intros (line & -> & Hline)%list_elem_of_fmap Hc.
  apply list_elem_of_fmap in Hline as (line' & -> & Hline').
  apply list_elem_of_filter in Hline' as [_ Hline'].
  pose proof (splitlines_no_break text) as H. rewrite Forall_forall in H.
  apply H, linebreak_free_no_newline in Hline'.
  pose proof (cells_of_keeps not_newline (Py.strip line')
                (strip_by_keeps isspace not_newline line' Hline')) as Hcells.
  rewrite Forall_forall in Hcells. by apply Hcells.
Qed.

(** C5, as the code has it.  The table extractor goes through the rows of
    the pipe table in order and keeps exactly the rows that have at least 6
    cells, are not separator rows, are not header rows, and whose first cell
    is neither empty nor [not specified on website] up to case; a kept row
    gives the six fields obtained by normalizing its first six cells.  A
    row of 5 cells is discarded, a row whose first cell is
    [Not Specified on Website] is discarded, and a row whose first cell is
    another sentinel ([n/a]) is kept, with a null name. *)
Theorem form_table_spec (text : str) :
  extract_form_table text = omap kept_row (table_rows text) ∧
  (∀ cells f,
     kept_row cells = Some f ↔
     ∃ name num desc lang url file_type extra,
       cells = name :: num :: desc :: lang :: url :: file_type :: extra ∧
       separator_row cells = false ∧ header_row cells = false ∧
       Py.lower name ≠ [] ∧ Py.lower name ≠ NOT_SPECIFIED ∧
       f = Form (normalize (Some name)) (normalize (Some num)) (normalize (Some desc))
                (normalize (Some lang)) (normalize (Some url))
                (normalize (Some file_type))) ∧
  (∀ cells c,
     cells ∈ table_rows text → c ∈ cells →
     separator_cell c = true ↔
     c ≠ [] ∧ forallb (λ a, bool_decide (a ∈ lit "-:")) c = true) ∧
  (∀ cells, length cells = 5 → kept_row cells = None) ∧
  (∀ name rest, Py.lower name = NOT_SPECIFIED → kept_row (name :: rest) = None) ∧
  kept_row [lit "n/a"; lit "SAR 7"; lit "Report"; lit "English"; lit "n/a"; lit "PDF"]
    = Some (Form None (Some (lit "SAR 7")) (Some (lit "Report")) (Some (lit "English"))
                 None (Some (lit "PDF"))).
Proof.
  split; [apply extract_form_table_omap|]. split; [apply kept_row_spec|]. split.
  { intros cells c Hcells Hc. apply separator_cell_spec.
    by eapply table_rows_no_newline. }
  split.
  { intros cells Hlen. destruct (kept_row cells) as [f|] eqn:E; [|done].
    apply kept_row_spec in E as (? & ? & ? & ? & ? & ? & ? & -> & _).
    cbn [length] in Hlen. lia. }
  split; [|by vm_compute].
  intros name rest Hname. destruct (kept_row (name :: rest)) as [f|] eqn:E; [|done].
  apply kept_row_spec in E as (? & ? & ? & ? & ? & ? & ? & [= <- _] & _ & _ & _ & Hns & _).
  done.
Qed.

Lemma form_table_spec_witness :
  kept_row [lit "Not Specified on Website"; lit "1"; lit "d"; lit "en"; lit "u"; lit "pdf"]
    = None.
Proof.
  destruct (form_table_spec []) as (_ & _ & _ & _ & H & _).
  apply H. vm_compute. reflexivity.
Defined.

(** C5, as stated, fails: the first cell of the second row is the sentinel
    [n/a], and the row is kept, with a null name. *)
Lemma sentinel_first_cell_kept :
  extract_form_table
"| Form Name | Form Number | Description | Language | URL | File Type |
|---|---|---|---|---|---|
| n/a | SAR 7 | Report | English | https://example.org/b.pdf | PDF |"
  = [Form None (Some (lit "SAR 7")) (Some (lit "Report")) (Some (lit "English"))
          (Some (lit "https://example.org/b.pdf")) (Some (lit "PDF"))] ∧
  normalize (Some (lit "n/a")) = None.
Proof. vm_compute. done. Qed.

(** ** The section splitter *)

(** In a sequence of assignments the later ones overwrite the earlier ones. *)
Lemma lookup_assign_all (m : gmap str str) (l : list (str * list str)) (k : str) :
  foldl assign m l !! k =
    match last (filter (λ a, a.1 = k) l) with
    | Some a => Some (Py.join [LF] a.2)
    | None => m !! k
    end.
Proof.
  revert m. induction l as [|a l IH]; intros m; [done|].
  cbn [foldl]. rewrite IH, filter_cons. unfold assign.
  case_decide as Ha.
  - rewrite last_cons. destruct (last _); [done|]. by rewrite Ha, lookup_insert_eq.
  - destruct (last _); [done|]. by rewrite lookup_insert_ne.
Qed.

Lemma split_step_content st line :
  header_match line = None →
  split_step st line = Splitter (sections st) (current_key st) (current_lines st ++ [line]).
Proof. intros H. unfold split_step. by rewrite H. Qed.

Lemma split_step_header st b :
  well_formed_block b →
  split_step st (block_header b) =
    Splitter (<[current_key st := Py.join [LF] (current_lines st)]> (sections st))
             (block_name b) [].
Proof.
  intros [Hkey _]. unfold split_step, header_key in *.
  destruct (header_match (block_header b)); [|done]. by injection Hkey as ->.
Qed.

Lemma split_content_lines st ls :
  Forall (λ l, header_match l = None) ls →
  foldl split_step st ls = Splitter (sections st) (current_key st) (current_lines st ++ ls).
Proof.
  revert st. induction ls as [|l ls IH]; intros st Hls.
  - rewrite app_nil_r. by destruct st.
  - inversion Hls; subst. cbn [foldl]. rewrite split_step_content, IH by done.
    cbn. by rewrite <- app_assoc.
Qed.

Lemma split_blocks st bs :
  Forall well_formed_block bs →
  (let st' := foldl split_step st (block_text bs) in
   <[current_key st' := Py.join [LF] (current_lines st')]> (sections st'))
  = foldl assign (sections st)
      ((current_key st, current_lines st) :: ((λ b, (block_name b, block_lines b)) <$> bs)).
Proof.
  revert st. induction bs as [|b bs IH]; intros st Hbs; [done|].
  inversion Hbs as [|? ? Hb Hbs']; subst. cbv zeta in *.
  change (block_text (b :: bs)) with ((block_header b :: block_lines b) ++ block_text bs).
  rewrite foldl_app. cbn [foldl]. rewrite split_step_header by done.
  rewrite (split_content_lines _ (block_lines b)) by apply Hb.
  rewrite IH by done. cbn [sections current_key current_lines app foldl fmap list_fmap].
  done.
Qed.

(** The map of a document that is given by its preamble and its blocks. *)
Lemma split_sections_of_blocks text pre bs k :
  Py.splitlines text = pre ++ block_text bs →
  Forall (λ l, header_match l = None) pre →
  Forall well_formed_block bs →
  split_sections text !! k =
    (λ a, Py.join [LF] a.2) <$> last (filter (λ a, a.1 = k) (assignments pre bs)).
Proof.
  intros Hlines Hpre Hbs. unfold split_sections. cbv zeta.
  rewrite Hlines, foldl_app. rewrite (split_content_lines _ pre) by done.
  rewrite (split_blocks _ bs Hbs). cbn [sections current_key current_lines app].
  rewrite lookup_assign_all. unfold assignments. by destruct (last _).
Qed.

Lemma blocks_of_spec (lines : list str) :
  lines = (blocks_of lines).1 ++ block_text (blocks_of lines).2 ∧
  Forall (λ l, header_match l = None) (blocks_of lines).1 ∧
  Forall well_formed_block (blocks_of lines).2.
Proof.
  induction lines as [|line lines (Hlines & Hpre & Hbs)]; [by repeat constructor|].
  cbn [blocks_of]. destruct (blocks_of lines) as [pre bs]. cbn [fst snd] in *.
  destruct (header_key line) as [name|] eqn:Hkey; cbn [fst snd].
  - split; [by rewrite Hlines at 1|]. split; [constructor|].
    by constructor.
  - split; [by rewrite Hlines at 1|]. split; [|done].
    constructor; [|done]. unfold header_key in Hkey. by destruct (header_match line).
Qed.

Lemma filter_none {X} (P : X → Prop) `{∀ x, Decision (P x)} (l : list X) :
  (∀ x, x ∈ l → ¬ P x) → filter P l = [].
Proof.
  induction l as [|x l IH]; [done|]. intros H'.
  rewrite filter_cons_False by (apply H'; left). apply IH. intros y Hy. apply H'. by right.
Qed.

Lemma elem_of_concat {X} (x : X) (ls : list (list X)) :
  x ∈ concat ls → ∃ l, x ∈ l ∧ l ∈ ls.
Proof.
  induction ls as [|l ls IH]; simpl; [by intros ?%elem_of_nil|].
  intros [Hx|Hx]%elem_of_app.
  - exists l. split; [done|left].
  - destruct (IH Hx) as (l' & ? & ?). exists l'. split; [done|by right].
Qed.

Lemma upper_char_not_lower_p c : upper_char c ≠ "p"%char.
Proof.
  destruct c as [[] [] [] [] [] [] [] []]; vm_compute; discriminate.
Qed.

Lemma header_key_not_preamble line : header_key line ≠ Some (lit "_preamble").
Proof.
  unfold header_key. destruct (header_match line) as [g|]; [|done].
  cbn. intros [= E]. destruct (Py.strip g) as [|a [|b r]]; [done..|].
  injection E as _ E _. by apply upper_char_not_lower_p in E.
Qed.

(** A line that starts a deeper header is not a top-level header. *)
Lemma deeper_header_no_match (rest : str) : header_match (lit "###" ++ rest) = None.
Proof.
  unfold header_match. rewrite (exact_eq "##" _ ("#"%char :: rest)).
  apply greedy_short. rewrite run_stop by done. lia.
Qed.

(** Which lines are top-level headers: two hashes, a blank, and at least
    one more character. *)
Lemma header_match_line (line : str) :
  forallb not_newline line = true →
  is_Some (header_match line) ↔
  ∃ c r, line = lit "##" ++ c :: r ∧ isspace c = true ∧ r ≠ [].
Proof.
  intros Hline. unfold header_match. split.
  - intros [g (s & -> & Hg)%exact_Some_inv].
    apply greedy_Some_inv in Hg as (i & Hi & Hg).
    rewrite dot_plus_eq in Hg. case_decide as Hrun; [|done].
    pose proof (run_le not_newline (drop i s)) as Hle. rewrite length_drop in Hle.
    destruct s as [|c r]; [simpl in Hle; lia|]. exists c, r. split; [done|].
    split.
    + destruct Hi as [Hi1 Hi2]. cbn [Re.run] in Hi2. revert Hi2. destruct (isspace c); [done|lia].
    + intros ->. simpl in Hle. lia.
  - intros (c & r & -> & Hc & Hr). rewrite (exact_eq "##" _ (c :: r)).
    apply not_eq_None_Some. intros Hnone. rewrite greedy_None in Hnone.
    set (s := c :: r) in *. set (n := Re.run isspace s) in *.
    assert (1 ≤ n) as Hn by (subst n s; cbn [Re.run]; rewrite Hc; lia).
    assert (2 ≤ length s) as Hlen by (subst s; destruct r; simpl; [done|lia]).
    pose proof (run_le isspace s) as Hle. fold n in Hle.
    assert (forallb not_newline s = true) as Hs.
    { change (lit "##" ++ s) with ("#"%char :: "#"%char :: s) in Hline.
      cbn [forallb] in Hline. by apply andb_prop in Hline as [_ [_ ?]%andb_prop]. }
    assert (∀ i, i < length s → Re.greedy not_newline 1 (λ g _, Some g) (drop i s) ≠ None)
      as Hsome.
    { intros i Hi. rewrite dot_plus_line; [done| |].
      - rewrite <- (take_drop i s), forallb_app in Hs. by apply andb_prop in Hs as [_ ?].
      - intros E. apply (f_equal length) in E. rewrite length_drop in E.
        change (length (@nil ascii)) with 0 in E. lia. }
    destruct (decide (n < length s)) as [Hlt|Hge].
    + apply (Hsome n Hlt), Hnone. lia.
    + apply (Hsome (n - 1)); [lia|]. apply Hnone. lia.
Qed.

(** C8.  The lines of a document are its preamble followed by its blocks,
    each a top-level header line with the lines up to the next top-level
    header, so every line that is not a header belongs to exactly one of
    them; the map that [split_sections] returns holds, under each name, the
    content of the last block assigned to that name.  It therefore has an
    entry for the preamble and for every header seen, an empty content
    included, and a repeated header name keeps the later content.  A line
    is a top-level header when it reads [##], a blank and at least one more
    character; a line that starts with [###] is none and closes no block. *)
Theorem split_sections_blocks (text : str) :
  let lines := Py.splitlines text in
  let pre := (blocks_of lines).1 in
  let bs := (blocks_of lines).2 in
  lines = pre ++ block_text bs ∧
  Forall (λ l, header_match l = None) pre ∧
  Forall well_formed_block bs ∧
  (∀ k, split_sections text !! k =
          (λ a, Py.join [LF] a.2) <$> last (filter (λ a, a.1 = k) (assignments pre bs))) ∧
  split_sections text !! lit "_preamble" = Some (Py.join [LF] pre) ∧
  (∀ b, b ∈ bs → is_Some (split_sections text !! block_name b)) ∧
  (∀ line k, line ∈ lines → header_key line = Some k →
             is_Some (split_sections text !! k)) ∧
  (∀ line, line ∈ lines →
           is_Some (header_match line) ↔
           ∃ c r, line = lit "##" ++ c :: r ∧ isspace c = true ∧ r ≠ []) ∧
  (∀ rest, header_match (lit "###" ++ rest) = None).
Proof.
  intros lines pre bs.
  destruct (blocks_of_spec lines) as (Hlines & Hpre & Hbs). fold pre bs in Hlines, Hpre, Hbs.
  assert (∀ k, split_sections text !! k =
               (λ a, Py.join [LF] a.2) <$> last (filter (λ a, a.1 = k) (assignments pre bs)))
    as Hlookup by (intros k; by apply split_sections_of_blocks).
  assert (∀ b, b ∈ bs → is_Some (split_sections text !! block_name b)) as Hnames.
  { intros b Hb. rewrite Hlookup. apply fmap_is_Some, last_is_Some.
    intros Hnil.
    assert ((block_name b, block_lines b) ∈ filter (λ a, a.1 = block_name b) (assignments pre bs))
      as Hin.
    { apply list_elem_of_filter. split; [done|]. unfold assignments. right.
      apply list_elem_of_fmap. eauto. }
    rewrite Hnil in Hin. by apply elem_of_nil in Hin. }
  split; [done|]. split; [done|]. split; [done|]. split; [done|].
  split; [|split; [done|split; [|split; [|apply deeper_header_no_match]]]].
  - rewrite Hlookup. unfold assignments. rewrite filter_cons_True by done.
    replace (filter _ _) with (@nil (str * list str)); [done|].
    symmetry. apply filter_none. intros a (b & -> & Hb)%list_elem_of_fmap Hk.
    rewrite Forall_forall in Hbs. destruct (Hbs b Hb) as [Hkey _].
    cbn in Hk. rewrite Hk in Hkey. by apply header_key_not_preamble in Hkey.
  - intros line k Hline Hkey. rewrite Hlines in Hline.
    apply elem_of_app in Hline as [Hline|Hline].
    { rewrite Forall_forall in Hpre. unfold header_key in Hkey.
      by rewrite (Hpre line Hline) in Hkey. }
    unfold block_text in Hline. apply elem_of_concat in Hline as (ls & Hline & Hls).
    apply list_elem_of_fmap in Hls as (b & -> & Hb).
    rewrite Forall_forall in Hbs. destruct (Hbs b Hb) as [Hkb Hcontent].
    apply elem_of_cons in Hline as [->|Hline].
    + rewrite Hkey in Hkb. injection Hkb as ->. by apply Hnames.
    + rewrite Forall_forall in Hcontent. unfold header_key in Hkey.
      by rewrite (Hcontent line Hline) in Hkey.
  - intros line Hline. apply header_match_line, linebreak_free_no_newline.
    pose proof (splitlines_no_break text) as H. rewrite Forall_forall in H. by apply H.
Qed.

(** ** The subsection locator *)


Lemma first_match_fmap {X Y Z} (f : Y → option Z) (h : X → Y) (l : list X) :
  Re.first_match f (h <$> l) = Re.first_match (λ x, f (h x)) l.
Proof.
  induction l as [|x l IH]; [done|]. rewrite fmap_cons. cbn [Re.first_match].
  by rewrite IH.
Qed.

Lemma first_match_ext {X Z} (f f' : X → option Z) (l : list X) :
  (∀ x, f x = f' x) → Re.first_match f l = Re.first_match f' l.
Proof. intros H. induction l as [|x l IH]; simpl; [done|]. by rewrite H, IH. Qed.

Lemma first_match_map_result {X Z} (f : X → option Z) (h : Z → Z) (l : list X) :
  Re.first_match (λ x, h <$> f x) l = h <$> Re.first_match f l.
Proof. induction l as [|x l IH]; simpl; [done|]. destruct (f x); [done|apply IH]. Qed.

Lemma run_any (s : str) : Re.run (λ _, true) s = length s.
Proof. induction s; simpl; auto. Qed.

Lemma lazy_span_nil : Re.lazy (λ _, true) 0 span_end [] = Some [].
Proof. done. Qed.

Lemma lazy_span_cons c (r : str) :
  Re.lazy (λ _, true) 0 span_end (c :: r) =
    if Py.startswith "###" (c :: r) then Some []
    else (c ::.) <$> Re.lazy (λ _, true) 0 span_end r.
Proof.
  unfold Re.lazy. rewrite !run_any, !Nat.sub_0_r.
  change (seq 0 (S (length (c :: r)))) with (0 :: seq 1 (S (length r))).
  cbn [Re.first_match take drop]. unfold span_end at 1. cbn [Py.truthy negb].
  rewrite orb_false_r. destruct (Py.startswith "###" (c :: r)); [done|].
  rewrite <- fmap_S_seq, first_match_fmap, <- first_match_map_result.
  apply first_match_ext. intros i. cbn [take drop]. unfold span_end.
  by destruct (_ || _).
Qed.

Lemma lazy_span (r : str) : ∃ g, Re.lazy (λ _, true) 0 span_end r = Some g ∧ span_of r g.
Proof.
  induction r as [|c r (g & Hg & rest & Er & Hrest & Hfirst)].
  - exists []. split; [done|]. exists []. split; [done|]. split; [by left|]. simpl. lia.
  - rewrite lazy_span_cons. destruct (Py.startswith "###" (c :: r)) eqn:Hc.
    + exists []. split; [done|]. exists (c :: r). split; [done|]. split; [by right|].
      simpl. lia.
    + exists (c :: g). rewrite Hg. split; [done|]. exists rest.
      split; [by rewrite Er at 1|]. split; [done|].
      intros [|j] Hj; [done|]. cbn [drop]. apply Hfirst. simpl in Hj. lia.
Qed.

Lemma span_of_unique r g1 g2 : span_of r g1 → span_of r g2 → g1 = g2.
Proof.
  intros (rest1 & E1 & Hrest1 & Hfirst1) (rest2 & E2 & Hrest2 & Hfirst2).
  assert (∀ g rest g' rest', r = g ++ rest → r = g' ++ rest' →
            (rest = [] ∨ Py.startswith "###" rest = true) →
            (∀ j, j < length g' → Py.startswith "###" (drop j r) = false) →
            length g' ≤ length g) as Hle.
  { intros g rest g' rest' E E' Hrest Hfirst.
    destruct (decide (length g' ≤ length g)) as [|Hlt]; [done|].
    specialize (Hfirst (length g) ltac:(lia)). rewrite E, drop_app_length in Hfirst.
    destruct Hrest as [->|Hrest]; [|congruence].
    apply (f_equal length) in E'. rewrite E, !length_app in E'. simpl in E'. lia. }
  assert (length g1 = length g2) as Hlen.
  { apply Nat.le_antisymm; eapply Hle; eauto. }
  rewrite E1 in E2. by apply app_inj_1 in E2 as [? _].
Qed.

Lemma hashes_not_blank (x s : str) c :
  isspace c = true → Py.startswith "###" (c :: s) = false.
Proof.
  intros Hc. simpl. case_bool_decide as E; [|done]. by subst c.
Qed.

Lemma span_of_blanks x r g :
  forallb isspace x = true → span_of r g → span_of (x ++ r) (x ++ g).
Proof.
  intros Hx (rest & Er & Hrest & Hfirst). exists rest.
  split; [by rewrite Er, app_assoc|]. split; [done|].
  induction x as [|c x IH]; [done|]. apply andb_prop in Hx as [Hc Hx].
  intros [|j] Hj.
  - by apply (hashes_not_blank x).
  - cbn [drop app]. apply IH; [done|]. simpl in Hj. lia.
Qed.

Lemma isspace_lower_char c : isspace (lower_char c) = isspace c.
Proof. destruct c as [[] [] [] [] [] [] [] []]; reflexivity. Qed.

Lemma lower_app (a b : str) : Py.lower (a ++ b) = Py.lower a ++ Py.lower b.
Proof. apply fmap_app. Qed.

Lemma lower_length (a : str) : length (Py.lower a) = length a.
Proof. apply length_fmap. Qed.

Section matchers_ci.
Context {A : Type}.

Lemma exact_ci_eq (w nm r : str) (k' : str → option A) :
  Py.lower nm = Py.lower w → Re.exact_ci w k' (nm ++ r) = k' r.
Proof.
  intros E. unfold Re.exact_ci. rewrite lower_app, E, startswith_app.
  f_equal. rewrite <- (lower_length w), <- E, lower_length. apply drop_app_length.
Qed.

Lemma exact_ci_Some_inv (w s : str) (k' : str → option A) x :
  Re.exact_ci w k' s = Some x →
  ∃ nm r, s = nm ++ r ∧ Py.lower nm = Py.lower w ∧ k' r = Some x.
Proof.
  unfold Re.exact_ci. destruct (Py.startswith _ _) eqn:E; [|done].
  apply startswith_spec in E as [t E]. intros Hk.
  exists (take (length w) s), (drop (length w) s).
  split; [by rewrite take_drop|]. split; [|done].
  unfold Py.lower in *. rewrite fmap_take, E.
  by rewrite <- (length_fmap lower_char w), take_app_length.
Qed.
End matchers_ci.

(** The part of the pattern after the name: [\s*\n(.*?)(?=###|\Z)]. *)
Lemma after_name_Some_inv (s g : str) :
  Re.greedy isspace 0 (λ _, Re.exact [LF] (Re.lazy (λ _, true) 0 span_end)) s = Some g →
  ∃ ws2 r, s = ws2 ++ LF :: r ∧ forallb isspace ws2 = true ∧ span_of r g.
Proof.
  intros (i & Hi & Hk)%greedy_Some_inv.
  apply exact_Some_inv in Hk as (r & Er & Hg).
  exists (take i s), r. split; [by rewrite <- (take_drop i s) at 1; rewrite Er|].
  split; [apply run_take_all; lia|].
  destruct (lazy_span r) as (g' & Hg' & Hspan). congruence.
Qed.

Lemma after_name_is_Some (ws2 r : str) :
  forallb isspace ws2 = true →
  is_Some (Re.greedy isspace 0 (λ _, Re.exact [LF] (Re.lazy (λ _, true) 0 span_end))
             (ws2 ++ LF :: r)).
Proof.
  intros Hws. apply not_eq_None_Some. intros Hnone.
  rewrite greedy_None in Hnone. specialize (Hnone (length ws2)).
  rewrite drop_app_length, (exact_eq [LF] _ r) in Hnone.
  destruct (lazy_span r) as (g & Hg & _). rewrite Hg in Hnone.
  discriminate Hnone. split; [lia|]. rewrite run_app_all by done. lia.
Qed.

(** Two ways of ending the header line differ by blanks only. *)
Lemma header_ends_agree (ws ws' r r' : str) :
  ws ++ LF :: r = ws' ++ LF :: r' →
  forallb isspace ws = true → forallb isspace ws' = true →
  ∃ x, forallb isspace x = true ∧ (r = x ++ r' ∨ r' = x ++ r).
Proof.
  intros E Hws Hws'.
  assert (∀ (a b : str) t t', a ++ LF :: t = b ++ LF :: t' → length b ≤ length a →
            forallb isspace a = true → ∃ x, forallb isspace x = true ∧ t' = x ++ t) as Hcase.
  { intros a b t t' Eab Hlen Ha.
    assert (a = b ++ drop (length b) a) as Ea.
    { rewrite <- (take_drop (length b) a) at 1. f_equal.
      apply (f_equal (take (length b))) in Eab.
      rewrite take_app_le, take_app_length in Eab by lia. done. }
    rewrite Ea, <- app_assoc in Eab. apply app_inv_head in Eab.
    rewrite Ea, forallb_app in Ha. apply andb_prop in Ha as [_ Ha].
    destruct (drop (length b) a) as [|c k].
    - injection Eab as ->. by exists [].
    - injection Eab as -> <-. exists (k ++ [LF]).
      split; [|by rewrite <- app_assoc].
      cbn [forallb] in Ha. apply andb_prop in Ha as [_ Ha].
      rewrite forallb_app. apply andb_true_intro. by split. }
  destruct (decide (length ws' ≤ length ws)) as [Hle|Hgt].
  - destruct (Hcase ws ws' r r' E Hle Hws) as (x & Hx & ->). eauto.
  - destruct (Hcase ws' ws r' r (eq_sym E) ltac:(lia) Hws') as (x & Hx & ->). eauto.
Qed.

Lemma subsection_match_Some_inv (name s g : str) :
  subsection_match name s = Some g →
  ∃ ws1 nm ws2 r,
    s = lit "###" ++ ws1 ++ nm ++ ws2 ++ LF :: r ∧
    ws1 ≠ [] ∧ forallb isspace ws1 = true ∧
    Py.lower nm = Py.lower name ∧ forallb isspace ws2 = true ∧
    span_of r g.
Proof.
  unfold subsection_match. intros (s1 & -> & H1)%exact_Some_inv.
  apply greedy_Some_inv in H1 as (i & Hi & H1).
  apply exact_ci_Some_inv in H1 as (nm & s2 & E2 & Hnm & H2).
  apply after_name_Some_inv in H2 as (ws2 & r & -> & Hws2 & Hspan).
  exists (take i s1), nm, ws2, r.
  split; [by rewrite <- E2, take_drop|].
  split.
  { intros Hnil. apply (f_equal length) in Hnil. rewrite length_take in Hnil.
    pose proof (run_le isspace s1). simpl in Hnil. lia. }
  split; [apply run_take_all; lia|]. done.
Qed.

Lemma header_at_match (name s : str) :
  header_at name s → is_Some (subsection_match name s).
Proof.
  intros (ws1 & nm & ws2 & r & -> & Hne & Hws1 & Hnm & Hws2).
  unfold subsection_match. rewrite (exact_eq "###").
  apply not_eq_None_Some. intros Hnone.
  rewrite greedy_None in Hnone. specialize (Hnone (length ws1)).
  rewrite drop_app_length, exact_ci_eq in Hnone by done.
  destruct (after_name_is_Some ws2 r Hws2) as [g Hg]. rewrite Hg in Hnone.
  discriminate Hnone. split.
  - destruct ws1; [done|simpl; lia].
  - rewrite run_app_all by done. lia.
Qed.


(** When the name does not start with a blank, the header line is read
    in one way only, up to the blanks that end it. *)
Lemma blanks_prefix_unique (ws ws' t t' : str) c c' :
  forallb isspace ws = true → forallb isspace ws' = true →
  isspace c = false → isspace c' = false →
  ws ++ c :: t = ws' ++ c' :: t' → ws = ws' ∧ c :: t = c' :: t'.
Proof.
  intros Hws Hws' Hc Hc' E.
  assert (length ws = length ws') as Hlen.
  { pose proof (f_equal (Re.run isspace) E) as Hrun.
    rewrite !run_app_all, !run_stop in Hrun by done. lia. }
  by apply app_inj_1 in E.
Qed.

Lemma lower_head_not_blank (nm name' : str) c :
  Py.lower nm = Py.lower (c :: name') → isspace c = false →
  ∃ d nm', nm = d :: nm' ∧ isspace d = false ∧ length nm' = length name'.
Proof.
  destruct nm as [|d nm']; [done|]. intros [= Hd Hrest] Hc.
  exists d, nm'. split; [done|]. split.
  - by rewrite <- (isspace_lower_char d), Hd, isspace_lower_char.
  - change (Py.lower nm' = Py.lower name') in Hrest.
    by rewrite <- (lower_length nm'), Hrest, lower_length.
Qed.

Lemma subsection_match_span (name' s ws1 nm ws2 body rest : str) c :
  isspace c = false →
  s = lit "###" ++ ws1 ++ nm ++ ws2 ++ LF :: body ++ rest →
  ws1 ≠ [] → forallb isspace ws1 = true →
  Py.lower nm = Py.lower (c :: name') →
  forallb isspace ws2 = true →
  span_of (body ++ rest) body →
  ∃ g, subsection_match (c :: name') s = Some g ∧ Py.strip g = Py.strip body.
Proof.
  intros Hc -> Hne Hws1 Hnm Hws2 Hspan.
  destruct (header_at_match (c :: name')
              (lit "###" ++ ws1 ++ nm ++ ws2 ++ LF :: body ++ rest)) as [g Hg].
  { by exists ws1, nm, ws2, (body ++ rest). }
  exists g. split; [done|].
  apply subsection_match_Some_inv in Hg
    as (ws1' & nm' & ws2' & r' & E & _ & Hws1' & Hnm' & Hws2' & Hspan').
  apply app_inv_head in E.
  destruct (lower_head_not_blank nm name' c Hnm Hc) as (d & t & -> & Hd & Hlen).
  destruct (lower_head_not_blank nm' name' c Hnm' Hc) as (d' & t' & -> & Hd' & Hlen').
  cbn [app] in E.
  apply blanks_prefix_unique in E as [_ E]; [|done..].
  injection E as _ E. apply app_inj_1 in E as [_ E]; [|lia].
  destruct (header_ends_agree ws2 ws2' (body ++ rest) r' E Hws2 Hws2')
    as (x & Hx & [Er|Er]).
  - rewrite Er in Hspan. pose proof (span_of_blanks x r' g Hx Hspan') as Hxg.
    rewrite (span_of_unique _ _ _ Hspan Hxg). unfold Py.strip.
    by rewrite strip_by_app_all_l.
  - pose proof (span_of_blanks x (body ++ rest) body Hx Hspan) as Hxb.
    rewrite <- Er in Hxb. rewrite (span_of_unique _ _ _ Hspan' Hxb). unfold Py.strip.
    by rewrite strip_by_app_all_l.
Qed.

(** ** Searching *)

Section search.
Context {A : Type} (m : str → option A).

Lemma search_here s x : m s = Some x → Re.search m s = Some x.
Proof. intros H. unfold Re.search. destruct s; simpl; by rewrite H. Qed.

Lemma search_next c s : m (c :: s) = None → Re.search m (c :: s) = Re.search m s.
Proof. intros H. unfold Re.search. simpl. by rewrite H. Qed.

Lemma search_skip before s :
  (∀ j, j < length before → m (drop j (before ++ s)) = None) →
  Re.search m (before ++ s) = Re.search m s.
Proof.
  induction before as [|c before IH]; [done|]. intros H.
  cbn [app]. rewrite search_next by apply (H 0 ltac:(simpl; lia)).
  apply IH. intros j Hj. apply (H (S j)). simpl. lia.
Qed.

End search.




(** ** The batch driver *)

Lemma print_run line w : print line w = (Ret (), printed w [line]).
Proof. done. Qed.

Lemma for_each_print (f : str → str) (l : list str) (w : world) :
  for_each (λ _ x, print (f x)) () l w = (Ret (), printed w (f <$> l)).
Proof.
  revert w. induction l as [|x l IH]; intros w.
  - unfold printed. cbn. rewrite app_nil_r. by destruct w.
  - cbn [for_each]. unfold mbind, prog_bind. rewrite print_run, IH.
    unfold printed. cbn. by rewrite <- app_assoc.
Qed.

Lemma same_inputs_refl w : same_inputs w w.
Proof. by repeat split. Qed.

Lemma same_inputs_trans w1 w2 w3 :
  same_inputs w1 w2 → same_inputs w2 w3 → same_inputs w1 w3.
Proof.
  intros (?&H2&H3&?&?&?) (?&H2'&H3'&?&?&?).
  split; [congruence|]. split; [intros st; by rewrite H2', H2|].
  split; [intros st; by rewrite H3', H3|]. repeat split; congruence.
Qed.

Lemma same_inputs_printed w lines : same_inputs w (printed w lines).
Proof. by repeat split. Qed.

Lemma same_inputs_after_parse w st m :
  same_inputs w (world_after_parse w (st_folder_name st) m).
Proof.
  repeat split; try done.
  - intros st'. apply document_of_after_parse.
  - intros st'. apply assets_of_after_parse.
Qed.

Lemma is_parsed_same w w' st : same_inputs w w' → is_parsed w' st = is_parsed w st.
Proof. intros (_&H&_). unfold is_parsed. by rewrite H. Qed.

Lemma report_of_same w w' st : same_inputs w w' → report_of w' st = report_of w st.
Proof. intros (_&H&_). unfold report_of. by rewrite H. Qed.

Lemma parse_document_report st content pd fd now :
  let r := parse_document st content pd fd now in
  let r0 := parse_document st content 0 0 [] in
  r.1.2 = r0.1.2 ∧ r.2 = r0.2.
Proof. done. Qed.

Lemma parse_failure_same w w' st :
  same_inputs w w' → parse_failure w' st = parse_failure w st.
Proof. intros (_&H&_). unfold parse_failure. by rewrite H. Qed.

Lemma filter_parsed_same w w' (sts : list state_entry) :
  same_inputs w w' →
  filter (λ st, is_parsed w' st = true) sts = filter (λ st, is_parsed w st = true) sts.
Proof.
  intros Hsame. apply list_filter_iff. intros st. by rewrite (is_parsed_same w w').
Qed.

Lemma entries_from_same w w' t sts :
  same_inputs w w' → entries_from w' t sts = entries_from w t sts.
Proof.
  intros Hsame. unfold entries_from.
  rewrite (filter_parsed_same w w') by done.
  apply imap_ext. intros i st _. rewrite (report_of_same w w') by done.
  destruct Hsame as (_&_&_&->&_). done.
Qed.

Lemma entries_from_cons w t st sts :
  entries_from w t (st :: sts) =
    if is_parsed w st
    then log_entry st (wall_clock w (S t)) (report_of w st).1 (report_of w st).2
           :: entries_from w (S (S t)) sts
    else entries_from w t sts.
Proof.
  unfold entries_from. rewrite filter_cons. destruct (is_parsed w st) eqn:Hp.
  - rewrite decide_True by done. rewrite imap_cons. f_equal.
    + by replace (t + 2 * 0 + 1) with (S t) by lia.
    + apply imap_ext. intros i st' _. cbn [compose].
      by replace (t + 2 * S i + 1) with (S (S t) + 2 * i + 1) by lia.
  - by rewrite decide_False.
Qed.



(** ** Removing a block *)

Lemma well_formed_block_not_preamble b :
  well_formed_block b → block_name b ≠ lit "_preamble".
Proof. intros [Hkey _] E. rewrite E in Hkey. by apply header_key_not_preamble in Hkey. Qed.

Lemma dict_get_removed text text' pre bs1 b bs2 :
  Py.splitlines text = pre ++ block_text (bs1 ++ b :: bs2) →
  Py.splitlines text' = pre ++ block_text (bs1 ++ bs2) →
  Forall (λ l, header_match l = None) pre →
  Forall well_formed_block (bs1 ++ b :: bs2) →
  Forall (λ b', block_name b' ≠ block_name b) (bs1 ++ bs2) →
  dict_get (split_sections text') (block_name b) = [] ∧
  dict_get (split_sections text) (block_name b) = Py.join [LF] (block_lines b) ∧
  ∀ k, k ≠ block_name b →
       dict_get (split_sections text') k = dict_get (split_sections text) k.
Proof.
  intros Hlines Hlines' Hpre Hbs Hother.
  assert (Forall well_formed_block (bs1 ++ bs2)) as Hbs'.
  { rewrite Forall_app in *. destruct Hbs as [? Hbs]. inversion Hbs; subst. done. }
  assert (well_formed_block b) as Hb.
  { rewrite Forall_app in Hbs. destruct Hbs as [_ Hbs]. by inversion Hbs. }
  unfold dict_get.
  setoid_rewrite (split_sections_of_blocks text pre (bs1 ++ b :: bs2)); [|done..].
  setoid_rewrite (split_sections_of_blocks text' pre (bs1 ++ bs2)); [|done..].
  unfold assignments. rewrite !fmap_app, fmap_cons.
  rewrite Forall_app in Hother. destruct Hother as [Hother1 Hother2].
  assert (∀ bs, Forall (λ b', block_name b' ≠ block_name b) bs →
                filter (λ a, a.1 = block_name b) ((λ b, (block_name b, block_lines b)) <$> bs) = [])
    as Hnone.
  { intros bs Hbs0. apply filter_none. intros a (b' & -> & Hb')%list_elem_of_fmap.
    rewrite Forall_forall in Hbs0. by apply Hbs0. }
  split; [|split].
  - rewrite filter_cons_False by (cbn; intros E; by apply (well_formed_block_not_preamble b)).
    by rewrite filter_app, !Hnone.
  - rewrite filter_cons_False by (cbn; intros E; by apply (well_formed_block_not_preamble b)).
    rewrite filter_app, filter_cons_True, !Hnone by done. done.
  - intros k Hk. rewrite !filter_cons, !filter_app, filter_cons_False by (cbn; congruence).
    done.
Qed.

(** The extractors on an empty block. *)
Lemma extract_field_nil name : extract_field [] name = None.
Proof. done. Qed.

Lemma get_subsection_nil name : get_subsection [] name = [].
Proof. done. Qed.

Lemma dict_get_delete (s : gmap str str) (k K : str) :
  dict_get (delete k s) K = if bool_decide (K = k) then [] else dict_get s K.
Proof.
  unfold dict_get. case_bool_decide as E.
  - by rewrite E, lookup_delete_eq.
  - by rewrite lookup_delete_ne.
Qed.

Lemma truthy_nonempty (s : str) : s ≠ [] → Py.truthy s = true.
Proof. by destruct s. Qed.

Lemma parse_document_status_sections (st : state_entry) (s : gmap str str)
    (pd fd : nat) (now : str) :
  let r := parse_sections st s pd fd now in
  warnings (md_parse_status r.1.1) = r.1.2 ∧
  errors (md_parse_status r.1.1) = r.2 ∧
  parsed (md_parse_status r.1.1) = bool_decide (length r.2 = 0) ∧
  parse_timestamp (md_parse_status r.1.1) = now.
Proof. done. Qed.

Lemma remove_block_sections (st : state_entry) (s : gmap str str) (k : str)
    (pd fd : nat) (now : str) :
  k ∈ required_blocks →
  (∀ K, K ∈ required_blocks → dict_get s K ≠ []) →
  let r := parse_sections st s pd fd now in
  let r' := parse_sections st (delete k s) pd fd now in
  r.2 = [] ∧ r'.2 = [k ++ lit " section missing"] ∧
  removal_effect k (declared_steps s) r.1.1 r'.1.1.
Proof.
  intros Hk Hwf.
  assert (Py.truthy (dict_get s "APPLICATION PROCESS") = true) as Ha
    by (apply truthy_nonempty, Hwf, (bool_decide_unpack _); vm_compute; reflexivity).
  assert (Py.truthy (dict_get s "REQUIRED DOCUMENTS") = true) as Hd
    by (apply truthy_nonempty, Hwf, (bool_decide_unpack _); vm_compute; reflexivity).
  assert (Py.truthy (dict_get s "INTERVIEW REQUIREMENTS") = true) as Hi
    by (apply truthy_nonempty, Hwf, (bool_decide_unpack _); vm_compute; reflexivity).
  assert (Py.truthy (dict_get s "FORMS") = true) as Hf
    by (apply truthy_nonempty, Hwf, (bool_decide_unpack _); vm_compute; reflexivity).
  assert (Py.truthy (dict_get s "LANGUAGE ACCESS") = true) as Hl
    by (apply truthy_nonempty, Hwf, (bool_decide_unpack _); vm_compute; reflexivity).
  unfold required_blocks in Hk. rewrite !elem_of_cons, elem_of_nil in Hk.
  destruct Hk as [->|[->|[->|[->|[->|[]]]]]].
  all: unfold removal_effect, declared_steps, parse_sections; cbv zeta.
  all: cbn [fst snd md_application md_documents md_interview md_forms md_language_access
            md_complexity md_assets collected_date source_url
            online_available online_url online_doc_submission online_doc_submission_notes
            steps app_steps_count steps_count forms_to_complete reading_level
            reading_level_notes].
  all: rewrite !dict_get_delete; decide_names; cbv iota.
  all: rewrite ?Ha, ?Hd, ?Hi, ?Hf, ?Hl; cbn [negb append_if Py.truthy app].
  all: rewrite ?extract_field_nil, ?get_subsection_nil.
  all: repeat split; try reflexivity.
  - set (declared := match extract_field (dict_get s "COMPLEXITY ASSESSMENT")
                                "Estimated Number of Steps" with
                      | Some raw => if Py.truthy raw then first_integer raw else None
                      | None => None
                      end).
    change (extract_numbered_steps []) with (@nil str). cbn [Py.truthy negb].
    by rewrite andb_false_r.
  - set (declared := match extract_field (dict_get s "COMPLEXITY ASSESSMENT")
                                "Estimated Number of Steps" with
                      | Some raw => if Py.truthy raw then first_integer raw else None
                      | None => None
                      end).
    destruct declared as [n|]; [by rewrite bool_decide_eq_false_2|].
    by rewrite bool_decide_eq_true_2.
Qed.


(** Removing a required block never makes a conversion raise. *)
Lemma parse_sections_raises_delete (s : gmap str str) (k : str) :
  k ∈ required_blocks →
  parse_sections_raises s = false → parse_sections_raises (delete k s) = false.
Proof.
  intros Hk. unfold required_blocks in Hk. rewrite !elem_of_cons, elem_of_nil in Hk.
  unfold parse_sections_raises.
  destruct Hk as [->|[->|[->|[->|[->|[]]]]]]; rewrite !dict_get_delete; decide_names;
    cbv iota; try done.
  intros H. apply orb_false_elim in H as [H1 H2]. apply orb_false_elim in H1 as [_ H1].
  rewrite H1, H2. reflexivity.
Qed.

Lemma split_sections_removed text text' pre bs1 b bs2 :
  Py.splitlines text = pre ++ block_text (bs1 ++ b :: bs2) →
  Py.splitlines text' = pre ++ block_text (bs1 ++ bs2) →
  Forall (λ l, header_match l = None) pre →
  Forall well_formed_block (bs1 ++ b :: bs2) →
  Forall (λ b', block_name b' ≠ block_name b) (bs1 ++ bs2) →
  split_sections text' = delete (block_name b) (split_sections text).
Proof.
  intros Hlines Hlines' Hpre Hbs Hother.
  assert (Forall well_formed_block (bs1 ++ bs2)) as Hbs'.
  { rewrite Forall_app in *. destruct Hbs as [? Hbs]. inversion Hbs; subst. done. }
  assert (well_formed_block b) as Hb.
  { rewrite Forall_app in Hbs. destruct Hbs as [_ Hbs]. by inversion Hbs. }
  apply map_eq. intros k.
  rewrite (split_sections_of_blocks text' pre (bs1 ++ bs2)) by done.
  assert (∀ bs, Forall (λ b', block_name b' ≠ block_name b) bs →
                filter (λ a, a.1 = block_name b) ((λ b, (block_name b, block_lines b)) <$> bs) = [])
    as Hnone.
  { intros bs Hbs0. apply filter_none. intros a (b' & -> & Hb')%list_elem_of_fmap.
    rewrite Forall_forall in Hbs0. by apply Hbs0. }
  rewrite Forall_app in Hother. destruct Hother as [Hother1 Hother2].
  unfold assignments. rewrite fmap_app. destruct (decide (k = block_name b)) as [->|Hk].
  - rewrite lookup_delete_eq.
    rewrite filter_cons_False by (cbn; intros E; by apply (well_formed_block_not_preamble b)).
    by rewrite filter_app, !Hnone.
  - rewrite lookup_delete_ne by done.
    rewrite (split_sections_of_blocks text pre (bs1 ++ b :: bs2)) by done.
    unfold assignments. rewrite fmap_app, fmap_cons.
    rewrite !filter_cons, !filter_app, filter_cons_False by (cbn; congruence). done.
Qed.

(** C2, as the code has it.  A document has its preamble and its blocks;
    the five required blocks are there and not empty, the name of the
    block [b] is one of them and is borne by no other block, and no number
    of the document is too long for [int].  The document parses without
    error.  Without the block [b] it still gives a record, with exactly
    one error, which names the block, and with
    [parse_status.parsed = false]; the sub-record of the block is degraded
    to null fields and empty lists, and every other sub-record is the same
    as before, except for [complexity.steps_count] when the application
    block is the one removed: a count declared by the complexity block is
    kept, and with none declared the count, which was the number of
    application steps, becomes null. *)
Theorem remove_required_block st strict w w' c c' pre bs1 b bs2 :
  document_of w st = Some (Text c) →
  document_of w' st = Some (Text c') →
  assets_of w' st = assets_of w st →
  Py.contains PLACEHOLDER_MARKER c = false →
  Py.contains PLACEHOLDER_MARKER c' = false →
  parse_document_raises c = false →
  Py.splitlines c = pre ++ block_text (bs1 ++ b :: bs2) →
  Py.splitlines c' = pre ++ block_text (bs1 ++ bs2) →
  Forall (λ l, header_match l = None) pre →
  Forall well_formed_block (bs1 ++ b :: bs2) →
  Forall (λ b', block_name b' ≠ block_name b) (bs1 ++ bs2) →
  block_name b ∈ required_blocks →
  (∀ K, K ∈ required_blocks → dict_get (split_sections c) K ≠ []) →
  ∃ m ws w1 m' ws' w1',
    parse_state st strict w = (Ret (Some m, ws, []), w1) ∧
    parsed (md_parse_status m) = true ∧
    parse_state st strict w'
      = (Ret (Some m', ws', [block_name b ++ lit " section missing"]), w1') ∧
    parsed (md_parse_status m') = false ∧
    errors (md_parse_status m') = [block_name b ++ lit " section missing"] ∧
    removal_effect (block_name b) (declared_steps (split_sections c)) m m'.
Proof.
  intros Hdoc Hdoc' Hassets Hmark Hmark' Hok Hlines Hlines' Hpre Hbs Hother Hk Hwf.
  assert (parse_document_raises c' = false) as Hok'.
  { unfold parse_document_raises in *.
    rewrite (split_sections_removed c c' pre bs1 b bs2) by done.
    by apply parse_sections_raises_delete. }
  pose proof (parse_state_parsed st strict w c Hdoc Hmark Hok) as Hrun.
  pose proof (parse_state_parsed st strict w' c' Hdoc' Hmark' Hok') as Hrun'.
  cbv zeta in Hrun, Hrun'. unfold parse_document in Hrun, Hrun'. cbv zeta in Hrun, Hrun'.
  rewrite (split_sections_removed c c' pre bs1 b bs2) in Hrun' by done.
  destruct (remove_block_sections st (split_sections c) (block_name b)
              (assets_of w st).1 (assets_of w st).2 (wall_clock w (ticks w)) Hk Hwf)
    as (Herr & _ & _).
  destruct (remove_block_sections st (split_sections c) (block_name b)
              (assets_of w' st).1 (assets_of w' st).2 (wall_clock w' (ticks w')) Hk Hwf)
    as (_ & Herr' & _).
  destruct (remove_block_sections st (split_sections c) (block_name b)
              (assets_of w st).1 (assets_of w st).2 (wall_clock w' (ticks w')) Hk Hwf)
    as (_ & _ & Heffect).
  cbv zeta in *. rewrite Herr in Hrun. rewrite Herr' in Hrun'.
  eexists _, _, _, _, _, _. split; [exact Hrun|].
  split; [by rewrite (proj1 (proj2 (proj2 (parse_document_status_sections _ _ _ _ _))) ), Herr|].
  split; [exact Hrun'|].
  split; [by rewrite (proj1 (proj2 (proj2 (parse_document_status_sections _ _ _ _ _))) ), Herr'|].
  split; [by rewrite (proj1 (proj2 (parse_document_status_sections _ _ _ _ _))), Herr'|].
  rewrite Hassets. exact Heffect.
Qed.

(** ** The theorems on the sample inputs *)

Lemma split_sections_blocks_witness :
  is_Some (split_sections sample_document !! lit "FORMS").
Proof.
  destruct (split_sections_blocks sample_document) as (_ & _ & _ & _ & _ & _ & H & _).
  apply (H "## FORMS" "FORMS").
  - apply (bool_decide_unpack _). vm_compute. reflexivity.
  - vm_compute. reflexivity.
Defined.

(** A repeated header name keeps the later content, and an empty block
    has its entry. *)
Example split_sections_last_wins :
  split_sections "intro
## Forms
first
## Notes
## FORMS
second" = {[ lit "_preamble" := lit "intro"; lit "FORMS" := lit "second"; lit "NOTES" := [] ]}.
Proof. vm_compute. reflexivity. Qed.


Lemma remove_required_block_witness :
  ∃ m ws w1 m' ws' w1',
    parse_state sample_state false (sample_world sample_document)
      = (Ret (Some m, ws, []), w1) ∧
    parsed (md_parse_status m) = true ∧
    parse_state sample_state false (sample_world sample_document_without_application)
      = (Ret (Some m', ws', [lit "APPLICATION PROCESS" ++ lit " section missing"]), w1') ∧
    parsed (md_parse_status m') = false ∧
    errors (md_parse_status m') = [lit "APPLICATION PROCESS" ++ lit " section missing"] ∧
    removal_effect "APPLICATION PROCESS"
      (declared_steps (split_sections sample_document)) m m'.
Proof.
  apply (remove_required_block sample_state false
           (sample_world sample_document)
           (sample_world sample_document_without_application)
           sample_document sample_document_without_application
           (blocks_of (Py.splitlines sample_document)).1
           []
           (Block "## APPLICATION PROCESS" "APPLICATION PROCESS"
                  [lit "**Online Application Available:** Yes"; lit "### Steps";
                   lit "1. Create an account"; lit "2. Submit form"])
           (blocks_of (Py.splitlines sample_document_without_application)).2).
  - reflexivity.
  - reflexivity.
  - reflexivity.
  - vm_compute. reflexivity.
  - vm_compute. reflexivity.
  - vm_compute. reflexivity.
  - vm_compute. reflexivity.
  - vm_compute. reflexivity.
  - apply (bool_decide_unpack _). vm_compute. reflexivity.
  - repeat (apply Forall_cons; split;
            [split; [vm_compute; reflexivity
                    |apply (bool_decide_unpack _); vm_compute; reflexivity]|]).
    apply Forall_nil. exact I.
  - apply (bool_decide_unpack _). vm_compute. reflexivity.
  - apply (bool_decide_unpack _). vm_compute. reflexivity.
  - intros K HK. unfold required_blocks in HK. rewrite !elem_of_cons, elem_of_nil in HK.
    destruct HK as [->|[->|[->|[->|[->|[]]]]]]; vm_compute; discriminate.
Defined.

(** C2, as stated, fails: in the sample report the complexity block leaves
    the number of steps unspecified, so [complexity.steps_count] is the
    number of application steps; without the APPLICATION PROCESS block the
    complexity block is the same and its sub-record is not. *)
Lemma removing_application_changes_complexity :
  let lines := Py.splitlines sample_document in
  let m := (parse_document sample_state sample_document 0 0 (sample_clock 0)).1.1 in
  let m' := (parse_document sample_state sample_document_without_application 0 0
               (sample_clock 0)).1.1 in
  Py.splitlines sample_document_without_application = take 3 lines ++ drop 8 lines ∧
  header_key <$> take 1 (drop 3 lines) = [Some (lit "APPLICATION PROCESS")] ∧
  omap header_key (take 4 (drop 4 lines)) = [] ∧
  dict_get (split_sections sample_document_without_application) "COMPLEXITY ASSESSMENT"
    = dict_get (split_sections sample_document) "COMPLEXITY ASSESSMENT" ∧
  steps_count (md_complexity m) = Some 2%N ∧
  steps_count (md_complexity m') = None ∧
  md_complexity m' ≠ md_complexity m.
Proof. vm_compute. repeat split; discriminate. Qed.


(** ** The scenarios of the specification, evaluated *)

Example normalize_sentinels :
  normalize (Some (lit "Not Specified on Website")) = None ∧
  normalize (Some (lit " n/a ")) = None ∧
  normalize (Some (lit "None")) = None ∧
  normalize (Some (lit "unclear")) = None ∧
  normalize (Some (lit "")) = None ∧
  normalize (Some (lit " Weekly ")) = Some (lit "Weekly").
Proof. vm_compute. done. Qed.

Example to_bool_values :
  to_bool (Some (lit "Yes")) = Some true ∧ to_bool (Some (lit "YES")) = Some true ∧
  to_bool (Some (lit "1")) = Some true ∧ to_bool (Some (lit "No")) = Some false ∧
  to_bool (Some (lit "0")) = Some false ∧ to_bool (Some (lit "Unclear")) = None ∧
  to_bool None = None.
Proof. vm_compute. done. Qed.

Example application_block_scenario :
  (λ m, (online_available (md_application m), steps (md_application m),
         app_steps_count (md_application m)))
    (parse_document sample_state
"## APPLICATION PROCESS
**Online Application Available:** Yes
### Steps
1. Create an account
2. Submit form
" 0 0 (sample_clock 0)).1.1
  = (Some true, [lit "Create an account"; lit "Submit form"], Some 2%N).
Proof. vm_compute. reflexivity. Qed.

Example missing_forms_scenario :
  (λ r, (md_forms r.1.1, r.2, parsed (md_parse_status r.1.1)))
    (parse_document sample_state
"## APPLICATION PROCESS
1. Apply
## REQUIRED DOCUMENTS
- Proof of identity
## INTERVIEW REQUIREMENTS
**Interview Required:** No
## LANGUAGE ACCESS
**Translation Method:** Human
" 0 0 (sample_clock 0))
  = (Forms None [], [lit "FORMS section missing"], false).
Proof. vm_compute. reflexivity. Qed.

(** ** Truth values and letter case *)

Lemma isspace_upper_char c : isspace (upper_char c) = isspace c.
Proof. by destruct c as [[] [] [] [] [] [] [] []]. Qed.

Lemma lower_upper_char c : lower_char (upper_char c) = lower_char c.
Proof. by destruct c as [[] [] [] [] [] [] [] []]. Qed.

Lemma upper_lower_char c : upper_char (lower_char c) = upper_char c.
Proof. by destruct c as [[] [] [] [] [] [] [] []]. Qed.

Lemma upper_upper_char c : upper_char (upper_char c) = upper_char c.
Proof. by destruct c as [[] [] [] [] [] [] [] []]. Qed.

Lemma lower_upper (s : str) : Py.lower (Py.upper s) = Py.lower s.
Proof.
  unfold Py.lower, Py.upper. rewrite <- list_fmap_compose.
  apply list_fmap_ext. intros _ c _. apply lower_upper_char.
Qed.

Lemma upper_upper (s : str) : Py.upper (Py.upper s) = Py.upper s.
Proof.
  unfold Py.upper. rewrite <- list_fmap_compose.
  apply list_fmap_ext. intros _ c _. apply upper_upper_char.
Qed.

Section strip_fmap.
Context (p : ascii → bool) (f : ascii → ascii).
Hypothesis p_f : ∀ c, p (f c) = p c.

Lemma lstrip_by_fmap (s : str) : Py.lstrip_by p (f <$> s) = f <$> Py.lstrip_by p s.
Proof.
  induction s as [|c s IH]; [done|]. rewrite fmap_cons. simpl.
  rewrite p_f. by destruct (p c).
Qed.

Lemma strip_by_fmap (s : str) : Py.strip_by p (f <$> s) = f <$> Py.strip_by p s.
Proof.
  unfold Py.strip_by, Py.rstrip_by.
  by rewrite lstrip_by_fmap, <- fmap_reverse, lstrip_by_fmap, fmap_reverse.
Qed.
End strip_fmap.

Lemma strip_upper (s : str) : Py.strip (Py.upper s) = Py.upper (Py.strip s).
Proof. apply strip_by_fmap, isspace_upper_char. Qed.

Lemma strip_lower (s : str) : Py.strip (Py.lower s) = Py.lower (Py.strip s).
Proof. apply strip_by_fmap, isspace_lower_char. Qed.

Lemma strip_padded (ws1 s ws2 : str) :
  forallb isspace ws1 = true → forallb isspace ws2 = true →
  Py.strip (ws1 ++ s ++ ws2) = Py.strip s.
Proof.
  intros H1 H2. unfold Py.strip, Py.strip_by.
  rewrite lstrip_by_app_all by done.
  destruct (lstrip_by_suffix isspace s) as (a & E & Ha).
  destruct (Py.lstrip_by isspace s) as [|c t] eqn:El.
  - rewrite app_nil_r in E. subst a.
    rewrite lstrip_by_all; [done|]. by rewrite forallb_app, Ha, H2.
  - pose proof (lstrip_by_head isspace s) as Hc. rewrite El in Hc.
    assert (Py.lstrip_by isspace (s ++ ws2) = (c :: t) ++ ws2) as ->.
    { rewrite E at 1. rewrite <- app_assoc, lstrip_by_app_all by done.
      simpl. by rewrite Hc. }
    by rewrite rstrip_by_app_all.
Qed.

(** X1.  Reading a truth value after [normalize], as [parse_state] does
    through [extract_field], gives what reading the raw text gives: no
    sentinel is a truth value, and trimming twice changes nothing. *)
Theorem to_bool_normalize (x : option str) : to_bool (normalize x) = to_bool x.
Proof.
  destruct x as [value|]; [|done].
  unfold normalize. cbv zeta. case_bool_decide as Hs.
  - unfold to_bool. cbv zeta.
    rewrite !bool_decide_eq_false_2; [done| |].
    + intros Hin. revert Hs. generalize dependent (Py.lower (Py.strip value)).
      intros v Hin Hs.
      rewrite !elem_of_cons, elem_of_nil in Hin.
      unfold sentinels in Hs. rewrite !elem_of_cons, elem_of_nil in Hs.
      destruct Hin as [->|[->|[->|[]]]];
        destruct Hs as [E|[E|[E|[E|[E|[]]]]]]; vm_compute in E; discriminate.
    + intros Hin. revert Hs. generalize dependent (Py.lower (Py.strip value)).
      intros v Hin Hs.
      rewrite !elem_of_cons, elem_of_nil in Hin.
      unfold sentinels in Hs. rewrite !elem_of_cons, elem_of_nil in Hs.
      destruct Hin as [->|[->|[->|[]]]];
        destruct Hs as [E|[E|[E|[E|[E|[]]]]]]; vm_compute in E; discriminate.
  - unfold to_bool. cbv zeta. by rewrite strip_idemp.
Qed.

(** X2.  [to_bool] and [normalize] look through blank padding, and on a
    value of the ASCII range [to_bool] looks through letter case: a value
    padded with blanks (line breaks included) reads as the value itself,
    and so does an ASCII value in capitals or in small letters. *)
Theorem to_bool_insensitive (ws1 s ws2 : str) :
  forallb isspace ws1 = true → forallb isspace ws2 = true →
  to_bool (Some (ws1 ++ s ++ ws2)) = to_bool (Some s) ∧
  normalize (Some (ws1 ++ s ++ ws2)) = normalize (Some s) ∧
  (ascii_text s = true →
   to_bool (Some (Py.upper s)) = to_bool (Some s) ∧
   to_bool (Some (Py.lower s)) = to_bool (Some s)).
Proof.
  intros H1 H2. unfold to_bool, normalize. cbv zeta.
  rewrite strip_padded by done. split; [done|]. split; [done|]. intros _.
  rewrite strip_upper, lower_upper, strip_lower.
  replace (Py.lower (Py.lower (Py.strip s))) with (Py.lower (Py.strip s)); [done|].
  unfold Py.lower. rewrite <- list_fmap_compose.
  apply list_fmap_ext. intros _ c _. cbn. by destruct c as [[] [] [] [] [] [] [] []].
Qed.

Lemma to_bool_insensitive_witness :
  to_bool (Some (lit " " ++ lit "Yes" ++ [LF])) = Some true ∧
  to_bool (Some (Py.upper "no")) = Some false.
Proof.
  pose proof (to_bool_insensitive " " "Yes" [LF] eq_refl eq_refl) as (E & _).
  pose proof (to_bool_insensitive [] "no" [] eq_refl eq_refl) as (_ & _ & E').
  split; [exact E|exact (proj1 (E' eq_refl))].
Defined.

(** ** Labelled fields *)




Lemma extract_field_nonempty (text name : str) : extract_field text name ≠ Some [].
Proof.
  unfold extract_field. destruct (Re.search _ _) as [g|]; [|done].
  intros [_ Hs]%normalize_Some_inv. apply Hs. unfold sentinels.
  rewrite !elem_of_cons. do 4 right. by left.
Qed.





(** ** Numbers in field values *)

Lemma digits_match_nil : Re.greedy isdigit 1 (λ g _, Some g) [] = None.
Proof. done. Qed.

Lemma digits_match_cons (c : ascii) (s : str) :
  Re.greedy isdigit 1 (λ g _, Some g) (c :: s) =
    if isdigit c then Some (take (Re.run isdigit (c :: s)) (c :: s)) else None.
Proof.
  destruct (isdigit c) eqn:Hc.
  - apply greedy_longest; [|done]. cbn [Re.run]. rewrite Hc. lia.
  - apply greedy_short. cbn [Re.run]. rewrite Hc. lia.
Qed.

Lemma digits_search_run (pre ds rest : str) :
  forallb (λ c, negb (isdigit c)) pre = true →
  ds ≠ [] → forallb isdigit ds = true →
  match rest with [] => True | d :: _ => isdigit d = false end →
  Re.search (Re.greedy isdigit 1 (λ g _, Some g)) (pre ++ ds ++ rest) = Some ds.
Proof.
  intros Hpre Hne Hds Hrest.
  rewrite search_skip.
  - destruct ds as [|c ds]; [done|]. apply search_here.
    cbn [app]. rewrite digits_match_cons.
    simpl in Hds. apply andb_prop in Hds as [Hc Hds]. rewrite Hc. f_equal.
    rewrite (app_comm_cons ds rest c), run_app_all by (simpl; by rewrite Hc).
    assert (Re.run isdigit rest = 0) as ->.
    { destruct rest as [|d rest]; [done|]. by apply run_stop. }
    by rewrite Nat.add_0_r, take_app_length.
  - intros j Hj.
    assert (∃ c r, drop j (pre ++ ds ++ rest) = c :: r ∧ isdigit c = false)
      as (c & r & -> & Hc).
    { clear -Hpre Hj. revert j Hj. induction pre as [|a pre IH]; intros j Hj; [simpl in Hj; lia|].
      simpl in Hpre. apply andb_prop in Hpre as [Ha Hpre].
      destruct j as [|j].
      - exists a, (pre ++ ds ++ rest). split; [done|]. by apply negb_true_iff.
      - simpl in Hj. apply (IH Hpre j). lia. }
    rewrite digits_match_cons. by rewrite Hc.
Qed.

Lemma first_integer_run (pre ds rest : str) :
  forallb (λ c, negb (isdigit c)) pre = true →
  ds ≠ [] → forallb isdigit ds = true →
  match rest with [] => True | d :: _ => isdigit d = false end →
  first_integer (pre ++ ds ++ rest) = Some (Py.int ds).
Proof.
  intros Hpre Hne Hds Hrest. unfold first_integer.
  by rewrite digits_search_run.
Qed.

Lemma first_integer_raises_run (pre ds rest : str) :
  forallb (λ c, negb (isdigit c)) pre = true →
  ds ≠ [] → forallb isdigit ds = true →
  match rest with [] => True | d :: _ => isdigit d = false end →
  first_integer_raises (pre ++ ds ++ rest) = bool_decide (Py.MAX_STR_DIGITS < length ds).
Proof.
  intros Hpre Hne Hds Hrest. unfold first_integer_raises.
  by rewrite digits_search_run.
Qed.

(** X5.  [re.search(r'\d+', raw)] followed by [int], on a text of the
    ASCII range.  Without a digit in the text the result is [None] and
    nothing is raised.  Otherwise the first maximal run of digits decides:
    with more than 4300 digits [int] raises [ValueError], and with at most
    4300 the result is the value of the run, whatever surrounds it. *)
Theorem first_integer_spec (raw : str) :
  ascii_text raw = true →
  (first_integer raw = None ↔ forallb (λ c, negb (isdigit c)) raw = true) ∧
  (forallb (λ c, negb (isdigit c)) raw = true → first_integer_raises raw = false) ∧
  (∀ pre ds rest,
     raw = pre ++ ds ++ rest →
     forallb (λ c, negb (isdigit c)) pre = true →
     ds ≠ [] → forallb isdigit ds = true →
     match rest with [] => True | d :: _ => isdigit d = false end →
     first_integer_raises raw = bool_decide (Py.MAX_STR_DIGITS < length ds) ∧
     (length ds ≤ Py.MAX_STR_DIGITS → first_integer raw = Some (Py.int ds))).
Proof.
  intros _.
  assert (first_integer raw = None ↔ forallb (λ c, negb (isdigit c)) raw = true) as Hnone.
  { unfold first_integer. rewrite fmap_None.
    induction raw as [|c s IH]; [done|].
    destruct (isdigit c) eqn:Hc.
    + split.
      * erewrite search_here; [done|]. rewrite digits_match_cons. by rewrite Hc.
      * simpl. by rewrite Hc.
    + rewrite search_next by (rewrite digits_match_cons; by rewrite Hc).
      rewrite IH. simpl. by rewrite Hc. }
  split; [exact Hnone|]. split.
  - intros Hno%Hnone. unfold first_integer, first_integer_raises in *.
    by destruct (Re.search _ _).
  - intros pre ds rest -> Hpre Hne Hds Hrest.
    split; [by apply first_integer_raises_run|]. intros _. by apply first_integer_run.
Qed.

Lemma first_integer_spec_witness :
  first_integer_raises "about 12 forms, 3 of them long" = false ∧
  first_integer "about 12 forms, 3 of them long" = Some (Py.int "12").
Proof.
  destruct (first_integer_spec "about 12 forms, 3 of them long" eq_refl) as (_ & _ & H).
  destruct (H (lit "about ") (lit "12") (lit " forms, 3 of them long")) as [Hr Hv];
    [reflexivity|reflexivity|discriminate|reflexivity|reflexivity|].
  split; [exact Hr|]. apply Hv. vm_compute. lia.
Defined.

(** The value of a decimal numeral read from the left, starting from [acc]. *)
Lemma int_of_uint (d : Decimal.uint) (acc : N) :
  foldl (λ acc c, 10 * acc + (code c - 48))%N acc
        (list_ascii_of_string (NilEmpty.string_of_uint d))
  = match acc with
    | N0 => N.of_uint d
    | Npos p => Npos (Pos.of_uint_acc d p)
    end.
Proof.
  revert acc. induction d as [|d IH|d IH|d IH|d IH|d IH|d IH|d IH|d IH|d IH|d IH];
    intros acc; cbn [NilEmpty.string_of_uint list_ascii_of_string foldl];
    [by destruct acc|..];
    rewrite IH; destruct acc as [|p]; cbn; try done;
    f_equal; f_equal; lia.
Qed.

Lemma int_repr_int (n : N) : Py.int (Py.repr_int n) = n.
Proof.
  unfold Py.int, Py.repr_int, lit, NilZero.string_of_uint.
  rewrite <- (DecimalN.Unsigned.of_to n) at 2.
  destruct (N.to_uint n) eqn:E; try (by rewrite <- E, int_of_uint); done.
Qed.

Lemma uint_digits (d : Decimal.uint) :
  forallb isdigit (list_ascii_of_string (NilEmpty.string_of_uint d)) = true.
Proof. induction d; cbn; done. Qed.

Lemma repr_int_digits (n : N) :
  Py.repr_int n ≠ [] ∧ forallb isdigit (Py.repr_int n) = true.
Proof.
  unfold Py.repr_int, lit, NilZero.string_of_uint.
  destruct (N.to_uint n); (split; [done|]); try done;
    match goal with |- context [NilEmpty.string_of_uint ?d] => apply (uint_digits d) end.
Qed.

(** X6.  A number written in decimal is read back as that number: when
    the first digits of a field value of the ASCII range are the decimal
    writing of [n], in at most 4300 digits, [int] does not raise and the
    value reads as [n]. *)
Theorem first_integer_decimal (n : N) (pre rest : str) :
  ascii_text pre = true → ascii_text rest = true →
  forallb (λ c, negb (isdigit c)) pre = true →
  match rest with [] => True | d :: _ => isdigit d = false end →
  length (Py.repr_int n) ≤ Py.MAX_STR_DIGITS →
  first_integer_raises (pre ++ Py.repr_int n ++ rest) = false ∧
  first_integer (pre ++ Py.repr_int n ++ rest) = Some n.
Proof.
  intros _ _ Hpre Hrest Hlen. destruct (repr_int_digits n) as [Hne Hds].
  rewrite first_integer_raises_run, first_integer_run by done.
  rewrite int_repr_int. split; [|done]. apply bool_decide_eq_false. lia.
Qed.

Lemma first_integer_decimal_witness :
  first_integer_raises (lit "approximately " ++ Py.repr_int 2026 ++ lit " pages") = false ∧
  first_integer (lit "approximately " ++ Py.repr_int 2026 ++ lit " pages") = Some 2026%N.
Proof.
  apply (first_integer_decimal 2026 "approximately " " pages"); try reflexivity.
  vm_compute. lia.
Defined.

(** ** The diagnostics and the shape of the record *)

Lemma truthy_false {X} (l : list X) : Py.truthy l = false ↔ l = [].
Proof. by destruct l. Qed.

Lemma negb_truthy_true {X} (l : list X) : negb (Py.truthy l) = true ↔ l = [].
Proof. by destruct l. Qed.

(** X7.  The diagnostics of a document.  The errors are, in the fixed
    order of the five required blocks, one message per required block that
    the document lacks or leaves empty, and nothing else; the record is
    marked as parsed exactly when there is none.  A missing complexity
    block is reported as a warning and never as an error. *)
Theorem diagnostics_spec (st : state_entry) (content : str) (pd fd : nat) (now : str) :
  let s := split_sections content in
  let r := parse_document st content pd fd now in
  r.2 = (λ k, k ++ lit " section missing")
          <$> filter (λ k, dict_get s k = []) required_blocks ∧
  (parsed (md_parse_status r.1.1) = true ↔
     ∀ k, k ∈ required_blocks → dict_get s k ≠ []) ∧
  (lit "COMPLEXITY ASSESSMENT section missing" ∈ r.1.2 ↔
     dict_get s "COMPLEXITY ASSESSMENT" = []) ∧
  lit "COMPLEXITY ASSESSMENT section missing" ∉ r.2.
Proof.
  intros s r.
  assert (r.2 = (λ k, k ++ lit " section missing")
                  <$> filter (λ k, dict_get s k = []) required_blocks) as Herr.
  { subst r. unfold parse_document, parse_sections. cbv zeta. fold s. cbn [snd].
    unfold required_blocks. rewrite !filter_cons, filter_nil.
    destruct (dict_get s "APPLICATION PROCESS") eqn:Ea;
    destruct (dict_get s "REQUIRED DOCUMENTS") eqn:Ed;
    destruct (dict_get s "INTERVIEW REQUIREMENTS") eqn:Ei;
    destruct (dict_get s "FORMS") eqn:Ef;
    destruct (dict_get s "LANGUAGE ACCESS") eqn:El;
    cbn [Py.truthy negb append_if app];
    rewrite ?decide_True by done; rewrite ?decide_False by done; reflexivity. }
  split; [exact Herr|]. split; [|split].
  - change (parsed (md_parse_status r.1.1)) with (bool_decide (length r.2 = 0)).
    rewrite bool_decide_eq_true, Herr, length_fmap, length_zero_iff_nil. split.
    + intros Hnil k Hk E.
      assert (k ∈ filter (λ k, dict_get s k = []) required_blocks) as Hin
        by (by apply list_elem_of_filter).
      rewrite Hnil in Hin. by apply elem_of_nil in Hin.
    + intros Hall. apply filter_none. intros k Hk. by apply Hall.
  - subst r. unfold parse_document, parse_sections. cbv zeta. fold s. cbn [fst snd].
    rewrite !elem_of_append_if, elem_of_nil. split.
    + intros [[[[[[]|[_ E]]|[_ E]]|[_ E]]|[_ E]]|[E _]];
        [by vm_compute in E..|by apply negb_truthy_true in E].
    + intros E. right. split; [by apply negb_truthy_true|done].
  - rewrite Herr. intros (k & E & Hk%list_elem_of_filter)%list_elem_of_fmap.
    destruct Hk as [_ Hk]. unfold required_blocks in Hk.
    rewrite !elem_of_cons, elem_of_nil in Hk.
    destruct Hk as [->|[->|[->|[->|[->|[]]]]]]; by vm_compute in E.
Qed.

(** The loop over the interview type options keeps recognised spellings
    only and writes them in one way. *)
Lemma interview_types_loop (raw : str) :
  Forall (λ t, t ∈ [lit "phone"; lit "in-person"; lit "both"])
    (foldl (λ interview_types t,
              let t := Py.lower (Py.strip t) in
              if bool_decide (t ∈ [lit "phone"; lit "in-person"; lit "in person"; lit "both"])
              then interview_types ++ [Py.replace "in person" "in-person" t]
              else interview_types)
           [] (Py.split_on (λ c, bool_decide (c ∈ lit ",/")) raw)).
Proof.
  rewrite (foldl_collect
             (λ t, let t := Py.lower (Py.strip t) in
                   if bool_decide (t ∈ [lit "phone"; lit "in-person"; lit "in person"; lit "both"])
                   then Some (Py.replace "in person" "in-person" t) else None)).
  - rewrite app_nil_l. apply Forall_forall. intros x (t & _ & Hx)%list_elem_of_omap.
    cbv zeta in Hx. case_bool_decide as Hin; [|done]. injection Hx as <-.
    rewrite !elem_of_cons, elem_of_nil in Hin.
    destruct Hin as [->|[->|[->|[->|[]]]]]; rewrite !elem_of_cons;
      [by left|right; by left|right; by left|right; right; by left].
  - intros acc t. cbv zeta. by case_bool_decide.
Qed.

(** X8.  The interview type options of a record are either null or a
    non-empty list, and every option is one of [phone], [in-person] and
    [both]: unrecognised options are dropped and the spelling [in person]
    is rewritten. *)
Theorem interview_types_enum (st : state_entry) (content : str) (pd fd : nat) (now : str) :
  match type_options (md_interview (parse_document st content pd fd now).1.1) with
  | None => True
  | Some l => l ≠ [] ∧ Forall (λ t, t ∈ [lit "phone"; lit "in-person"; lit "both"]) l
  end.
Proof.
  unfold parse_document, parse_sections. cbv zeta. cbn [fst md_interview type_options].
  destruct (extract_field _ "Interview Type Options") as [raw|]; [|done].
  destruct (Py.truthy raw); [|done].
  destruct (Py.truthy (foldl _ _ _)) eqn:E; [|done].
  split; [by apply truthy_true|]. apply interview_types_loop.
Qed.

(** X9.  Invariants of the record of a document, whatever the document.
    The flag of the documents list says whether the list is non-empty; the
    flag of the interview hours says whether their description is there;
    the two step counts are the same value, and it is there as soon as a
    step was found; the form total is there as soon as the table has a
    row; the identity of the state and the asset counts are the ones given. *)
Theorem record_invariants (st : state_entry) (content : str) (pd fd : nat) (now : str) :
  let m := (parse_document st content pd fd now).1.1 in
  (specified_on_website (md_documents m) = true ↔ document_list (md_documents m) ≠ []) ∧
  (hours_specified (md_interview m) = true ↔ is_Some (hours_description (md_interview m))) ∧
  app_steps_count (md_application m) = steps_count (md_complexity m) ∧
  (steps (md_application m) ≠ [] → is_Some (steps_count (md_complexity m))) ∧
  (form_list (md_forms m) ≠ [] → is_Some (total_count (md_forms m))) ∧
  md_state m = st_name st ∧ md_abbreviation m = st_abbreviation st ∧
  pages_downloaded (md_assets m) = pd ∧ forms_downloaded (md_assets m) = fd.
Proof.
  unfold parse_document, parse_sections. cbv zeta.
  cbn [fst md_documents md_interview md_application md_complexity md_forms md_assets
       specified_on_website document_list hours_specified hours_description
       app_steps_count steps_count steps form_list total_count md_state md_abbreviation
       pages_downloaded forms_downloaded].
  split; [|split; [|split; [done|split; [|split; [|done]]]]].
  - rewrite bool_decide_eq_true. destruct (extract_list_items _); simpl; [|split; [done|lia]].
    split; [lia|done].
  - destruct (extract_field _ "When Interviews Are Conducted"); [by split|].
    split; [done|]. by intros [? ?].
  - intros Hsteps%truthy_true. rewrite Hsteps, andb_true_r.
    case_bool_decide as E; [done|]. by apply not_eq_None_Some.
  - intros Hforms%truthy_true. rewrite Hforms, andb_true_r.
    case_bool_decide as E; [done|]. by apply not_eq_None_Some.
Qed.

(** ** Languages *)

Lemma split_on_free (p : ascii → bool) (s : str) :
  Forall (λ w, forallb (λ c, negb (p c)) w = true) (Py.split_on p s).
Proof.
  induction s as [|c s IH]; simpl; [by repeat constructor|].
  destruct (p c) eqn:Hc; [by constructor|].
  destruct (Py.split_on p s) as [|w ws]; [by repeat constructor; simpl; rewrite Hc|].
  inversion IH; subst. constructor; [|done]. simpl. by rewrite Hc.
Qed.

(** X10.  The language lists.  [split_langs] gives no list exactly when
    there is no text to split.  The languages of a list are never empty,
    never padded, and never hold a comma or a semicolon; on the value of a
    field, which is never empty, the list is there exactly when the field
    is. *)
Theorem split_langs_spec (raw : option str) (text name : str) :
  (split_langs raw = None ↔ raw = None ∨ raw = Some []) ∧
  (∀ l, split_langs raw = Some l →
     Forall (λ x, x ≠ [] ∧ Py.strip x = x ∧
                  forallb (λ c, negb (bool_decide (c ∈ lit ",;"))) x = true) l) ∧
  (split_langs (extract_field text name) = None ↔ extract_field text name = None).
Proof.
  assert (∀ raw, split_langs raw = None ↔ raw = None ∨ raw = Some []) as Hnone'.
  { clear raw. intros raw. destruct raw as [[|c s]|]; cbn.
    - split; [by right|done].
    - split; [by case_bool_decide|]. by intros [|].
    - split; [by left|done]. }
  split; [apply Hnone'|]. split.
  - intros l. destruct raw as [[|c s]|]; cbn [split_langs Py.truthy negb]; [done| |done].
    case_bool_decide as E.
    + intros [= <-]. by repeat constructor.
    + intros [= <-]. apply Forall_forall. intros x [Hx Hin]%list_elem_of_filter.
      apply truthy_true in Hx. split; [done|].
      apply list_elem_of_fmap in Hin as (y & -> & Hy). split; [apply strip_idemp|].
      apply strip_by_keeps.
      pose proof (split_on_free (λ c, bool_decide (c ∈ lit ",;")) (c :: s)) as Hfree.
      rewrite Forall_forall in Hfree. by apply Hfree.
  - rewrite Hnone'. split; [|by left].
    intros [?|E]; [done|].
    by apply extract_field_nonempty in E.
Qed.

Lemma split_langs_spec_witness :
  Forall (λ x, x ≠ [] ∧ Py.strip x = x ∧
               forallb (λ c, negb (bool_decide (c ∈ lit ",;"))) x = true)
         [lit "English"; lit "Spanish"] ∧
  split_langs (Some (lit "English, Spanish;")) = Some [lit "English"; lit "Spanish"].
Proof.
  split; [|reflexivity].
  apply (split_langs_spec (Some (lit "English, Spanish;")) [] []). reflexivity.
Defined.

(** ** What [parse_state] touches *)

Lemma record_of_after_parse_other w st st' m :
  st_folder_name st' ≠ st_folder_name st →
  record_of (world_after_parse w (st_folder_name st') m) st = record_of w st.
Proof.
  intros Hne. unfold record_of, world_after_parse. cbn [data_dir].
  by rewrite lookup_alter_ne.
Qed.

Lemma dom_after_parse w folder m :
  dom (data_dir (world_after_parse w folder m)) = dom (data_dir w).
Proof.
  unfold world_after_parse. cbn [data_dir]. apply set_eq. intros k.
  rewrite !elem_of_dom. destruct (decide (folder = k)) as [->|Hne].
  - rewrite lookup_alter_eq. destruct (data_dir w !! k); simpl; split; by intros [? ?].
  - by rewrite lookup_alter_ne.
Qed.

Lemma parse_failure_cases w st :
  match parse_failure w st with
  | Some exn =>
      document_of w st = Some (Unreadable exn) ∨
      (exn = lit "ValueError" ∧
       ∃ content, document_of w st = Some (Text content) ∧
                  Py.contains PLACEHOLDER_MARKER content = false ∧
                  parse_document_raises content = true)
  | None =>
      if is_parsed w st
      then ∃ content, document_of w st = Some (Text content) ∧
                      Py.contains PLACEHOLDER_MARKER content = false ∧
                      parse_document_raises content = false
      else document_of w st = None ∨
           ∃ content, document_of w st = Some (Text content) ∧
                      Py.contains PLACEHOLDER_MARKER content = true
  end.
Proof.
  unfold parse_failure, is_parsed.
  destruct (document_of w st) as [[content|exn]|]; [|by left|by left].
  destruct (Py.contains PLACEHOLDER_MARKER content) eqn:Hmark; cbn [negb]; [eauto|].
  destruct (parse_document_raises content) eqn:Hbad; [right|]; eauto.
Qed.

Lemma parse_state_failed st strict w exn :
  parse_failure w st = Some exn → parse_state st strict w = (Raise exn, w).
Proof.
  intros Hf. pose proof (parse_failure_cases w st) as H. rewrite Hf in H.
  destruct H as [Hdoc|(-> & content & Hdoc & Hmark & Hbad)].
  - by apply parse_state_unreadable.
  - by eapply parse_state_raises.
Qed.

(** X11.  What [parse_state] touches, whatever its outcome.  It prints
    nothing, leaves the states, the run log, every report and every asset
    listing as they are, creates no folder, and leaves every record in
    another folder as it is.  It raises when the report cannot be read and
    when a number of the report is too long for [int], and then nothing
    at all has changed.  Otherwise it returns: when the report is missing
    or pending, with no record and without any change, the clock
    included; when the report is parsed, with the record, after one
    reading of the clock and with a record file in the folder of the
    state. *)
Theorem parse_state_frame (st : state_entry) (strict : bool) (w : world) :
  let r := parse_state st strict w in
  states_json r.2 = states_json w ∧ parse_log r.2 = parse_log w ∧
  PARSE_LOG r.2 = PARSE_LOG w ∧ wall_clock r.2 = wall_clock w ∧
  stdout r.2 = stdout w ∧
  dom (data_dir r.2) = dom (data_dir w) ∧
  (∀ st', document_of r.2 st' = document_of w st') ∧
  (∀ st', assets_of r.2 st' = assets_of w st') ∧
  (∀ st', st_folder_name st' ≠ st_folder_name st → record_of r.2 st' = record_of w st') ∧
  match parse_failure w st with
  | Some exn => r = (Raise exn, w)
  | None =>
      if is_parsed w st
      then ticks r.2 = S (ticks w) ∧
           ∃ m ws es, r.1 = Ret (Some m, ws, es) ∧ is_Some (record_of r.2 st)
      else r.2 = w ∧ ∃ ws es, r.1 = Ret (None, ws, es)
  end.
Proof.
  pose proof (parse_failure_cases w st) as Hcases.
  destruct (parse_failure w st) as [exn|] eqn:Hf.
  - rewrite (parse_state_failed _ _ _ _ Hf). cbn. repeat split; done.
  - destruct (is_parsed w st) eqn:Hp.
    + destruct Hcases as (content & Hdoc & Hmark & Hok).
      rewrite (parse_state_parsed _ _ _ _ Hdoc Hmark Hok). cbn [fst snd].
      set (r := parse_document _ _ _ _ _).
      do 5 (split; [done|]).
      split; [apply dom_after_parse|].
      split; [intros st'; apply document_of_after_parse|].
      split; [intros st'; apply assets_of_after_parse|].
      split; [intros st' Hne; apply record_of_after_parse_other; congruence|].
      split; [done|]. exists r.1.1, r.1.2, r.2. split; [done|].
      by rewrite (record_of_after_parse _ _ _ content).
    + destruct Hcases as [Hdoc|(content & Hdoc & Hmark)].
      * rewrite (parse_state_missing _ _ _ Hdoc). cbn. repeat split; eauto.
      * rewrite (parse_state_placeholder _ _ _ _ Hdoc Hmark). cbn. repeat split; eauto.
Qed.

(** X12.  A state whose report is missing is skipped in silence.
    [parse_state] returns no record and puts its note in the position of
    the warnings, so that the errors are empty; [main] then counts the
    state as skipped and prints nothing: the note never reaches the output,
    and neither the world nor the other counters change. *)
Theorem missing_report_is_silent (st : state_entry) (strict : bool) (b : batch) (w : world) :
  document_of w st = None →
  parse_state st strict w = (Ret (None, [NOT_FOUND_NOTE], []), w) ∧
  main_step strict b st w = (Ret (skip_one b), w).
Proof.
  intros Hdoc. split; [by apply parse_state_missing|].
  unfold main_step, mbind, prog_bind. by rewrite (parse_state_missing _ _ _ Hdoc).
Qed.

Lemma missing_report_is_silent_witness :
  main_step false (Batch (JList []) 0 0 0 0) pending_state (sample_world sample_document)
    = (Ret (Batch (JList []) 0 0 0 1), sample_world sample_document).
Proof.
  apply (missing_report_is_silent pending_state false (Batch (JList []) 0 0 0 0)
           (sample_world sample_document)).
  vm_compute. reflexivity.
Defined.

(** ** One iteration of the loop, in full *)

Lemma main_step_failed strict b st w exn :
  parse_failure w st = Some exn → main_step strict b st w = (Raise exn, w).
Proof.
  intros Hf. unfold main_step, mbind, prog_bind.
  by rewrite (parse_state_failed _ _ _ _ Hf).
Qed.

Lemma main_step_skipped_full strict b st w :
  parse_failure w st = None → is_parsed w st = false →
  ∃ lines, main_step strict b st w = (Ret (skip_one b), printed w lines).
Proof.
  intros Hf Hp. pose proof (parse_failure_cases w st) as H. rewrite Hf, Hp in H.
  destruct H as [Hdoc|(content & Hdoc & Hmark)].
  - exists []. unfold main_step, mbind, prog_bind.
    rewrite (parse_state_missing _ _ _ Hdoc). unfold printed.
    rewrite app_nil_r. by destruct w.
  - eexists. by eapply main_step_placeholder.
Qed.

Lemma main_step_parsed_full strict b st w :
  parse_failure w st = None → is_parsed w st = true →
  ∃ w1 lines,
    same_inputs w w1 ∧ ticks w1 = S (S (ticks w)) ∧ stdout w1 = stdout w ++ lines ∧
    (∀ st', st_folder_name st ≠ st_folder_name st' → record_of w1 st' = record_of w st') ∧
    main_step strict b st w =
      (match run_log b with
       | JList l =>
           Ret (Batch (JList (l ++ [log_entry st (wall_clock w (S (ticks w)))
                                              (report_of w st).1 (report_of w st).2]))
                      (total_errors b + length (report_of w st).2)
                      (total_warnings b + length (report_of w st).1)
                      (S (processed b)) (skipped b))
       | _ => Raise "AttributeError"
       end, w1).
Proof.
  intros Hf Hp. pose proof (parse_failure_cases w st) as H. rewrite Hf, Hp in H.
  destruct H as (content & Hdoc & Hmark & Hok).
  unfold main_step, mbind, prog_bind.
  rewrite (parse_state_parsed _ _ _ _ Hdoc Hmark Hok). cbv zeta.
  set (r := parse_document st content _ _ _) in *.
  assert (report_of w st = (r.1.2, r.2)) as ->
    by (unfold report_of; rewrite Hdoc; reflexivity).
  cbn [fst snd]. rewrite print_run. rewrite !for_each_print.
  unfold utc_now, log_append. clearbody r.
  eexists (World (states_json w)
                 (data_dir (world_after_parse w (st_folder_name st) r.1.1))
                 (parse_log w) (PARSE_LOG w) (wall_clock w)
                 (S (S (ticks w))) (stdout w ++ _)), _.
  split; [|split; [reflexivity|split; [reflexivity|split]]].
  - eapply same_inputs_trans; [apply (same_inputs_after_parse w st r.1.1)|].
    by repeat split.
  - intros st' Hne.
    rewrite <- (record_of_after_parse_other w st' st r.1.1 Hne). reflexivity.
  - unfold printed, world_after_parse, mret, prog_ret, raise.
    cbn [states_json data_dir parse_log PARSE_LOG wall_clock ticks stdout].
    rewrite <- !app_assoc. by destruct (run_log b).
Qed.

(** ** The loop of [main], in full *)

Lemma batch_parsed_same w w' sts :
  same_inputs w w' → batch_parsed w' sts = batch_parsed w sts.
Proof. intros H. unfold batch_parsed. by rewrite (filter_parsed_same w w'). Qed.

Lemma batch_errors_same w w' sts :
  same_inputs w w' → batch_errors w' sts = batch_errors w sts.
Proof.
  intros H. unfold batch_errors. rewrite (filter_parsed_same w w') by done.
  f_equal. apply list_fmap_ext. intros _ st _. by rewrite (report_of_same w w').
Qed.

Lemma batch_warnings_same w w' sts :
  same_inputs w w' → batch_warnings w' sts = batch_warnings w sts.
Proof.
  intros H. unfold batch_warnings. rewrite (filter_parsed_same w w') by done.
  f_equal. apply list_fmap_ext. intros _ st _. by rewrite (report_of_same w w').
Qed.

Lemma batch_parsed_le w sts : batch_parsed w sts ≤ length sts.
Proof. apply length_filter. Qed.

Lemma batch_cons w st sts :
  batch_parsed w (st :: sts) = (if is_parsed w st then 1 else 0) + batch_parsed w sts ∧
  batch_errors w (st :: sts)
    = (if is_parsed w st then length (report_of w st).2 else 0) + batch_errors w sts ∧
  batch_warnings w (st :: sts)
    = (if is_parsed w st then length (report_of w st).1 else 0) + batch_warnings w sts.
Proof.
  unfold batch_parsed, batch_errors, batch_warnings. rewrite filter_cons.
  destruct (is_parsed w st).
  - by rewrite decide_True by done.
  - by rewrite decide_False by done.
Qed.

Lemma untouched_cons w st sts st' :
  untouched w (st :: sts) st' →
  (is_parsed w st = true → st_folder_name st ≠ st_folder_name st') ∧ untouched w sts st'.
Proof.
  intros H. split.
  - apply H. left.
  - intros s Hs. apply H. by right.
Qed.

Lemma untouched_same w w' sts st' :
  same_inputs w w' → untouched w sts st' → untouched w' sts st'.
Proof.
  intros Hsame H s Hs Hp. apply H; [done|]. by rewrite <- (is_parsed_same w w').
Qed.

Lemma record_of_printed w lines st : record_of (printed w lines) st = record_of w st.
Proof. done. Qed.

Lemma batch_stop_same w w' c sts :
  same_inputs w w' → batch_stop w' c sts = batch_stop w c sts.
Proof.
  intros H. induction sts as [|st sts IH]; [done|]. cbn [batch_stop].
  by rewrite (parse_failure_same w w'), (is_parsed_same w w'), IH.
Qed.

Lemma log_with_nil j : log_with j [] = j.
Proof. destruct j; try done. cbn. by rewrite app_nil_r. Qed.

(** The loop of [main], whatever the run log and the reports: it stops at
    the first state that makes it raise, and otherwise goes through all
    the states. *)
Lemma main_loop_general strict sts :
  ∀ b w,
  ∃ out w' lines,
    for_each (main_step strict) b sts w = (out, w') ∧
    same_inputs w w' ∧ stdout w' = stdout w ++ lines ∧
    (∀ st', untouched w sts st' → record_of w' st' = record_of w st') ∧
    match batch_stop w (is_list (run_log b)) sts with
    | Some exn => out = Raise exn
    | None =>
        ∃ b', out = Ret b' ∧
              run_log b' = log_with (run_log b) (entries_from w (ticks w) sts) ∧
              total_errors b' = total_errors b + batch_errors w sts ∧
              total_warnings b' = total_warnings b + batch_warnings w sts ∧
              processed b' = processed b + batch_parsed w sts ∧
              skipped b' = skipped b + (length sts - batch_parsed w sts)
    end.
Proof.
  induction sts as [|st sts IH]; intros b w.
  - exists (Ret b), w, []. split; [done|]. split; [apply same_inputs_refl|].
    rewrite app_nil_r. split; [done|]. split; [done|].
    exists b. split; [done|]. split; [by rewrite log_with_nil|]. cbn. lia.
  - cbn [for_each batch_stop]. unfold mbind, prog_bind at 1.
    destruct (batch_cons w st sts) as (Hp & He & Hw).
    pose proof (batch_parsed_le w sts) as Hle.
    destruct (parse_failure w st) as [exn|] eqn:Hf.
    { rewrite (main_step_failed _ _ _ _ _ Hf). exists (Raise exn), w, [].
      split; [done|]. split; [apply same_inputs_refl|]. by rewrite app_nil_r. }
    rewrite entries_from_cons, Hp, He, Hw. destruct (is_parsed w st) eqn:Hparsed.
    + destruct (main_step_parsed_full strict b st w Hf Hparsed)
        as (w1 & lines1 & Hsame & Hticks & Hout & Hrec & ->).
      destruct (run_log b) as [| | | |l|] eqn:Hlog; cbn [is_list negb andb];
        try (exists (Raise "AttributeError"), w1, lines1;
             split; [done|]; split; [done|]; split; [done|]; split; [|done];
             intros st' [Hst _]%untouched_cons; by apply Hrec, Hst).
      destruct (IH (Batch (JList (l ++ [log_entry st (wall_clock w (S (ticks w)))
                                         (report_of w st).1 (report_of w st).2]))
                          (total_errors b + length (report_of w st).2)
                          (total_warnings b + length (report_of w st).1)
                          (S (processed b)) (skipped b)) w1)
        as (out & w' & lines & -> & Hsame' & Hout' & Hrec' & Hres).
      exists out, w', (lines1 ++ lines). split; [done|].
      split; [by eapply same_inputs_trans|].
      split; [by rewrite Hout', Hout, app_assoc|].
      split.
      { intros st' [Hst Hrest]%untouched_cons.
        rewrite Hrec' by by eapply untouched_same. by apply Hrec, Hst. }
      cbn [run_log is_list] in Hres. rewrite (batch_stop_same w w1) in Hres by done.
      destruct (batch_stop w true sts); [done|].
      destruct Hres as (b' & -> & Hlog' & He' & Hw' & Hp' & Hs').
      exists b'. split; [done|].
      rewrite Hlog', He', Hw', Hp', Hs', Hticks.
      rewrite (entries_from_same w w1), (batch_errors_same w w1),
        (batch_warnings_same w w1), (batch_parsed_same w w1) by done.
      cbn [total_errors total_warnings processed skipped length log_with].
      rewrite <- app_assoc. split; [done|]. lia.
    + rewrite andb_false_l.
      destruct (main_step_skipped_full strict b st w Hf Hparsed) as (lines1 & ->).
      destruct (IH (skip_one b) (printed w lines1))
        as (out & w' & lines & -> & Hsame' & Hout' & Hrec' & Hres).
      pose proof (same_inputs_printed w lines1) as Hsame.
      exists out, w', (lines1 ++ lines). split; [done|].
      split; [by eapply same_inputs_trans|].
      split; [by rewrite Hout', app_assoc|].
      split.
      { intros st' [_ Hrest]%untouched_cons.
        by rewrite Hrec' by by eapply untouched_same. }
      change (run_log (skip_one b)) with (run_log b) in Hres.
      rewrite (batch_stop_same w (printed w lines1)) in Hres by done.
      destruct (batch_stop w (is_list (run_log b)) sts); [done|].
      destruct Hres as (b' & -> & Hlog' & He' & Hw' & Hp' & Hs').
      exists b'. split; [done|].
      rewrite Hlog', He', Hw', Hp', Hs'.
      rewrite (entries_from_same w (printed w lines1)),
        (batch_errors_same w (printed w lines1)),
        (batch_warnings_same w (printed w lines1)),
        (batch_parsed_same w (printed w lines1)) by done.
      cbn [skip_one total_errors total_warnings processed skipped length ticks printed].
      split; [done|]. lia.
Qed.

(** ** [main], from the command line to the exit status *)

(** [main] from the banner on, given how its loop ends. *)
Lemma main_tail (a : args) (w : world) (sts : list state_entry)
    (out1 : outcome batch) (w1 : world) :
  for_each (main_step (arg_strict a)) (Batch (prior_log w) 0 0 0 0) sts (printed w [BANNER])
    = (out1, w1) →
  (print (lit "=== parse_outputs ===" ++ [LF]);;
   log ← load_log;
   b ← for_each (main_step (arg_strict a)) (Batch log 0 0 0 0) sts;
   save_log (run_log b);;
   print ([LF] ++ lit "Done. " ++ repr_nat (processed b) ++ lit " parsed, "
               ++ repr_nat (skipped b) ++ lit " skipped.");;
   print (lit "Total warnings: " ++ repr_nat (total_warnings b)
               ++ lit ", Total errors: " ++ repr_nat (total_errors b));;
   path ← gets PARSE_LOG;
   print (lit "Log updated: " ++ path);;
   if arg_strict a && bool_decide (0 < total_errors b) then sys_exit 1 else mret ()) w
  = match out1 with
    | Ret b =>
        (if arg_strict a && bool_decide (0 < total_errors b) then Exit 1 else Ret (),
         printed (with_log w1 (run_log b))
           [ [LF] ++ lit "Done. " ++ repr_nat (processed b) ++ lit " parsed, "
                  ++ repr_nat (skipped b) ++ lit " skipped.";
             lit "Total warnings: " ++ repr_nat (total_warnings b)
                  ++ lit ", Total errors: " ++ repr_nat (total_errors b);
             lit "Log updated: " ++ PARSE_LOG w1 ])
    | Exit n => (Exit n, w1)
    | Raise e => (Raise e, w1)
    end.
Proof.
  intros H. unfold BANNER in H. unfold mbind, prog_bind at 1. rewrite print_run.
  unfold prog_bind at 1, load_log, gets at 1.
  fold (prior_log (printed w [lit "=== parse_outputs ===" ++ [LF]])).
  change (prior_log (printed w _)) with (prior_log w).
  unfold prog_bind at 1. rewrite H. destruct out1 as [b|n|e]; [|done|done].
  unfold prog_bind, save_log, modify, print, gets, sys_exit, mret, prog_ret, printed, with_log.
  cbn. rewrite <- !app_assoc. by destruct (arg_strict a && _).
Qed.

Lemma main_run (a : args) (w : world) (out1 : outcome batch) (w1 : world) :
  selected a w ≠ [] ∨ Py.truthy_opt (arg_state a) = false →
  for_each (main_step (arg_strict a)) (Batch (prior_log w) 0 0 0 0) (selected a w)
           (printed w [BANNER]) = (out1, w1) →
  main a w
  = match out1 with
    | Ret b =>
        (if arg_strict a && bool_decide (0 < total_errors b) then Exit 1 else Ret (),
         printed (with_log w1 (run_log b))
           [ [LF] ++ lit "Done. " ++ repr_nat (processed b) ++ lit " parsed, "
                  ++ repr_nat (skipped b) ++ lit " skipped.";
             lit "Total warnings: " ++ repr_nat (total_warnings b)
                  ++ lit ", Total errors: " ++ repr_nat (total_errors b);
             lit "Log updated: " ++ PARSE_LOG w1 ])
    | Exit n => (Exit n, w1)
    | Raise e => (Raise e, w1)
    end.
Proof.
  intros Hsel H. rewrite <- (main_tail a w (selected a w) out1 w1 H). clear H.
  unfold selected in *.
  destruct (arg_state a) as [abbrev|] eqn:Hstate; cbn [Py.truthy_opt] in Hsel.
  - destruct (Py.truthy abbrev) eqn:Habbrev.
    + destruct Hsel as [Hsel|?]; [|done].
      destruct (filter _ (states_json w)) as [|st sts] eqn:Hfilter; [done|].
      unfold main, mbind at 1, prog_bind at 1, load_states, gets at 1.
      rewrite Hstate, Habbrev, Hfilter. reflexivity.
    + unfold main, mbind at 1, prog_bind at 1, load_states, gets at 1.
      rewrite Hstate, Habbrev. reflexivity.
  - unfold main, mbind at 1, prog_bind at 1, load_states, gets at 1.
    rewrite Hstate. reflexivity.
Qed.

Lemma main_no_state (a : args) (w : world) (abbrev : str) :
  arg_state a = Some abbrev → abbrev ≠ [] → selected a w = [] →
  main a w = (Exit 1, printed w [NO_STATE_LINE abbrev]).
Proof.
  intros Hstate Hne%truthy_nonempty Hsel. unfold selected in Hsel.
  rewrite Hstate, Hne in Hsel.
  unfold main, mbind at 1, prog_bind at 1, load_states, gets at 1.
  rewrite Hstate, Hne, Hsel. reflexivity.
Qed.

(** X13.  A [--state] that names no state of [states.json], letter case
    apart, stops the run at once: [main] prints one line that quotes the
    abbreviation and exits with status 1.  Nothing is parsed, the run log
    is neither read nor written (it is not even created), and the clock is
    not read. *)
Theorem main_unknown_state (a : args) (w : world) (abbrev : str) :
  arg_state a = Some abbrev → abbrev ≠ [] →
  (∀ s, s ∈ states_json w → Py.upper (st_abbreviation s) ≠ Py.upper abbrev) →
  main a w = (Exit 1, printed w [NO_STATE_LINE abbrev]).
Proof.
  intros Hstate Hne Hnone. apply main_no_state; try done.
  unfold selected. rewrite Hstate, truthy_nonempty by done.
  apply filter_none. intros s Hs. by apply Hnone.
Qed.

Lemma main_unknown_state_witness :
  main (Args (Some (lit "zz")) true) sample_batch_world
    = (Exit 1, printed sample_batch_world [NO_STATE_LINE "zz"]).
Proof.
  apply (main_unknown_state (Args (Some (lit "zz")) true) sample_batch_world "zz");
    [reflexivity|done|].
  intros s Hs. unfold sample_batch_world in Hs. cbn [states_json] in Hs.
  rewrite !elem_of_cons, elem_of_nil in Hs. destruct Hs as [->|[->|[]]]; by vm_compute.
Defined.




(** [main] from its loop to its end, in terms of what stops the loop. *)
Lemma main_outcome (a : args) (w : world) :
  selected a w ≠ [] ∨ Py.truthy_opt (arg_state a) = false →
  ∃ out w' lines,
    main a w = (out, w') ∧
    states_json w' = states_json w ∧
    (∀ st, document_of w' st = document_of w st) ∧
    (∀ st, assets_of w' st = assets_of w st) ∧
    (∀ st', untouched w (selected a w) st' → record_of w' st' = record_of w st') ∧
    match batch_stop w (is_list (prior_log w)) (selected a w) with
    | Some exn => out = Raise exn ∧ parse_log w' = parse_log w
    | None =>
        out = (if arg_strict a && bool_decide (0 < batch_errors w (selected a w))
               then Exit 1 else Ret ()) ∧
        parse_log w'
          = GoodLog (log_with (prior_log w) (new_entries w (selected a w))) ∧
        stdout w' = stdout w ++ [BANNER] ++ lines ++ summary_lines w (selected a w)
    end.
Proof.
  intros Hsel.
  destruct (main_loop_general (arg_strict a) (selected a w) (Batch (prior_log w) 0 0 0 0)
              (printed w [BANNER]))
    as (out1 & w1 & lines & Hloop & Hsame & Hout & Hrec & Hres).
  pose proof (same_inputs_printed w [BANNER]) as Hsame0.
  cbn [run_log] in Hres.
  rewrite (batch_stop_same w (printed w [BANNER])) in Hres by done.
  rewrite (main_run a w _ _ Hsel Hloop).
  destruct (same_inputs_trans _ _ _ Hsame0 Hsame) as (Hst & Hdoc & Has & _ & Hlog & Hpath).
  destruct (batch_stop w (is_list (prior_log w)) (selected a w)) as [exn|].
  - subst out1. exists (Raise exn), w1, lines. repeat split; try done.
  - destruct Hres as (b & -> & Hlog' & He & Hw & Hp & Hs).
    rewrite (entries_from_same w (printed w [BANNER])) in Hlog' by done.
    rewrite (batch_errors_same w (printed w [BANNER])) in He by done.
    rewrite (batch_warnings_same w (printed w [BANNER])) in Hw by done.
    rewrite (batch_parsed_same w (printed w [BANNER])) in Hp, Hs by done.
    cbn [total_errors total_warnings processed skipped run_log ticks printed] in *.
    eexists _, _, lines. split; [reflexivity|].
    cbn [printed with_log states_json data_dir parse_log stdout].
    split; [done|]. split; [exact Hdoc|]. split; [exact Has|]. split; [exact Hrec|].
    split; [by rewrite He|]. split; [by rewrite Hlog'|].
    rewrite Hout. cbn [printed stdout].
    rewrite <- !app_assoc. do 2 f_equal. unfold summary_lines.
    by rewrite He, Hw, Hp, Hs, Hpath.
Qed.







(** X16.  What a batch run touches, whatever its arguments, the state of
    the log and the way it ends.  [main] leaves the list of states, every
    report and every asset listing as they are, and it leaves the record
    of a folder as it is unless a selected state with a parsed document
    lives in that folder. *)
Theorem main_frame (a : args) (w : world) :
  let r := main a w in
  states_json r.2 = states_json w ∧
  (∀ st, document_of r.2 st = document_of w st) ∧
  (∀ st, assets_of r.2 st = assets_of w st) ∧
  (∀ st', untouched w (selected a w) st' → record_of r.2 st' = record_of w st').
Proof.
  destruct (decide (selected a w ≠ [] ∨ Py.truthy_opt (arg_state a) = false)) as [Hsel|Hsel].
  - destruct (main_outcome a w Hsel) as (out & w' & lines & Hmain & ? & ? & ? & ? & _).
    cbv zeta. by rewrite Hmain.
  - destruct (arg_state a) as [abbrev|] eqn:Hstate; [|destruct Hsel; by right].
    destruct abbrev as [|c abbrev]; [destruct Hsel; by right|].
    destruct (selected a w) as [|st sts] eqn:Hnone; [|destruct Hsel; by left].
    cbv zeta. rewrite (main_no_state a w (c :: abbrev)) by done. done.
Qed.

(** ** The names and the contents of the sections *)

Lemma header_key_normalized (line k : str) :
  header_key line = Some k → Py.upper k = k ∧ Py.strip k = k.
Proof.
  unfold header_key. destruct (header_match line) as [g|]; [|done].
  intros [= <-]. split; [apply upper_upper|].
  by rewrite strip_upper, strip_idemp.
Qed.

Lemma header_key_line (ws name : str) (c : ascii) :
  ws ≠ [] → forallb isspace ws = true → isspace c = false →
  forallb not_newline (c :: name) = true →
  header_key (lit "##" ++ ws ++ c :: name) = Some (Py.upper (Py.strip (c :: name))).
Proof.
  intros Hne Hws Hc Hname. unfold header_key, header_match.
  rewrite (exact_eq "##").
  assert (Re.run isspace (ws ++ c :: name) = length ws) as Hrun.
  { rewrite run_app_all, run_stop by done. lia. }
  erewrite greedy_longest; [done| |].
  - rewrite Hrun. destruct ws; [done|simpl; lia].
  - rewrite Hrun, drop_app_length. by apply dot_plus_line.
Qed.

Lemma join_keeps (q : ascii → bool) (sep : str) (ls : list str) :
  forallb q sep = true → Forall (λ l, forallb q l = true) ls →
  forallb q (Py.join sep ls) = true.
Proof.
  intros Hsep. induction ls as [|l ls IH]; [done|].
  intros Hls. inversion Hls as [|? ? Hl Hls']; subst. cbn [Py.join].
  destruct ls as [|l' ls]; [done|]. rewrite !forallb_app, Hl, Hsep. by rewrite IH.
Qed.

Lemma line_unix (line : str) :
  forallb (λ c, negb (is_linebreak c)) line = true → unix_lines line = true.
Proof.
  unfold unix_lines. induction line as [|c l IH]; [done|]. simpl.
  intros [-> Hl]%andb_prop. by rewrite IH.
Qed.

(** X17.  The names and the contents of the sections.  A header line made
    of [##], blanks and a name gives the name in capitals and trimmed, so
    that a block is found whatever the letter case and the padding of its
    header.  Every name in the map of a document is [_preamble] or comes
    from a header line of the document, and is then in capitals and
    trimmed.  Every content is free of line boundaries other than the line
    feed: the other line endings of the document are rewritten. *)
Theorem section_names_and_contents (text : str) :
  (∀ ws name c,
     ws ≠ [] → forallb isspace ws = true → isspace c = false →
     forallb not_newline (c :: name) = true →
     header_key (lit "##" ++ ws ++ c :: name) = Some (Py.upper (Py.strip (c :: name)))) ∧
  (∀ k v, split_sections text !! k = Some v →
     (k = lit "_preamble" ∨
      ∃ line, line ∈ Py.splitlines text ∧ header_key line = Some k ∧
              Py.upper k = k ∧ Py.strip k = k) ∧
     unix_lines v = true).
Proof.
  split; [intros ws name c; apply header_key_line|].
  intros k v Hv.
  destruct (blocks_of_spec (Py.splitlines text)) as (Hlines & Hpre & Hbs).
  set (pre := (blocks_of (Py.splitlines text)).1) in *.
  set (bs := (blocks_of (Py.splitlines text)).2) in *.
  rewrite (split_sections_of_blocks text pre bs) in Hv by done.
  apply fmap_Some in Hv as (a & Ha & ->).
  apply last_Some_elem_of, list_elem_of_filter in Ha as [Hk Ha].
  pose proof (splitlines_no_break text) as Hfree. rewrite Forall_forall in Hfree.
  assert (∀ ls : list str, (∀ l, l ∈ ls → l ∈ Py.splitlines text) →
            unix_lines (Py.join [LF] ls) = true) as Hjoin.
  { intros ls Hsub. apply join_keeps; [done|]. apply Forall_forall.
    intros l Hl. by apply line_unix, Hfree, Hsub. }
  unfold assignments in Ha. apply elem_of_cons in Ha as [->|Ha].
  - split; [by left|]. apply Hjoin. intros l Hl. rewrite Hlines.
    apply elem_of_app. by left.
  - apply list_elem_of_fmap in Ha as (b & -> & Hb). cbn [fst snd] in *.
    rewrite Forall_forall in Hbs. destruct (Hbs b Hb) as [Hkey _].
    assert (∀ l, l ∈ block_header b :: block_lines b → l ∈ Py.splitlines text) as Hsub.
    { intros l Hl. rewrite Hlines. apply elem_of_app. right. unfold block_text.
      apply list_elem_of_In, in_concat. exists (block_header b :: block_lines b).
      split; [|by apply list_elem_of_In].
      apply list_elem_of_In, list_elem_of_fmap. eauto. }
    split.
    + right. exists (block_header b). rewrite <- Hk.
      split; [apply Hsub; left|]. split; [done|]. by eapply header_key_normalized.
    + apply Hjoin. intros l Hl. apply Hsub. by right.
Qed.

Lemma section_names_and_contents_witness :
  header_key "##   Forms " = Some (lit "FORMS") ∧
  unix_lines (lit "a" ++ [LF] ++ lit "b") = true.
Proof.
  split.
  - apply (proj1 (section_names_and_contents []) "   " "orms " "F"%char);
      reflexivity || done.
  - apply (proj2 (section_names_and_contents
                    (lit "## Forms" ++ [CR; LF] ++ lit "a" ++ [CR; LF] ++ lit "b"))
             "FORMS" (lit "a" ++ [LF] ++ lit "b")).
    vm_compute. reflexivity.
Defined.

(** ** Blocks that do not matter *)

Lemma lookup_other_block text text' pre bs1 b bs2 k :
  Py.splitlines text = pre ++ block_text (bs1 ++ b :: bs2) →
  Py.splitlines text' = pre ++ block_text (bs1 ++ bs2) →
  Forall (λ l, header_match l = None) pre →
  Forall well_formed_block (bs1 ++ b :: bs2) →
  k ≠ block_name b →
  split_sections text' !! k = split_sections text !! k.
Proof.
  intros Hlines Hlines' Hpre Hbs Hk.
  assert (Forall well_formed_block (bs1 ++ bs2)) as Hbs'.
  { rewrite Forall_app in *. destruct Hbs as [? Hbs]. inversion Hbs; subst. done. }
  rewrite (split_sections_of_blocks text pre (bs1 ++ b :: bs2)) by done.
  rewrite (split_sections_of_blocks text' pre (bs1 ++ bs2)) by done.
  unfold assignments. rewrite !fmap_app, fmap_cons.
  by rewrite !filter_cons, !filter_app, filter_cons_False by (cbn; congruence).
Qed.

Lemma parse_sections_known (st : state_entry) (s s' : gmap str str)
    (pd fd : nat) (now : str) :
  (∀ k, k ∈ known_blocks → dict_get s' k = dict_get s k) →
  parse_sections st s' pd fd now = parse_sections st s pd fd now.
Proof.
  intros H.
  assert (∀ k, bool_decide (k ∈ known_blocks) = true → dict_get s' k = dict_get s k) as H'
    by (intros k Hk; apply H; by apply bool_decide_eq_true in Hk).
  unfold parse_sections.
  rewrite (H' "_preamble"), (H' "APPLICATION PROCESS"), (H' "REQUIRED DOCUMENTS"),
    (H' "INTERVIEW REQUIREMENTS"), (H' "FORMS"), (H' "LANGUAGE ACCESS"),
    (H' "COMPLEXITY ASSESSMENT"), (H' "URLS REFERENCED") by (vm_compute; reflexivity).
  reflexivity.
Qed.

(** X18.  A block that the parser does not know is ignored.  Taking a
    block out of a document, or putting one in, changes nothing in the
    result, timestamp apart, when its name is none of the eight names that
    [parse_state] looks up; other blocks may bear the same name. *)
Theorem unknown_block_ignored (st : state_entry) (text text' : str)
    (pre : list str) (bs1 : list section_block) (b : section_block)
    (bs2 : list section_block) (pd fd : nat) (now : str) :
  Py.splitlines text = pre ++ block_text (bs1 ++ b :: bs2) →
  Py.splitlines text' = pre ++ block_text (bs1 ++ bs2) →
  Forall (λ l, header_match l = None) pre →
  Forall well_formed_block (bs1 ++ b :: bs2) →
  block_name b ∉ known_blocks →
  parse_document st text' pd fd now = parse_document st text pd fd now.
Proof.
  intros Hlines Hlines' Hpre Hbs Hb. unfold parse_document. cbv zeta.
  apply parse_sections_known. intros k Hk. unfold dict_get.
  rewrite (lookup_other_block text text' pre bs1 b bs2 k); [done..|].
  intros ->. done.
Qed.

Lemma unknown_block_ignored_witness :
  parse_document sample_state
    (lit "intro" ++ [LF] ++ lit "## FORMS" ++ [LF] ++ lit "none") 0 0 []
  = parse_document sample_state
      (lit "intro" ++ [LF] ++ lit "## REVIEWER NOTES" ++ [LF] ++ lit "checked" ++ [LF]
         ++ lit "## FORMS" ++ [LF] ++ lit "none") 0 0 [].
Proof.
  apply (unknown_block_ignored sample_state _ _ [lit "intro"] []
           (Block "## REVIEWER NOTES" "REVIEWER NOTES" [lit "checked"])
           [Block "## FORMS" "FORMS" [lit "none"]]).
  - reflexivity.
  - reflexivity.
  - by repeat constructor.
  - repeat constructor; reflexivity.
  - apply (bool_decide_unpack _). vm_compute. reflexivity.
Defined.

(** ** The order of the blocks *)

Lemma filter_key_unique {X} (l : list (str * X)) (k : str) :
  NoDup (fst <$> l) → length (filter (λ a, a.1 = k) l) ≤ 1.
Proof.
  induction l as [|a l IH]; [simpl; lia|].
  rewrite fmap_cons. intros [Ha Hl]%NoDup_cons. rewrite filter_cons. case_decide as E.
  - rewrite filter_none; [simpl; lia|]. intros a' Ha' E'. apply Ha.
    apply list_elem_of_fmap. exists a'. split; [congruence|done].
  - by apply IH.
Qed.

Lemma short_permutation {X} (l l' : list X) : length l ≤ 1 → l ≡ₚ l' → l = l'.
Proof.
  destruct l as [|x [|y l]]; simpl; [| |lia].
  - intros _ H. by apply Permutation_nil_l in H.
  - intros _ H. by apply Permutation_singleton_l in H.
Qed.

(** X19.  The order of the blocks does not matter.  Two documents with
    the same preamble and the same blocks under distinct names, in any
    order, give the same map of sections and therefore the same result,
    timestamp apart. *)
Theorem block_order_irrelevant (st : state_entry) (text text' : str)
    (pre : list str) (bs bs' : list section_block) (pd fd : nat) (now : str) :
  Py.splitlines text = pre ++ block_text bs →
  Py.splitlines text' = pre ++ block_text bs' →
  Forall (λ l, header_match l = None) pre →
  Forall well_formed_block bs →
  bs ≡ₚ bs' →
  NoDup (block_name <$> bs) →
  split_sections text' = split_sections text ∧
  parse_document st text' pd fd now = parse_document st text pd fd now.
Proof.
  intros Hlines Hlines' Hpre Hbs Hperm Hnodup.
  assert (split_sections text' = split_sections text) as Heq.
  { apply map_eq. intros k.
    rewrite (split_sections_of_blocks text pre bs) by done.
    rewrite (split_sections_of_blocks text' pre bs') by (by rewrite <- ?Hperm).
    unfold assignments. rewrite !filter_cons.
    replace (filter (λ a, a.1 = k) ((λ b, (block_name b, block_lines b)) <$> bs'))
      with (filter (λ a, a.1 = k) ((λ b, (block_name b, block_lines b)) <$> bs)); [done|].
    apply short_permutation.
    - apply filter_key_unique. by rewrite <- list_fmap_compose.
    - by rewrite Hperm. }
  split; [done|]. unfold parse_document. cbv zeta. by rewrite Heq.
Qed.

Lemma block_order_irrelevant_witness :
  split_sections (lit "intro" ++ [LF] ++ lit "## NOTES" ++ [LF] ++ lit "y" ++ [LF]
                    ++ lit "## FORMS" ++ [LF] ++ lit "x")
  = split_sections (lit "intro" ++ [LF] ++ lit "## FORMS" ++ [LF] ++ lit "x" ++ [LF]
                      ++ lit "## NOTES" ++ [LF] ++ lit "y").
Proof.
  apply (block_order_irrelevant sample_state _ _ [lit "intro"]
           [Block "## FORMS" "FORMS" [lit "x"]; Block "## NOTES" "NOTES" [lit "y"]]
           [Block "## NOTES" "NOTES" [lit "y"]; Block "## FORMS" "FORMS" [lit "x"]] 0 0 []).
  - reflexivity.
  - reflexivity.
  - by repeat constructor.
  - repeat constructor; reflexivity.
  - apply perm_swap.
  - apply (bool_decide_unpack _). vm_compute. reflexivity.
Defined.

(** ** Sub-blocks and the URLs they list *)

Lemma span_no_hashes (r g : str) : span_of r g → Py.contains "###" (Py.strip g) = false.
Proof.
  intros (rest & -> & _ & Hfirst).
  destruct (Py.contains "###" (Py.strip g)) eqn:E; [|done].
  apply contains_spec in E as (pre & post & E).
  destruct (strip_by_infix isspace g) as (a & b & Eg & _).
  fold (Py.strip g) in Eg. rewrite E in Eg.
  specialize (Hfirst (length (a ++ pre))).
  rewrite Eg in Hfirst.
  replace ((a ++ (pre ++ lit "###" ++ post) ++ b) ++ rest)
    with ((a ++ pre) ++ lit "###" ++ post ++ b ++ rest) in Hfirst
    by (by rewrite <- !app_assoc).
  rewrite drop_app_length, startswith_app in Hfirst.
  discriminate Hfirst. rewrite !length_app. simpl. lia.
Qed.

(** X20.  What [get_subsection] returns is trimmed and never holds
    [###]: no sub-header, of this level or deeper, leaks into the text
    that the field extractors read. *)
Theorem get_subsection_clean (text name : str) :
  Py.strip (get_subsection text name) = get_subsection text name ∧
  Py.contains "###" (get_subsection text name) = false.
Proof.
  unfold get_subsection.
  destruct (Re.search (subsection_match name) text) as [g|] eqn:Hs; [|done].
  split; [apply strip_idemp|].
  apply first_match_Some_inv in Hs as (s & _ & Hm).
  apply subsection_match_Some_inv in Hm as (_ & _ & _ & r & _ & _ & _ & _ & _ & Hspan).
  by eapply span_no_hashes.
Qed.

Lemma get_subsection_found (name' before ws1 nm ws2 body rest : str) (c : ascii) :
  isspace c = false →
  ws1 ≠ [] → forallb isspace ws1 = true →
  Py.lower nm = Py.lower (c :: name') →
  forallb isspace ws2 = true →
  span_of (body ++ rest) body →
  (∀ j, j < length before →
     subsection_match (c :: name')
       (drop j (before ++ lit "###" ++ ws1 ++ nm ++ ws2 ++ LF :: body ++ rest)) = None) →
  get_subsection (before ++ lit "###" ++ ws1 ++ nm ++ ws2 ++ LF :: body ++ rest) (c :: name')
    = Py.strip body.
Proof.
  intros Hc Hne Hws1 Hnm Hws2 Hspan Hbefore. unfold get_subsection.
  rewrite search_skip by done.
  destruct (subsection_match_span name' _ ws1 nm ws2 body rest c Hc eq_refl
              Hne Hws1 Hnm Hws2 Hspan) as (g & Hg & Hstrip).
  by rewrite (search_here _ _ g Hg).
Qed.

Lemma subsection_match_needs_hashes (name s : str) :
  Py.startswith "###" s = false → subsection_match name s = None.
Proof. intros H. unfold subsection_match, Re.exact. by rewrite H. Qed.

Lemma no_hash_no_header (a b : str) (j : nat) :
  forallb (λ c, negb (bool_decide (c = "#"%char))) a = true →
  j < length a → Py.startswith "###" (drop j (a ++ b)) = false.
Proof.
  revert j. induction a as [|c a IH]; intros j Ha Hj; [simpl in Hj; lia|].
  simpl in Ha. apply andb_prop in Ha as [Hc Ha]. destruct j as [|j].
  - simpl. rewrite bool_decide_eq_false_2; [done|]. intros <-. by vm_compute in Hc.
  - apply IH; [done|]. simpl in Hj. lia.
Qed.

(** Counting matches. *)
Lemma count_skip (m : str → option nat) (n : nat) (s : str) :
  Re.count_matches m n s = Re.count_matches m 0 (drop n s).
Proof.
  revert n. induction s as [|c s IH]; intros [|n]; try done.
  cbn [Re.count_matches drop]. apply IH.
Qed.

Lemma count_here (m : str → option nat) (s : str) (n : nat) :
  m s = Some n → s ≠ [] → 1 ≤ n →
  Re.count_matches m 0 s = S (Re.count_matches m 0 (drop n s)).
Proof.
  intros Hm Hs Hn. destruct s as [|c s]; [done|]. destruct n as [|n]; [lia|].
  cbn [Re.count_matches drop]. rewrite Hm, count_skip.
  by replace (S n - 1) with n by lia.
Qed.

Lemma count_none (m : str → option nat) (c : ascii) (s : str) :
  m (c :: s) = None → Re.count_matches m 0 (c :: s) = Re.count_matches m 0 s.
Proof. intros Hm. cbn [Re.count_matches]. by rewrite Hm. Qed.

Lemma url_match_other (c : ascii) (s : str) : c ≠ "h"%char → url_match (c :: s) = None.
Proof. intros Hc. unfold url_match. apply exact_mismatch. congruence. Qed.

Lemma listed_url_inv (u : str) :
  listed_url u = true →
  ∃ scheme t, u = scheme ++ lit "://" ++ t ∧
              (scheme = lit "http" ∨ scheme = lit "https") ∧ t ≠ [] ∧
              forallb (λ c, negb (isspace c)) t = true ∧
              forallb (λ c, negb (bool_decide (c = "#"%char))) u = true.
Proof.
  unfold listed_url. intros [Hshape Hchars]%andb_prop.
  assert (forallb (λ c, negb (isspace c)) u = true ∧
          forallb (λ c, negb (bool_decide (c = "#"%char))) u = true) as [Hsp Hhash].
  { clear Hshape. induction u as [|c u IH]; [done|]. simpl in Hchars.
    apply andb_prop in Hchars as [[Hc1 Hc2]%andb_prop Hu]. destruct (IH Hu) as [? ?].
    simpl. by rewrite Hc1, Hc2. }
  apply orb_prop in Hshape as [[Hpre Hlen]%andb_prop|[Hpre Hlen]%andb_prop];
    apply startswith_spec in Hpre as [t ->]; apply bool_decide_eq_true in Hlen.
  - exists (lit "http"), t. split; [done|]. split; [by left|].
    split; [intros ->; simpl in Hlen; lia|]. split; [|done].
    change (lit "http://" ++ t) with ((lit "http://") ++ t) in Hsp.
    rewrite forallb_app in Hsp. by apply andb_prop in Hsp as [_ ?].
  - exists (lit "https"), t. split; [done|]. split; [by right|].
    split; [intros ->; simpl in Hlen; lia|]. split; [|done].
    rewrite forallb_app in Hsp. by apply andb_prop in Hsp as [_ ?].
Qed.

Lemma url_match_listed (u rest : str) :
  listed_url u = true →
  match rest with [] => True | d :: _ => isspace d = true end →
  url_match (u ++ rest) = Some (length u).
Proof.
  intros (scheme & t & -> & Hscheme & Hne & Ht & _)%listed_url_inv Hrest.
  assert (Re.greedy (λ c, negb (isspace c)) 1 (λ g _, Some (length g)) (t ++ rest)
          = Some (length t)) as Htail.
  { assert (Re.run (λ c, negb (isspace c)) (t ++ rest) = length t) as Hrun.
    { rewrite run_app_all by done. destruct rest as [|d rest]; [simpl; lia|].
      rewrite run_stop by (by rewrite Hrest). lia. }
    apply greedy_longest.
    - rewrite Hrun. destruct t; [done|simpl; lia].
    - by rewrite Hrun, take_app_length. }
  unfold url_match. destruct Hscheme as [->| ->].
  - rewrite <- !app_assoc. rewrite (exact_eq "http").
    match goal with
    | |- context [Re.exact (lit "s") ?k (lit "://" ++ ?x)] =>
        change (Re.exact (lit "s") k (lit "://" ++ x)) with (@None nat)
    end.
    rewrite (exact_eq "://"), Htail. reflexivity.
  - change (lit "https" ++ lit "://" ++ t) with (lit "http" ++ lit "s" ++ lit "://" ++ t).
    rewrite <- !app_assoc. rewrite (exact_eq "http"), (exact_eq "s").
    rewrite (exact_eq "://"), Htail. reflexivity.
Qed.

Lemma bullet_list_cons (u : str) (us : list str) :
  bullet_list (u :: us)
  = lit "- " ++ u ++ match us with [] => [] | _ :: _ => LF :: bullet_list us end.
Proof.
  unfold bullet_list. destruct us as [|u' us].
  - cbn. by rewrite app_nil_r.
  - rewrite !fmap_cons. cbn [Py.join]. by rewrite <- !app_assoc.
Qed.

Lemma count_bullet_list (us : list str) :
  Forall (λ u, listed_url u = true) us →
  Re.count_matches url_match 0 (bullet_list us) = length us.
Proof.
  induction us as [|u us IH]; [done|].
  intros Hus. inversion Hus as [|? ? Hu Hus']; subst.
  rewrite bullet_list_cons.
  change (lit "- " ++ ?x) with ("-"%char :: " "%char :: x).
  rewrite !count_none by (by apply url_match_other).
  destruct (listed_url_inv u Hu) as (scheme & t & Eu & Hscheme & Hne & _).
  assert (u ≠ []) as Hu0 by (intros ->; by destruct Hscheme as [-> | ->]).
  rewrite (count_here url_match _ (length u)).
  - rewrite drop_app_length. destruct us as [|u' us]; [done|].
    rewrite count_none by (by apply url_match_other). by rewrite (IH Hus').
  - apply url_match_listed; [done|]. by destruct us.
  - by destruct u.
  - destruct u; [done|simpl; lia].
Qed.

Lemma bullet_list_no_hash (us : list str) :
  Forall (λ u, listed_url u = true) us →
  forallb (λ c, negb (bool_decide (c = "#"%char))) (bullet_list us) = true.
Proof.
  intros Hus. unfold bullet_list. apply join_keeps; [done|].
  rewrite Forall_fmap. eapply Forall_impl; [exact Hus|].
  intros u (_ & _ & _ & _ & _ & _ & Hhash)%listed_url_inv. cbn. by rewrite Hhash.
Qed.

Lemma bullet_list_trimmed (us : list str) :
  Forall (λ u, listed_url u = true) us → Py.strip (bullet_list us) = bullet_list us.
Proof.
  intros Hus. apply strip_by_fixed.
  destruct us as [|u us]; [done|]. rewrite bullet_list_cons. split; [done|].
  clear -Hus. revert u Hus. induction us as [|u' us IH]; intros u Hus.
  - inversion Hus as [|? ? Hu _]; subst.
    destruct (listed_url_inv u Hu) as (scheme & t & -> & _ & Hne & Ht & _).
    destruct (exists_last Hne) as (t' & d & ->).
    exists (lit "- " ++ scheme ++ lit "://" ++ t'), d.
    split; [by rewrite app_nil_r, <- !app_assoc|].
    rewrite forallb_app in Ht. apply andb_prop in Ht as [_ Ht]. simpl in Ht.
    by destruct (isspace d).
  - inversion Hus as [|? ? Hu Hus']; subst.
    destruct (IH u' Hus') as (s' & d & E & Hd).
    rewrite bullet_list_cons. rewrite E.
    exists (lit "- " ++ u ++ LF :: s'), d. split; [|done].
    by rewrite <- !app_assoc.
Qed.

(** X21.  Counting the URLs of a report.  In a bullet list with one URL
    per line, every URL is counted once.  On the block of a report that
    lists the pages under [### Pages Visited] and the downloads under
    [### Downloadable Assets], [parse_urls_section] returns the numbers of
    the pages and of the downloads. *)
Theorem parse_urls_section_counts (pages downloads : list str) :
  Forall (λ u, listed_url u = true) pages →
  Forall (λ u, listed_url u = true) downloads →
  Re.count_matches url_match 0 (bullet_list pages) = length pages ∧
  parse_urls_section (urls_block pages downloads) = (length pages, length downloads).
Proof.
  intros Hp Hd. split; [by apply count_bullet_list|].
  pose proof (bullet_list_no_hash pages Hp) as Hhp.
  pose proof (bullet_list_no_hash downloads Hd) as Hhd.
  unfold parse_urls_section. cbv zeta.
  assert (get_subsection (urls_block pages downloads) "Pages Visited" = bullet_list pages)
    as ->.
  { transitivity (Py.strip (bullet_list pages ++ [LF]));
      [|rewrite <- (bullet_list_trimmed pages Hp) at 2;
        exact (strip_padded [] (bullet_list pages) [LF] eq_refl eq_refl)].
    pose proof (get_subsection_found "ages Visited" [] " " "Pages Visited" []
                  (bullet_list pages ++ [LF])
                  (lit "### Downloadable Assets" ++ [LF] ++ bullet_list downloads)
                  "P"%char) as H.
    rewrite <- !app_assoc in H. apply H; try done.
    - exists (lit "### Downloadable Assets" ++ [LF] ++ bullet_list downloads).
      split; [by rewrite <- !app_assoc|]. split; [by right|].
      intros j Hj. rewrite app_assoc. apply no_hash_no_header; [|done].
      by rewrite forallb_app, Hhp.
    - intros j Hj. simpl in Hj. lia. }
  assert (get_subsection (urls_block pages downloads) "Downloadable Assets"
          = bullet_list downloads) as ->.
  { transitivity (Py.strip (bullet_list downloads));
      [|by apply bullet_list_trimmed].
    pose proof (get_subsection_found "ownloadable Assets"
                  (lit "### Pages Visited" ++ [LF] ++ bullet_list pages ++ [LF])
                  " " "Downloadable Assets" [] (bullet_list downloads) [] "D"%char) as H.
    rewrite !app_nil_r in H. unfold urls_block.
    rewrite <- !app_assoc in H. apply H; try done.
    - exists []. rewrite app_nil_r. split; [done|]. split; [by left|].
      intros j Hj. rewrite <- (app_nil_r (bullet_list downloads)).
      by apply no_hash_no_header.
    - intros j Hj. destruct j as [|[|[|j]]]; [reflexivity..|].
      apply subsection_match_needs_hashes.
      change (drop (S (S (S j))) (lit "### Pages Visited" ++ ?x))
        with (drop j (lit " Pages Visited" ++ x)).
      match goal with
      | |- context [bullet_list pages ++ [LF] ++ ?rest] =>
          replace (lit " Pages Visited" ++ [LF] ++ bullet_list pages ++ [LF] ++ rest)
            with ((lit " Pages Visited" ++ [LF] ++ bullet_list pages ++ [LF]) ++ rest)
            by (by rewrite <- !app_assoc)
      end.
      apply no_hash_no_header.
      + rewrite !forallb_app, Hhp. done.
      + rewrite !length_app in *. simpl in *. lia. }
  by rewrite !count_bullet_list.
Qed.

Lemma parse_urls_section_counts_witness :
  parse_urls_section
    (urls_block [lit "https://example.org/snap"; lit "http://example.org/apply"]
                [lit "https://example.org/a.pdf"]) = (2, 1).
Proof.
  apply (parse_urls_section_counts
           [lit "https://example.org/snap"; lit "http://example.org/apply"]
           [lit "https://example.org/a.pdf"]); by repeat constructor.
Defined.

(** ** The texts of the record *)

Lemma normalize_value (x v : str) :
  normalize (Some x) = Some v → clean v ∧ Py.lower v ∉ sentinels.
Proof.
  intros [-> Hs]%normalize_Some_inv. split; [|done]. split; [|apply strip_idemp].
  intros E. apply Hs. rewrite E. unfold sentinels. rewrite !elem_of_cons.
  do 4 right. by left.
Qed.

Lemma extract_field_value (text name v : str) :
  extract_field text name = Some v → clean v ∧ Py.lower v ∉ sentinels.
Proof.
  unfold extract_field. destruct (Re.search _ _) as [g|]; [|done].
  apply normalize_value.
Qed.

Lemma strip_nil_inv (s : str) : Py.strip s = [] → forallb isspace s = true.
Proof.
  intros E. destruct (strip_by_infix isspace s) as (a & b & Es & Ha & Hb).
  fold (Py.strip s) in Es. rewrite E in Es. rewrite Es, forallb_app, Ha. done.
Qed.

Lemma bullet_item_clean (line x : str) : bullet_item line = Some x → clean x.
Proof.
  intros [(rest & _ & ->) [Hne _]]%bullet_item_spec. split; [done|apply strip_idemp].
Qed.

Lemma numbered_item_clean (line x : str) :
  forallb not_newline line = true → numbered_item line = Some x → clean x.
Proof.
  intros Hline [(ds & c & tail & E & _ & _ & _ & ->) _]%numbered_item_spec; [|done].
  split; [|apply strip_idemp].
  intros Hnil%strip_nil_inv.
  pose proof (trimmed_suffix_run isspace (Py.strip line) (ds ++ ["."%char]) (c :: tail)
                (strip_by_trimmed isspace line)) as Hrun.
  rewrite run_full in Hrun by done.
  assert (length (c :: tail) < length (c :: tail)); [|lia].
  apply Hrun; [|done]. by rewrite <- app_assoc.
Qed.

Lemma extract_list_items_clean (text : str) : Forall clean (extract_list_items text).
Proof.
  rewrite extract_list_items_omap. apply Forall_forall.
  intros x (line & _ & Hx)%list_elem_of_omap. by eapply bullet_item_clean.
Qed.

Lemma extract_numbered_steps_clean (text : str) : Forall clean (extract_numbered_steps text).
Proof.
  rewrite extract_numbered_steps_omap. apply Forall_forall.
  intros x (line & Hline & Hx)%list_elem_of_omap.
  eapply numbered_item_clean; [|done]. apply linebreak_free_no_newline.
  pose proof (splitlines_no_break text) as H. rewrite Forall_forall in H. by apply H.
Qed.

Lemma extract_form_table_clean (text : str) (f : form) (v : str) :
  f ∈ extract_form_table text →
  Some v ∈ [form_name f; form_number f; form_description f;
            form_language f; form_url f; form_file_type f] →
  clean v ∧ Py.lower v ∉ sentinels.
Proof.
  rewrite extract_form_table_omap. intros (cells & _ & Hf)%list_elem_of_omap.
  apply kept_row_spec in Hf as (? & ? & ? & ? & ? & ? & ? & _ & _ & _ & _ & _ & ->).
  cbn [form_name form_number form_description form_language form_url form_file_type].
  rewrite !elem_of_cons, elem_of_nil.
  intros [E|[E|[E|[E|[E|[E|[]]]]]]]; symmetry in E; by apply normalize_value in E.
Qed.

(** X22.  The texts of a record, whatever the document.  Every optional
    text, the fields of the forms included, is either null or a text that
    is not empty, not padded and not a sentinel: an absent value is always
    null and never an empty or a placeholder text.  Every step and every
    required document of the lists is a text that is not empty and not
    padded. *)
Theorem record_texts_clean (st : state_entry) (content : str) (pd fd : nat) (now : str) :
  let m := (parse_document st content pd fd now).1.1 in
  (∀ v, Some v ∈ text_fields m → clean v ∧ Py.lower v ∉ sentinels) ∧
  Forall clean (steps (md_application m)) ∧
  Forall clean (document_list (md_documents m)).
Proof.
  unfold parse_document, parse_sections. cbv zeta.
  cbn [fst text_fields md_application md_interview md_language_access md_complexity
       md_forms md_documents collected_date source_url online_url
       online_doc_submission_notes scheduling_who_initiates scheduling_url
       hours_description hours_notes reminder_method reschedule_method reschedule_url
       missed_interview_penalty good_cause_notes translation_method notes
       reading_level reading_level_notes form_list steps document_list].
  split; [|split].
  - intros v [Hv|Hv]%elem_of_app.
    + repeat (apply elem_of_cons in Hv as [Hv|Hv];
              [symmetry in Hv; by apply extract_field_value in Hv|]).
      by apply elem_of_nil in Hv.
    + apply elem_of_concat in Hv as (l & Hv & Hl).
      apply list_elem_of_fmap in Hl as (f & -> & Hf).
      apply (extract_form_table_clean _ f v Hf). exact Hv.
  - destruct (negb _); apply extract_numbered_steps_clean.
  - apply extract_list_items_clean.
Qed.
